(** * Negotiation protocol engine: buyer and seller fallback policies,
      message codec and session steps.

    Shallow embedding of [seller_server.py], [negotiation_agent.py],
    [buyer_client.py] and the orchestrator of [main.py].  Python integers
    are [Z]; Python floats are IEEE-754 binary64 values ([spec_float] at
    precision 53, the operations of [SpecFloat]); a Python [str] is the
    [string] of its UTF-8 bytes, so the texts are those that have one (no
    lone surrogate), and [bytes] are the [string] of the bytes themselves,
    which [valid_utf8] tells to be those of a [str]; a raised exception is
    the [Raise] case of [result].  The external models (Gemini for the
    seller, Ollama for the buyer) and the library functions whose results are
    only passed on are parameters of the sections that use them. *)

From Stdlib Require Import ZArith List Bool String Ascii Lia.
From Stdlib Require Import Floats.SpecFloat.
From Stdlib Require Import DecimalString DecimalZ DecimalPos DecimalFacts.
Import ListNotations.
Open Scope string_scope.
Open Scope Z_scope.

(* ================================================================== *)
(** * The Python run-time: exceptions, numbers, strings *)
(* ================================================================== *)

Module Py.

(** The exception classes the modelled code can raise. *)
Inductive exn : Type :=
| OverflowError
| ValueError
| TypeError
| KeyError
| AttributeError
| UnicodeDecodeError.

Inductive result (A : Type) : Type :=
| Ok (a : A)
| Raise (e : exn).
Arguments Ok {A} a.
Arguments Raise {A} e.

Definition bind {A B : Type} (m : result A) (k : A -> result B) : result B :=
  match m with
  | Ok a => k a
  | Raise e => Raise e
  end.

Definition is_ok {A : Type} (m : result A) : bool :=
  match m with Ok _ => true | Raise _ => false end.

(** ** Floats: binary64 *)

Definition prec : Z := 53.
Definition emax : Z := 1024.
Definition float : Type := spec_float.

(** Nearest binary64 value of an integer (round half to even). *)
Definition of_Z (z : Z) : float := binary_normalize prec emax z 0 false.

(** Nearest binary64 value of the decimal literal [n / d], as the Python
    parser reads [1.1] (n = 11, d = 10): the division of two exactly
    represented integers is correctly rounded. *)
Definition literal (n d : Z) : float := SFdiv prec emax (of_Z n) (of_Z d).

Definition fmul (x y : float) : float := SFmul prec emax x y.

(** [float(x)] for an int [x]: OverflowError when [x] rounds out of range. *)
Definition float_of_int (x : Z) : result float :=
  match of_Z x with
  | S754_infinity _ => Raise OverflowError
  | f => Ok f
  end.

(** [x * c] for an int [x] and a float [c]: the int is converted first. *)
Definition mul_int_float (x : Z) (c : float) : result float :=
  bind (float_of_int x) (fun f => Ok (fmul f c)).

(** [int(f)]: truncation toward zero; infinities and NaN raise. *)
Definition int_of_float (f : float) : result Z :=
  match f with
  | S754_zero _ => Ok 0
  | S754_finite s m e =>
      let a := if 0 <=? e then Z.shiftl (Z.pos m) e
               else Z.shiftr (Z.pos m) (- e) in
      Ok (if s then - a else a)
  | S754_infinity _ => Raise OverflowError
  | S754_nan => Raise ValueError
  end.

(** [int(x * c)]. *)
Definition int_mul (x : Z) (c : float) : result Z :=
  bind (mul_int_float x c) int_of_float.

(** Exact comparison of an int with a float, as Python compares them:
    [Some c] is the order of [x] relative to [f], [None] for NaN. *)
Definition compare_int_float (x : Z) (f : float) : option comparison :=
  match f with
  | S754_nan => None
  | S754_infinity s => Some (if s then Gt else Lt)
  | S754_zero _ => Some (x ?= 0)
  | S754_finite s m e =>
      let v := if s then Z.neg m else Z.pos m in
      Some (if 0 <=? e then x ?= Z.shiftl v e
            else Z.shiftl x (- e) ?= v)
  end.

(** [x > f]. *)
Definition int_gt_float (x : Z) (f : float) : bool :=
  match compare_int_float x f with
  | Some Gt => true
  | _ => false
  end.

(** ** Strings *)

Definition is_upper (c : ascii) : bool :=
  let n := N_of_ascii c in ((65 <=? n) && (n <=? 90))%N.

Definition lower_char (c : ascii) : ascii :=
  if is_upper c then ascii_of_N (N_of_ascii c + 32) else c.

(** [s.lower()] on the ASCII letters.  No character outside ASCII
    lower-cases to one of the letters of the words the code compares the
    result with, so those comparisons are the same as Python's. *)
Fixpoint lower (s : string) : string :=
  match s with
  | EmptyString => EmptyString
  | String c r => String (lower_char c) (lower r)
  end.

(** [s.startswith(p)]. *)
Definition startswith (s p : string) : bool := String.prefix p s.

(** Decimal text of an int. *)
Definition str_of_int (z : Z) : string := NilZero.string_of_int (Z.to_int z).

(** Groups of three digits from the right, for the [:,] format. *)
Fixpoint group3 (rev_digits : list ascii) (k : nat) : list ascii :=
  match rev_digits with
  | [] => []
  | d :: r =>
      match k, r with
      | S (S O), _ :: _ => d :: ","%char :: group3 r O
      | S (S O), [] => [d]
      | _, _ => d :: group3 r (S k)
      end
  end.

(** [f"{z:,}"]. *)
Definition format_commas (z : Z) : string :=
  let digits := list_ascii_of_string (str_of_int (Z.abs z)) in
  let body := string_of_list_ascii (rev (group3 (rev digits) O)) in
  if z <? 0 then String "-" body else body.

End Py.

Export Py.

Declare Scope py_scope.
Delimit Scope py_scope with py.
Notation "x <- m ;; k" := (Py.bind m (fun x => k))
  (at level 61, m at next level, right associativity) : py_scope.
Notation "' pat <- m ;; k" := (Py.bind m (fun x => match x with pat => k end))
  (at level 61, pat pattern, m at next level, right associativity) : py_scope.
Open Scope py_scope.

(** The float literals of the source. *)
Definition f_1_1 : float := literal 11 10.
Definition f_1_5 : float := literal 3 2.
Definition f_0_8 : float := literal 8 10.
Definition f_0_65 : float := literal 65 100.
Definition f_1_07 : float := literal 107 100.
Definition f_1_05 : float := literal 105 100.
Definition f_1_12 : float := literal 112 100.
Definition f_1_18 : float := literal 118 100.
Definition f_1_4 : float := literal 14 10.

(* ================================================================== *)
(** * JSON values and the [json] library functions the code calls *)
(* ================================================================== *)

Module Json.

#[local] Set Warnings "-register-all".

(** What [json.loads] returns: [None], [bool], [int], [str], [list],
    [dict].  The protocol's numbers are integers; numbers with a fraction or
    an exponent (Python floats) are outside the modelled fragment.  A [dict]
    keeps its keys in insertion order. *)
Inductive json : Type :=
| JNull
| JBool (b : bool)
| JInt (z : Z)
| JStr (s : string)
| JArr (l : list json)
| JObj (d : list (string * json)).

Definition dict : Type := list (string * json).

(** [d.get(k)]: [None] when the key is absent. *)
Fixpoint dict_get (d : dict) (k : string) : option json :=
  match d with
  | [] => None
  | (k', v) :: r => if String.eqb k' k then Some v else dict_get r k
  end.

(** [d[k] = v]: a present key keeps its place, a new one goes last. *)
Fixpoint dict_set (d : dict) (k : string) (v : json) : dict :=
  match d with
  | [] => [(k, v)]
  | (k', v') :: r =>
      if String.eqb k' k then (k', v) :: r else (k', v') :: dict_set r k v
  end.

(** [d.get(k, default)]. *)
Definition dict_get_default (d : dict) (k : string) (default : json) : json :=
  match dict_get d k with
  | Some v => v
  | None => default
  end.

(** Truth value of a Python object, as [or], [not] and [if] test it. *)
Definition truthy (v : json) : bool :=
  match v with
  | JNull => false
  | JBool b => b
  | JInt z => negb (z =? 0)
  | JStr s => negb (String.eqb s EmptyString)
  | JArr l => match l with [] => false | _ => true end
  | JObj d => match d with [] => false | _ => true end
  end.

(** [a or b]. *)
Definition py_or (a b : json) : json := if truthy a then a else b.

(** ** Characters *)

Definition dquote : ascii := "034"%char.
Definition backslash : ascii := "\"%char.
Definition lbrace : ascii := "{"%char.
Definition rbrace : ascii := "}"%char.

(** JSON whitespace: space, tab, line feed, carriage return. *)
Definition is_ws (c : ascii) : bool :=
  let n := N_of_ascii c in
  ((n =? 32) || (n =? 9) || (n =? 10) || (n =? 13))%N.

Fixpoint skip_ws (s : string) : string :=
  match s with
  | String c r => if is_ws c then skip_ws r else s
  | EmptyString => s
  end.

Definition is_digit (c : ascii) : bool :=
  let n := N_of_ascii c in ((48 <=? n) && (n <=? 57))%N.

Definition hex_val (c : ascii) : option N :=
  let n := N_of_ascii c in
  if ((48 <=? n) && (n <=? 57))%N then Some (n - 48)%N
  else if ((97 <=? n) && (n <=? 102))%N then Some (n - 87)%N
  else if ((65 <=? n) && (n <=? 70))%N then Some (n - 55)%N
  else None.

Definition hex4 (a b c d : ascii) : option N :=
  match hex_val a, hex_val b, hex_val c, hex_val d with
  | Some x, Some y, Some z, Some w => Some (((x * 16 + y) * 16 + z) * 16 + w)%N
  | _, _, _, _ => None
  end.

Definition hex_digit (n : N) : ascii :=
  if (n <? 10)%N then ascii_of_N (48 + n) else ascii_of_N (87 + n).

(** UTF-8 bytes of a code point (a lone surrogate takes the three-byte
    form). *)
Definition utf8_encode (cp : N) : string :=
  let b (n : N) := ascii_of_N n in
  (if cp <? 128 then String (b cp) EmptyString
   else if cp <? 2048 then
     String (b (192 + cp / 64)) (String (b (128 + cp mod 64)) EmptyString)
   else if cp <? 65536 then
     String (b (224 + cp / 4096))
       (String (b (128 + (cp / 64) mod 64))
          (String (b (128 + cp mod 64)) EmptyString))
   else
     String (b (240 + cp / 262144))
       (String (b (128 + (cp / 4096) mod 64))
          (String (b (128 + (cp / 64) mod 64))
             (String (b (128 + cp mod 64)) EmptyString))))%N.

Definition is_high_surrogate (cp : N) : bool := ((55296 <=? cp) && (cp <=? 56319))%N.
Definition is_low_surrogate (cp : N) : bool := ((56320 <=? cp) && (cp <=? 57343))%N.
Definition join_surrogates (hi lo : N) : N :=
  (65536 + (hi - 55296) * 1024 + (lo - 56320))%N.

(** The character a two-character escape stands for. *)
Definition unescape (e : ascii) : option ascii :=
  if Ascii.eqb e dquote then Some dquote
  else if Ascii.eqb e backslash then Some backslash
  else if Ascii.eqb e "/" then Some "/"%char
  else if Ascii.eqb e "b" then Some (ascii_of_N 8)
  else if Ascii.eqb e "f" then Some (ascii_of_N 12)
  else if Ascii.eqb e "n" then Some (ascii_of_N 10)
  else if Ascii.eqb e "r" then Some (ascii_of_N 13)
  else if Ascii.eqb e "t" then Some (ascii_of_N 9)
  else None.

Definition prepend (p : string) (r : option (string * string))
  : option (string * string) :=
  match r with
  | Some (s, rest) => Some ((p ++ s)%string, rest)
  | None => None
  end.

(** ** [json.loads] *)

(** A string literal, read from just after its opening quote: the decoded
    text and the input left after the closing quote. *)
Fixpoint scan_string (s : string) : option (string * string) :=
  match s with
  | EmptyString => None
  | String c r =>
      if Ascii.eqb c dquote then Some (EmptyString, r)
      else if Ascii.eqb c backslash then
        match r with
        | EmptyString => None
        | String e r1 =>
            if Ascii.eqb e "u" then
              match r1 with
              | String h1 (String h2 (String h3 (String h4 r2))) =>
                  match hex4 h1 h2 h3 h4 with
                  | None => None
                  | Some cp =>
                      if is_high_surrogate cp then
                        match r2 with
                        | String b1 (String u1 (String l1 (String l2 (String l3 (String l4 r3))))) =>
                            if Ascii.eqb b1 backslash && Ascii.eqb u1 "u" then
                              match hex4 l1 l2 l3 l4 with
                              | None => None
                              | Some lo =>
                                  if is_low_surrogate lo
                                  then prepend (utf8_encode (join_surrogates cp lo))
                                         (scan_string r3)
                                  else prepend (utf8_encode cp) (scan_string r2)
                              end
                            else prepend (utf8_encode cp) (scan_string r2)
                        | _ => prepend (utf8_encode cp) (scan_string r2)
                        end
                      else prepend (utf8_encode cp) (scan_string r2)
                  end
              | _ => None
              end
            else
              match unescape e with
              | Some ch => prepend (String ch EmptyString) (scan_string r1)
              | None => None
              end
        end
      else if (N_of_ascii c <? 32)%N then None
      else prepend (String c EmptyString) (scan_string r)
  end.

(** The longest run of decimal digits at the front of the input. *)
Fixpoint span_digits (s : string) : string * string :=
  match s with
  | String c r =>
      if is_digit c then let '(ds, rest) := span_digits r in (String c ds, rest)
      else (EmptyString, s)
  | EmptyString => (EmptyString, s)
  end.

Definition starts_float_tail (s : string) : bool :=
  match s with
  | String c _ => Ascii.eqb c "." || Ascii.eqb c "e" || Ascii.eqb c "E"
  | EmptyString => false
  end.

(** An unsigned integer literal: no leading zero, no fraction, no
    exponent. *)
Definition scan_nat (s : string) : option (Z * string) :=
  let '(ds, rest) := span_digits s in
  match NilEmpty.uint_of_string ds with
  | Some Decimal.Nil => None
  | Some d =>
      if Decimal.uint_beq (Decimal.unorm d) d && negb (starts_float_tail rest)
      then Some (Z.of_uint d, rest) else None
  | None => None
  end.

Definition scan_number (s : string) : option (Z * string) :=
  match s with
  | String "-" r =>
      match scan_nat r with
      | Some (n, rest) => Some (- n, rest)
      | None => None
      end
  | _ => scan_nat s
  end.

(** [p] at the front of [s]: what follows it. *)
Fixpoint strip_prefix (p s : string) : option string :=
  match p, s with
  | EmptyString, _ => Some s
  | String a p', String b s' => if Ascii.eqb a b then strip_prefix p' s' else None
  | _, EmptyString => None
  end.

(** One JSON value at the front of the input (which starts at the value),
    with the input left after it. *)
Fixpoint parse_value (fuel : nat) (s : string) : option (json * string) :=
  match fuel with
  | O => None
  | S fuel' =>
      match s with
      | EmptyString => None
      | String c r =>
          if Ascii.eqb c dquote then
            match scan_string r with
            | Some (t, rest) => Some (JStr t, rest)
            | None => None
            end
          else if Ascii.eqb c lbrace then
            match skip_ws r with
            | String c1 r1 =>
                if Ascii.eqb c1 rbrace then Some (JObj [], r1)
                else parse_members fuel' [] (String c1 r1)
            | EmptyString => None
            end
          else if Ascii.eqb c "[" then
            match skip_ws r with
            | String c1 r1 =>
                if Ascii.eqb c1 "]" then Some (JArr [], r1)
                else parse_elements fuel' [] (String c1 r1)
            | EmptyString => None
            end
          else if Ascii.eqb c "n" then
            match strip_prefix "ull" r with
            | Some rest => Some (JNull, rest)
            | None => None
            end
          else if Ascii.eqb c "t" then
            match strip_prefix "rue" r with
            | Some rest => Some (JBool true, rest)
            | None => None
            end
          else if Ascii.eqb c "f" then
            match strip_prefix "alse" r with
            | Some rest => Some (JBool false, rest)
            | None => None
            end
          else
            match scan_number s with
            | Some (z, rest) => Some (JInt z, rest)
            | None => None
            end
      end
  end

(** The members of an object, from the opening quote of a key. *)
with parse_members (fuel : nat) (acc : dict) (s : string) : option (json * string) :=
  match fuel with
  | O => None
  | S fuel' =>
      match s with
      | EmptyString => None
      | String c r =>
          if Ascii.eqb c dquote then
            match scan_string r with
            | None => None
            | Some (k, r1) =>
                match skip_ws r1 with
                | String ":" r2 =>
                    match parse_value fuel' (skip_ws r2) with
                    | None => None
                    | Some (v, r3) =>
                        match skip_ws r3 with
                        | String c4 r4 =>
                            if Ascii.eqb c4 rbrace then Some (JObj (dict_set acc k v), r4)
                            else if Ascii.eqb c4 ","
                            then parse_members fuel' (dict_set acc k v) (skip_ws r4)
                            else None
                        | EmptyString => None
                        end
                    end
                | _ => None
                end
            end
          else None
      end
  end

(** The elements of an array, from the first character of an element. *)
with parse_elements (fuel : nat) (acc : list json) (s : string) : option (json * string) :=
  match fuel with
  | O => None
  | S fuel' =>
      match parse_value fuel' s with
      | None => None
      | Some (v, r1) =>
          match skip_ws r1 with
          | String c2 r2 =>
              if Ascii.eqb c2 "]" then Some (JArr (acc ++ [v]), r2)
              else if Ascii.eqb c2 ","
              then parse_elements fuel' (acc ++ [v]) (skip_ws r2)
              else None
          | EmptyString => None
          end
      end
  end.

(** [json.loads(s)]: one value between optional whitespace, nothing else;
    [None] stands for [JSONDecodeError].  A text in which [json.loads]
    meets a float is outside the fragment, and gets [None] here too: what
    is stated of a text that does not decode is stated of a text that is
    [float_free], below. *)
Definition loads (s : string) : option json :=
  match parse_value (S (String.length s)) (skip_ws s) with
  | Some (v, rest) =>
      match skip_ws rest with
      | EmptyString => Some v
      | _ => None
      end
  | None => None
  end.

(** Whether a number with a fraction or an exponent, or one of the names
    [NaN] and [Infinity], starts at the front of [s]: the texts of which
    [json.loads] makes a float.  The characters are read as they stand, in a
    string literal or not. *)
Definition float_ahead (s : string) : bool :=
  startswith s "NaN" || startswith s "Infinity" ||
  match s with
  | String d (String c r) =>
      is_digit d &&
      ((Ascii.eqb c "." && match r with
                           | String x _ => is_digit x
                           | EmptyString => false
                           end)
       || ((Ascii.eqb c "e" || Ascii.eqb c "E")
           && match r with
              | String x r' =>
                  is_digit x
                  || ((Ascii.eqb x "+" || Ascii.eqb x "-")
                      && match r' with
                         | String y _ => is_digit y
                         | EmptyString => false
                         end)
              | EmptyString => false
              end))
  | _ => false
  end.

(** A text no part of which can be read as a float: [json.loads] of it, or
    of any piece of it, yields integers only, or fails. *)
Fixpoint float_free (s : string) : bool :=
  match s with
  | EmptyString => true
  | String _ r => negb (float_ahead s) && float_free r
  end.

End Json.

Export Json.

(* ================================================================== *)
(** * Text helpers of the codec *)
(* ================================================================== *)

Module Text.

(** Length in bytes of a Python whitespace character at the front of [s]
    (0 when there is none): the ASCII ones, then U+0085, U+00A0, U+1680,
    U+2000..U+200A, U+2028, U+2029, U+202F, U+205F and U+3000 in UTF-8. *)
Definition space_at_front (s : string) : nat :=
  match s with
  | EmptyString => 0%nat
  | String c r =>
      let n := N_of_ascii c in
      if (((9 <=? n) && (n <=? 13)) || ((28 <=? n) && (n <=? 32)))%N then 1%nat
      else
        match r with
        | EmptyString => 0%nat
        | String c2 r2 =>
            let n2 := N_of_ascii c2 in
            if ((n =? 194) && ((n2 =? 133) || (n2 =? 160)))%N then 2%nat
            else
              match r2 with
              | EmptyString => 0%nat
              | String c3 _ =>
                  let n3 := N_of_ascii c3 in
                  if (((n =? 225) && (n2 =? 154) && (n3 =? 128))
                      || ((n =? 226) && (n2 =? 128)
                          && (((128 <=? n3) && (n3 <=? 138))
                              || (n3 =? 168) || (n3 =? 169) || (n3 =? 175)))
                      || ((n =? 226) && (n2 =? 129) && (n3 =? 159))
                      || ((n =? 227) && (n2 =? 128) && (n3 =? 128)))%N
                  then 3%nat else 0%nat
              end
        end
  end.

(** The same, read from the end: [s] is the reversed text. *)
Definition space_at_back (s : string) : nat :=
  match s with
  | EmptyString => 0%nat
  | String c r =>
      let n := N_of_ascii c in
      if (((9 <=? n) && (n <=? 13)) || ((28 <=? n) && (n <=? 32)))%N then 1%nat
      else
        match r with
        | EmptyString => 0%nat
        | String c2 r2 =>
            let n2 := N_of_ascii c2 in
            if ((n2 =? 194) && ((n =? 133) || (n =? 160)))%N then 2%nat
            else
              match r2 with
              | EmptyString => 0%nat
              | String c3 _ =>
                  let n3 := N_of_ascii c3 in
                  if (((n3 =? 225) && (n2 =? 154) && (n =? 128))
                      || ((n3 =? 226) && (n2 =? 128)
                          && (((128 <=? n) && (n <=? 138))
                              || (n =? 168) || (n =? 169) || (n =? 175)))
                      || ((n3 =? 226) && (n2 =? 129) && (n =? 159))
                      || ((n3 =? 227) && (n2 =? 128) && (n =? 128)))%N
                  then 3%nat else 0%nat
              end
        end
  end.

Fixpoint drop (n : nat) (s : string) : string :=
  match n, s with
  | S n', String _ r => drop n' r
  | _, _ => s
  end.

Fixpoint strip_with (space : string -> nat) (fuel : nat) (s : string) : string :=
  match fuel with
  | O => s
  | S fuel' =>
      match space s with
      | O => s
      | k => strip_with space fuel' (drop k s)
      end
  end.

Definition rev_string (s : string) : string :=
  string_of_list_ascii (rev (list_ascii_of_string s)).

Definition lstrip (s : string) : string :=
  strip_with space_at_front (String.length s) s.

Definition rstrip (s : string) : string :=
  rev_string (strip_with space_at_back (String.length s) (rev_string s)).

(** [s.strip()]. *)
Definition strip (s : string) : string := rstrip (lstrip s).

(** [s.find(c)] for a one-character [c]: the index of its first
    occurrence. *)
Fixpoint find (c : ascii) (s : string) : option nat :=
  match s with
  | EmptyString => None
  | String c' r =>
      if Ascii.eqb c' c then Some 0%nat
      else match find c r with
           | Some i => Some (S i)
           | None => None
           end
  end.

End Text.

Export Text.

(* ================================================================== *)
(** * [bytes.decode("utf-8")] *)
(* ================================================================== *)

Module Utf8.

(** The continuation bytes of UTF-8. *)
Definition is_cont (c : ascii) : bool :=
  let n := N_of_ascii c in ((128 <=? n) && (n <? 192))%N.

(** The code points of the two-, three- and four-byte forms of UTF-8. *)
Definition code_point2 (c1 c2 : ascii) : N :=
  ((N_of_ascii c1 - 192) * 64 + (N_of_ascii c2 - 128))%N.

Definition code_point3 (c1 c2 c3 : ascii) : N :=
  ((N_of_ascii c1 - 224) * 4096 + (N_of_ascii c2 - 128) * 64
   + (N_of_ascii c3 - 128))%N.

Definition code_point4 (c1 c2 c3 c4 : ascii) : N :=
  ((N_of_ascii c1 - 240) * 262144 + (N_of_ascii c2 - 128) * 4096
   + (N_of_ascii c3 - 128) * 64 + (N_of_ascii c4 - 128))%N.

(** The bytes [decode("utf-8")] accepts: the UTF-8 texts of code points
    other than surrogates, in their shortest form, which are the bytes a
    [str] has.  On any other bytes the strict decoder raises
    [UnicodeDecodeError]. *)
Fixpoint valid_utf8 (s : string) : bool :=
  match s with
  | EmptyString => true
  | String c r =>
      let n := N_of_ascii c in
      if (n <? 128)%N then valid_utf8 r
      else if (n <? 194)%N then false
      else
        match r with
        | EmptyString => false
        | String c2 r2 =>
            if (n <? 224)%N then is_cont c2 && valid_utf8 r2
            else
              match r2 with
              | EmptyString => false
              | String c3 r3 =>
                  if (n <? 240)%N then
                    let cp := code_point3 c c2 c3 in
                    is_cont c2 && is_cont c3 && (2048 <=? cp)%N
                    && negb ((55296 <=? cp) && (cp <=? 57343))%N
                    && valid_utf8 r3
                  else
                    match r3 with
                    | EmptyString => false
                    | String c4 r4 =>
                        let cp := code_point4 c c2 c3 c4 in
                        (n <? 245)%N && is_cont c2 && is_cont c3 && is_cont c4
                        && (65536 <=? cp)%N && (cp <=? 1114111)%N
                        && valid_utf8 r4
                    end
              end
        end
  end.

End Utf8.

Export Utf8.

(* ================================================================== *)
(** * seller_server.py : helpers *)
(* ================================================================== *)

(** The loop of [extract_first_json_block]: [rest] is [text[i:]] and [depth]
    the nesting depth so far; the result is the index at which the depth
    returns to zero. *)
Fixpoint scan_block (rest : string) (i : nat) (depth : Z) : option nat :=
  match rest with
  | EmptyString => None
  | String ch r =>
      if Ascii.eqb ch lbrace then scan_block r (S i) (depth + 1)
      else if Ascii.eqb ch rbrace then
        let depth := depth - 1 in
        if depth =? 0 then Some i else scan_block r (S i) depth
      else scan_block r (S i) depth
  end.

Definition extract_first_json_block (text : string) : option string :=
  if String.eqb text EmptyString then None
  else
    match find lbrace text with
    | None => None
    | Some start =>
        match scan_block (drop start text) start 0 with
        | Some i => Some (substring start (i + 1 - start) text)
        | None => None
        end
    end.

(** [json.loads] of the extracted block; [None] when there is no block or
    it does not parse. *)
Definition safe_json_loads_from_model_output (raw : string) : option json :=
  match extract_first_json_block raw with
  | None => None
  | Some json_block => loads json_block
  end.

(* ================================================================== *)
(** * [json.dumps] and the conversions [int(...)] and [str(...)] *)
(* ================================================================== *)

Module Dumps.

Definition quoted (s : string) : string :=
  String dquote (s ++ String dquote EmptyString).

(** One character of a string literal, as [json.dumps(ensure_ascii=False)]
    writes it: the quote, the backslash and the control characters are
    escaped, every other byte is copied. *)
Definition escape_char (c : ascii) : string :=
  let n := N_of_ascii c in
  if Ascii.eqb c dquote then String backslash (String dquote EmptyString)
  else if Ascii.eqb c backslash then "\\"
  else if (n =? 10)%N then "\n"
  else if (n =? 13)%N then "\r"
  else if (n =? 9)%N then "\t"
  else if (n =? 8)%N then "\b"
  else if (n =? 12)%N then "\f"
  else if (n <? 32)%N then
    "\u00" ++ String (hex_digit (n / 16)) (String (hex_digit (n mod 16)) EmptyString)
  else String c EmptyString.

Fixpoint escape (s : string) : string :=
  match s with
  | EmptyString => EmptyString
  | String c r => escape_char c ++ escape r
  end.

Definition dumps_str (s : string) : string := quoted (escape s).

(** [json.dumps(v, ensure_ascii=False)] with the default separators. *)
Fixpoint dumps (v : json) : string :=
  match v with
  | JNull => "null"
  | JBool true => "true"
  | JBool false => "false"
  | JInt z => str_of_int z
  | JStr s => dumps_str s
  | JArr l =>
      "[" ++
      (fix items (l : list json) : string :=
         match l with
         | [] => EmptyString
         | [x] => dumps x
         | x :: r => dumps x ++ ", " ++ items r
         end) l ++ "]"
  | JObj d =>
      "{" ++
      (fix members (d : dict) : string :=
         match d with
         | [] => EmptyString
         | [(k, x)] => dumps_str k ++ ": " ++ dumps x
         | (k, x) :: r => dumps_str k ++ ": " ++ dumps x ++ ", " ++ members r
         end) d ++ "}"
  end.

End Dumps.

Export Dumps.

Section Conversions.

(** Python's [int(s)] for a [str] and [repr] of a [list] or [dict]: library
    functions taken as given. *)
Variable int_of_str : string -> result Z.
Variable repr_container : json -> string.

(** [int(v)]. *)
Definition py_int (v : json) : result Z :=
  match v with
  | JInt z => Ok z
  | JBool b => Ok (if b then 1 else 0)
  | JStr s => int_of_str s
  | JNull | JArr _ | JObj _ => Raise TypeError
  end.

(** [str(v)]. *)
Definition py_str (v : json) : string :=
  match v with
  | JStr s => s
  | JInt z => str_of_int z
  | JBool true => "True"
  | JBool false => "False"
  | JNull => "None"
  | JArr _ | JObj _ => repr_container v
  end.

End Conversions.

(* ================================================================== *)
(** * seller_server.py : the seller *)
(* ================================================================== *)

Module Seller.

Record Product : Type := {
  name : string;
  base_market_price : Z;
  quality_grade : string;
  quantity : Z
}.

Record SellerServer : Type := {
  product : Product;
  min_price : Z;
  current_price : Z;
  round : Z
}.

(** A reply: the dict with the keys [type], [price], [message], [round]. *)
Record Reply : Type := {
  r_type : string;
  r_price : Z;
  r_message : string;
  r_round : Z
}.

Definition MARKET_PRICE : Z := 180000.
Definition PRODUCT_NAME : string := "Alphonso Mangoes".
Definition QUALITY_GRADE : string := "A".
Definition QUANTITY : Z := 100.

(** [MIN_PRICE = int(MARKET_PRICE * 0.8)]. *)
Definition MIN_PRICE : result Z := int_mul MARKET_PRICE f_0_8.

(** [SellerServer.__init__]. *)
Definition init (p : Product) (min_price : Z) : result SellerServer :=
  current <- int_mul (base_market_price p) f_1_4 ;;
  Ok {| product := p; min_price := min_price;
        current_price := current; round := 0 |}.

Definition set_round (self : SellerServer) (r : Z) : SellerServer :=
  {| product := product self; min_price := min_price self;
     current_price := current_price self; round := r |}.

Definition set_current_price (self : SellerServer) (p : Z) : SellerServer :=
  {| product := product self; min_price := min_price self;
     current_price := p; round := round self |}.

(** The dict a reply is, for [json.dumps]. *)
Definition reply_json (r : Reply) : json :=
  JObj [("type", JStr (r_type r)); ("price", JInt (r_price r));
        ("message", JStr (r_message r)); ("round", JInt (r_round r))].

(** [_rule_based_response]: the round counter is advanced first, then the
    rules are tried in order. *)
Definition _rule_based_response
    (self : SellerServer) (buyer_offer : Z) (buyer_message : string)
  : SellerServer * result Reply :=
  let self := set_round self (round self + 1) in
  (self,
   threshold <- int_mul (min_price self) f_1_1 ;;
   if buyer_offer >=? threshold then
     Ok {| r_type := "accept"; r_price := buyer_offer;
           r_message := "Excellent — I accept your offer of ₹"
                        ++ format_commas buyer_offer
                        ++ ". Pleasure doing business.";
           r_round := round self |}
   else if buyer_offer <=? 0 then
     let counter_price := current_price self in
     Ok {| r_type := "counter"; r_price := counter_price;
           r_message := "My asking price remains ₹"
                        ++ format_commas counter_price
                        ++ ". These are premium "
                        ++ quality_grade (product self) ++ " grade "
                        ++ name (product self) ++ ".";
           r_round := round self |}
   else if round self >=? 8 then
     p <- int_mul buyer_offer f_1_05 ;;
     let counter_price := Z.max (min_price self) p in
     Ok {| r_type := "counter"; r_price := counter_price;
           r_message := "This is my final offer: ₹"
                        ++ format_commas counter_price
                        ++ ". Take it or leave it.";
           r_round := round self |}
   else if round self >=? 6 then
     p <- int_mul buyer_offer f_1_12 ;;
     let counter_price := Z.max (min_price self) p in
     Ok {| r_type := "counter"; r_price := counter_price;
           r_message := "I'm coming down to ₹"
                        ++ format_commas counter_price
                        ++ " — that's really pushing my limits.";
           r_round := round self |}
   else
     p <- int_mul buyer_offer f_1_18 ;;
     let counter_price := Z.max (min_price self) p in
     Ok {| r_type := "counter"; r_price := counter_price;
           r_message := "I appreciate your interest; I can come down to ₹"
                        ++ format_commas counter_price
                        ++ ". Quality costs money.";
           r_round := round self |}).

Section Handler.

(** Whether the external model is configured ([USE_GEMINI and MODEL]). *)
Variable use_gemini : bool.
(** The text [MODEL.generate_content(prompt)] answers with, for the
    values the prompt is built from; [Raise] when the call fails. *)
Variable generate_content : SellerServer -> Z -> string -> result string.
Variable int_of_str : string -> result Z.
Variable repr_container : json -> string.

(** Lines 149-160 of [_gemini_generate]: type, price and message of the
    parsed model output, the type normalised. *)
Definition sanitize (parsed : json) : result (string * Z * string) :=
  match parsed with
  | JObj d =>
      typ <- match dict_get_default d "type" (JStr EmptyString) with
             | JStr s => Ok (lower s)
             | _ => Raise AttributeError
             end ;;
      price <- match dict_get d "price" with
               | None | Some JNull => Ok 0
               | Some v => py_int int_of_str v
               end ;;
      let message :=
        strip (py_str repr_container
                 (dict_get_default d "message" (JStr EmptyString))) in
      let typ :=
        if String.eqb typ "counter" || String.eqb typ "accept"
           || String.eqb typ "reject"
        then typ
        else if startswith typ "acc" then "accept"
        else if startswith typ "rej" then "reject"
        else "counter" in
      Ok (typ, price, message)
  | _ => Raise AttributeError
  end.

(** The body of the [try] of [_gemini_generate]. *)
Definition gemini_try (self : SellerServer) (buyer_offer : Z)
    (buyer_message : string) : result Reply :=
  raw <- generate_content self buyer_offer buyer_message ;;
  let raw_output := strip raw in
  match safe_json_loads_from_model_output raw_output with
  | None => Raise ValueError
  | Some parsed =>
      if negb (truthy parsed) then Raise ValueError
      else
        '(typ, price, message) <- sanitize parsed ;;
        let price :=
          if String.eqb typ "counter" then Z.max price (min_price self)
          else if String.eqb typ "accept" then
            Z.max (if negb (price =? 0) then price
                   else if negb (buyer_offer =? 0) then buyer_offer
                   else min_price self)
                  (min_price self)
          else price in
        Ok {| r_type := typ; r_price := price; r_message := message;
              r_round := round self |}
  end.

(** [_gemini_generate]: any exception of the body gives the reject
    reply. *)
Definition _gemini_generate (self : SellerServer) (buyer_offer : Z)
    (buyer_message : string) : Reply :=
  match gemini_try self buyer_offer buyer_message with
  | Ok reply => reply
  | Raise _ =>
      {| r_type := "reject"; r_price := 0;
         r_message := "I'm unable to negotiate at this moment. Please try again later.";
         r_round := round self |}
  end.

(** Lines 226-228 of [handle_buyer_message]: action, price and message of
    the buyer's record. *)
Definition buyer_fields (buyer_data : json) : result (string * Z * string) :=
  match buyer_data with
  | JObj d =>
      action <- match py_or (py_or (dict_get_default d "action" JNull)
                                   (dict_get_default d "type" JNull))
                            (JStr EmptyString) with
                | JStr s => Ok (lower s)
                | _ => Raise AttributeError
                end ;;
      buyer_price <- py_int int_of_str
                       (py_or (dict_get_default d "price" (JInt 0)) (JInt 0)) ;;
      let buyer_message :=
        py_str repr_container
          (py_or (dict_get_default d "message" (JStr EmptyString))
                 (JStr EmptyString)) in
      Ok (action, buyer_price, buyer_message)
  | _ => Raise AttributeError
  end.

Definition handle_buyer_message (self : SellerServer) (buyer_data : json)
  : SellerServer * result Reply :=
  match buyer_fields buyer_data with
  | Raise e => (self, Raise e)
  | Ok (action, buyer_price, buyer_message) =>
      if String.eqb action "accept" then
        (self,
         Ok {| r_type := "deal_confirmed"; r_price := buyer_price;
               r_message := "Deal confirmed! Pleasure doing business with you.";
               r_round := round self |})
      else if String.eqb action "reject" then
        (self,
         Ok {| r_type := "reject"; r_price := 0;
               r_message := "Understood. If you change your mind, let me know.";
               r_round := round self |})
      else if use_gemini then
        let self := set_round self (round self + 1) in
        let reply := _gemini_generate self buyer_price buyer_message in
        let self :=
          if String.eqb (r_type reply) "counter" && negb (r_price reply =? 0)
          then set_current_price self (Z.max (r_price reply) (min_price self))
          else self in
        (self, Ok reply)
      else _rule_based_response self buyer_price buyer_message
  end.

(** The opening offer [run] sends before the loop. *)
Definition opening_msg (self : SellerServer) : Reply :=
  {| r_type := "offer"; r_price := current_price self;
     r_message := "Welcome! I have premium " ++ quality_grade (product self)
                  ++ " grade " ++ name (product self)
                  ++ ". My asking price is ₹"
                  ++ format_commas (current_price self)
                  ++ ". These are high-quality products worth every rupee.";
     r_round := round self |}.

(** The bytes of a reply on the wire:
    [json.dumps(reply, ensure_ascii=False).encode("utf-8")]. *)
Definition encode_reply (r : Reply) : string := dumps (reply_json r).

(** Decoding of the received bytes in the loop of [run].  The strict
    [raw.decode("utf-8")] comes first: on bytes that are not UTF-8 it
    raises [UnicodeDecodeError], which the [except json.JSONDecodeError]
    does not catch.  Then the whole text is tried, then the first
    balanced block of it; [Ok None] is a message the loop ignores. *)
Definition decode_received (raw : string) : result (option json) :=
  if negb (valid_utf8 raw) then Raise UnicodeDecodeError
  else
    let decoded := strip raw in
    match loads decoded with
    | Some buyer_data => Ok (Some buyer_data)
    | None =>
        match extract_first_json_block decoded with
        | Some json_block => Ok (loads json_block)
        | None => Ok None
        end
    end.

(** What one turn of the loop of [run] does with the received text. *)
Inductive served : Type :=
| Disconnected
| Ignored
| Sent (wire : string) (ended : bool)
| Failed (e : exn).

Definition serve (self : SellerServer) (raw : string) : SellerServer * served :=
  if String.eqb raw EmptyString then (self, Disconnected)
  else
    match decode_received raw with
    | Raise e => (self, Failed e)
    | Ok None => (self, Ignored)
    | Ok (Some buyer_data) =>
        match handle_buyer_message self buyer_data with
        | (self', Raise e) => (self', Failed e)
        | (self', Ok reply) =>
            (self',
             Sent (encode_reply reply)
                  (String.eqb (r_type reply) "deal_confirmed"
                   || String.eqb (r_type reply) "accept"
                   || String.eqb (r_type reply) "reject"))
        end
    end.

End Handler.

End Seller.

(* ================================================================== *)
(** * negotiation_agent.py : the buyer's fallback policy *)
(* ================================================================== *)

Module Agent.

Record Product : Type := {
  name : string;
  category : string;
  quantity : Z;
  quality_grade : string;
  origin : string;
  base_market_price : Z;
  attributes : dict
}.

(** The lists hold what the client appends to them: the prices and
    messages of the records exchanged. *)
Record NegotiationContext : Type := {
  product : Product;
  your_budget : Z;
  current_round : Z;
  seller_offers : list json;
  your_offers : list json;
  messages : list json
}.

Inductive DealStatus : Type :=
| ONGOING
| ACCEPTED
| REJECTED
| COUNTER
| TIMEOUT.

(** [xs[-1] if xs else None]. *)
Definition last_opt {A : Type} (xs : list A) : option A :=
  match rev xs with
  | [] => None
  | x :: _ => Some x
  end.

(** A list element used as a number in [last_offer * 1.07]. *)
Definition as_number (v : json) : result Z :=
  match v with
  | JInt z => Ok z
  | JBool b => Ok (if b then 1 else 0)
  | _ => Raise TypeError
  end.

(** [context.your_offers[-1] if context.your_offers else
    int(context.product.base_market_price * 0.65)]. *)
Definition last_offer_of (context : NegotiationContext) : result Z :=
  match last_opt (your_offers context) with
  | Some v => as_number v
  | None => int_mul (base_market_price (product context)) f_0_65
  end.

(** [respond_to_seller_offer]. *)
Definition respond_to_seller_offer
    (context : NegotiationContext) (seller_price : Z) (seller_message : string)
  : result (DealStatus * Z * string) :=
  if seller_price <=? your_budget context then
    Ok (ACCEPTED, seller_price, "That works for me. Deal accepted.")
  else
    limit <- mul_int_float (your_budget context) f_1_5 ;;
    if int_gt_float seller_price limit then
      Ok (REJECTED, 0, "Too expensive, I cannot proceed.")
    else
      last_offer <- last_offer_of context ;;
      raised <- int_mul last_offer f_1_07 ;;
      anchor <- int_mul (your_budget context) f_0_8 ;;
      let counter_price := Z.max raised anchor in
      Ok (COUNTER, counter_price,
          "I can offer ₹" ++ format_commas counter_price ++ ".").

End Agent.

(* ================================================================== *)
(** * buyer_client.py : the buyer's session *)
(* ================================================================== *)

Module Buyer.

Import Agent.

Definition MAX_ROUNDS : Z := 10.

(** The client: its context, its flag, its budget, and the socket as the
    records sent so far (each the dict handed to [json.dumps]) with whether
    it has been closed. *)
Record BuyerClient : Type := {
  context : option NegotiationContext;
  negotiation_active : bool;
  budget : Z;
  sent : list json;
  closed : bool
}.

(** [BuyerClient.__init__] followed by [connect]. *)
Definition init (budget : Z) : BuyerClient :=
  {| context := None; negotiation_active := true; budget := budget;
     sent := []; closed := false |}.

Definition set_context (self : BuyerClient) (c : NegotiationContext) : BuyerClient :=
  {| context := Some c; negotiation_active := negotiation_active self;
     budget := budget self; sent := sent self; closed := closed self |}.

(** [self.sock.sendall(json.dumps(record).encode("utf-8"))]. *)
Definition sendall (self : BuyerClient) (record : json) : BuyerClient :=
  {| context := context self; negotiation_active := negotiation_active self;
     budget := budget self; sent := sent self ++ [record];
     closed := closed self |}.

Definition action_record (action : string) (price : json) (message : string) : json :=
  JObj [("action", JStr action); ("price", price); ("message", JStr message)].

(** [stop]: the flag is cleared, a reject is sent if the socket still
    takes it, and the socket is closed. *)
Definition stop (self : BuyerClient) (reason : string) : BuyerClient :=
  {| context := context self; negotiation_active := false;
     budget := budget self;
     sent := if closed self then sent self
             else sent self ++ [action_record "reject" (JInt 0) reason];
     closed := true |}.

(** The context [handle_offer] creates on the first offer. *)
Definition fresh_context (budget : Z) : NegotiationContext :=
  {| product := {| name := "Alphonso Mangoes"; category := "Mangoes";
                   quantity := 100; quality_grade := "A";
                   origin := "Ratnagiri"; base_market_price := 180000;
                   attributes := [("ripeness", JStr "optimal");
                                  ("export_grade", JBool true)] |};
     your_budget := budget; current_round := 0;
     seller_offers := []; your_offers := []; messages := [] |}.

Definition next_round (c : NegotiationContext) : NegotiationContext :=
  {| product := product c; your_budget := your_budget c;
     current_round := current_round c + 1;
     seller_offers := seller_offers c; your_offers := your_offers c;
     messages := messages c |}.

Definition record_seller_price (c : NegotiationContext) (price : json)
  : NegotiationContext :=
  {| product := product c; your_budget := your_budget c;
     current_round := current_round c;
     seller_offers := seller_offers c ++ [price];
     your_offers := your_offers c; messages := messages c |}.

Definition record_seller_message (c : NegotiationContext) (message : json)
  : NegotiationContext :=
  {| product := product c; your_budget := your_budget c;
     current_round := current_round c;
     seller_offers := seller_offers c; your_offers := your_offers c;
     messages := messages c
                 ++ [JObj [("role", JStr "seller"); ("message", message)]] |}.

Definition record_own_offer (c : NegotiationContext) (price : json)
  : NegotiationContext :=
  {| product := product c; your_budget := your_budget c;
     current_round := current_round c;
     seller_offers := seller_offers c;
     your_offers := your_offers c ++ [price];
     messages := messages c |}.

(** The seller's price under the [:,] format of the prompt and of the
    agent's log line: a number passes, anything else raises. *)
Definition formatted_price (price : json) : result Z :=
  match price with
  | JInt z => Ok z
  | JBool b => Ok (if b then 1 else 0)
  | JStr _ => Raise ValueError
  | JNull | JArr _ | JObj _ => Raise TypeError
  end.

(** The seller's message as handed to the policy, which never reads it. *)
Definition message_text (v : json) : string :=
  match v with
  | JStr s => s
  | _ => EmptyString
  end.

Definition json_is_str (v : json) (s : string) : bool :=
  match v with
  | JStr t => String.eqb t s
  | _ => false
  end.

Section Session.

(** The module constant [USE_OLLAMA] ([True] in the source). *)
Variable USE_OLLAMA : bool.
(** The text [_ollama_generate(prompt)] returns, for the context and the
    seller's record the prompt is built from. *)
Variable ollama_generate : NegotiationContext -> json -> json -> string.

(** The decision of [handle_offer]: the buyer's response record. *)
Definition decide (c : NegotiationContext) (price message : json) : result json :=
  seller_price <- formatted_price price ;;
  if USE_OLLAMA then
    let response_text := ollama_generate c price message in
    match loads response_text with
    | Some buyer_response => Ok buyer_response
    | None =>
        Ok (action_record "reject" (JInt 0) "Invalid model response.")
    end
  else
    '(status, counter_price, message) <-
      respond_to_seller_offer c seller_price (message_text message) ;;
    Ok (action_record
          (match status with
           | ACCEPTED => "accept"
           | REJECTED => "reject"
           | _ => "counter"
           end)
          (JInt counter_price) message).

(** [buyer_response["action"] == "counter"] and, when it holds,
    [buyer_response["price"]]. *)
Definition counter_price_of (buyer_response : json) : result (option json) :=
  match buyer_response with
  | JObj d =>
      match dict_get d "action" with
      | None => Raise KeyError
      | Some a =>
          if json_is_str a "counter" then
            match dict_get d "price" with
            | None => Raise KeyError
            | Some p => Ok (Some p)
            end
          else Ok None
      end
  | _ => Raise TypeError
  end.

(** [handle_offer]: what it has written to the client stays written when
    a later statement raises. *)
Definition handle_offer (self : BuyerClient) (seller_data : dict)
  : BuyerClient * result unit :=
  let c := match context self with
           | Some c => c
           | None => fresh_context (budget self)
           end in
  let c := next_round c in
  match dict_get seller_data "price" with
  | None => (set_context self c, Raise KeyError)
  | Some price =>
      let c := record_seller_price c price in
      match dict_get seller_data "message" with
      | None => (set_context self c, Raise KeyError)
      | Some message =>
          let c := record_seller_message c message in
          match decide c price message with
          | Raise e => (set_context self c, Raise e)
          | Ok buyer_response =>
              match counter_price_of buyer_response with
              | Raise e => (set_context self c, Raise e)
              | Ok own =>
                  let c := match own with
                           | Some p => record_own_offer c p
                           | None => c
                           end in
                  (sendall (set_context self c) buyer_response, Ok tt)
              end
          end
      end
  end.

Definition type_in (seller_data : dict) (names : list string) : bool :=
  match dict_get seller_data "type" with
  | Some v => existsb (json_is_str v) names
  | None => false
  end.

(** [negotiate], on the bytes [recv] returned: the client afterwards and
    whether the negotiation goes on. *)
Definition negotiate (self : BuyerClient) (data : string) : BuyerClient * bool :=
  if String.eqb data EmptyString then (self, false)
  else
    match loads data with
    | None => (self, true)
    | Some (JObj seller_data) =>
        if type_in seller_data ["offer"; "counter"] then
          match handle_offer self seller_data with
          | (self', Raise _) => (self', false)
          | (self', Ok _) =>
              match context self' with
              | Some c =>
                  if current_round c >=? MAX_ROUNDS
                  then (stop self' "Max rounds reached.", false)
                  else (self', true)
              | None => (self', false)
              end
          end
        else if type_in seller_data ["accept"; "deal_confirmed"] then (self, false)
        else if type_in seller_data ["reject"] then (self, false)
        else (self, true)
    | Some _ => (self, false)
    end.

(** [while buyer.negotiate(): continue], on the successive results of
    [recv]. *)
Fixpoint main_loop (self : BuyerClient) (incoming : list string)
  : BuyerClient * bool :=
  match incoming with
  | [] => (self, true)
  | data :: rest =>
      let '(self', continue) := negotiate self data in
      if continue then main_loop self' rest else (self', false)
  end.

End Session.

End Buyer.

(* ================================================================== *)
(** * Definitions the properties are stated with *)
(* ================================================================== *)

(** Double quotes for apostrophes: the JSON texts of the examples are written
    with apostrophes. *)
Fixpoint jq (s : string) : string :=
  match s with
  | EmptyString => EmptyString
  | String c r => String (if Ascii.eqb c "'" then dquote else c) (jq r)
  end.

(** The multiplier of the seller's third rule, by round bucket. *)
Definition concession (round : Z) : float :=
  if round >=? 8 then f_1_05 else if round >=? 6 then f_1_12 else f_1_18.

(** The seller of [main.py]: the mangoes at the default floor, with the
    asking price [__init__] computes. *)
Definition mangoes : Seller.Product :=
  {| Seller.name := Seller.PRODUCT_NAME;
     Seller.base_market_price := Seller.MARKET_PRICE;
     Seller.quality_grade := Seller.QUALITY_GRADE;
     Seller.quantity := Seller.QUANTITY |}.

Definition default_seller : Seller.SellerServer :=
  {| Seller.product := mangoes; Seller.min_price := 144000;
     Seller.current_price := 251999; Seller.round := 0 |}.

(** A float that is zero or finite, with its mantissa at most [M] and its
    exponent between [lo] and [hi]. *)
Definition bounded_float (M lo hi : Z) (f : float) : Prop :=
  match f with
  | S754_zero _ => True
  | S754_finite _ p e => Z.pos p <= M /\ lo <= e <= hi
  | _ => False
  end.

(** A float literal of the source: positive, with a 53-bit mantissa and an
    exponent between -60 and 0. *)
Definition plain_literal (c : float) : Prop :=
  match c with
  | S754_finite _ m e => Z.pos m < 2 ^ 53 /\ -60 <= e <= 0
  | _ => False
  end.

(** Opening braces minus closing braces. *)
Fixpoint brace_depth (s : string) : Z :=
  match s with
  | EmptyString => 0
  | String c r =>
      (if Ascii.eqb c lbrace then 1 else if Ascii.eqb c rbrace then -1 else 0)
      + brace_depth r
  end.

(** [s[:k]]. *)
Definition prefix_of (k : nat) (s : string) : string := substring 0 k s.

(** A record whose braces balance at its last character and not before:
    it opens with a brace, every proper prefix is inside it, and the whole
    has depth zero. *)
Definition closes_at_end (r : string) : Prop :=
  (exists r', r = String lbrace r') /\
  brace_depth r = 0 /\
  forall k, (0 < k < String.length r)%nat -> 0 < brace_depth (prefix_of k r).

(** A text whose first opening brace is never closed. *)
Definition never_closes (t : string) : Prop :=
  forall k, (0 < k <= String.length t)%nat -> 0 < brace_depth (prefix_of k t).

(** A checker for [closes_at_end]. *)
Fixpoint inside (d : Z) (s : string) : bool :=
  match s with
  | EmptyString => false
  | String c r =>
      let d' := d + brace_depth (String c EmptyString) in
      match r with
      | EmptyString => d' =? 0
      | _ => (0 <? d') && inside d' r
      end
  end.

Definition closes_at_endb (r : string) : bool :=
  match r with
  | String c _ => Ascii.eqb c lbrace && inside 0 r
  | EmptyString => false
  end.

(** What may follow a number for it to end there. *)
Definition number_stops (rest : string) : bool :=
  match rest with
  | EmptyString => true
  | String c _ => negb (is_digit c) && negb (starts_float_tail rest)
  end.

Fixpoint dumps_items (l : list json) : string :=
  match l with
  | [] => EmptyString
  | [x] => dumps x
  | x :: r => dumps x ++ ", " ++ dumps_items r
  end.

Fixpoint dumps_members (d : dict) : string :=
  match d with
  | [] => EmptyString
  | [(k, x)] => dumps_str k ++ ": " ++ dumps x
  | (k, x) :: r => dumps_str k ++ ": " ++ dumps x ++ ", " ++ dumps_members r
  end.

(** The fuel a value takes to parse. *)
Fixpoint size (v : json) : nat :=
  match v with
  | JArr l => S (list_sum (map (fun x => S (size x)) l))
  | JObj d => S (list_sum (map (fun kv => S (size (snd kv))) d))
  | _ => 1%nat
  end.

Fixpoint distinct (l : list string) : bool :=
  match l with
  | [] => true
  | k :: r => negb (existsb (String.eqb k) r) && distinct r
  end.

(** The keys of every dict of the value are distinct, as those of a Python
    dict are. *)
Fixpoint well_formed (v : json) : bool :=
  match v with
  | JArr l => forallb well_formed l
  | JObj d => distinct (map fst d) && forallb (fun kv => well_formed (snd kv)) d
  | _ => true
  end.

(** The characters a printed value can start with. *)
Definition value_start (c : ascii) : bool :=
  is_digit c || Ascii.eqb c "-" || Ascii.eqb c dquote || Ascii.eqb c "["
  || Ascii.eqb c lbrace || Ascii.eqb c "n" || Ascii.eqb c "t" || Ascii.eqb c "f".

(** [v], printed, parses back to [v] with any fuel from its size on. *)
Definition parses (v : json) : Prop :=
  forall fuel rest,
    (size v <= fuel)%nat -> number_stops rest = true ->
    parse_value fuel (dumps v ++ rest) = Some (v, rest).

(** A parse that succeeds consumes input, and succeeds the same with any
    fuel from the number of characters it consumes on. *)
Definition fuel_free_value (f : nat) : Prop :=
  forall s v rest,
    parse_value f s = Some (v, rest) ->
    (String.length rest < String.length s)%nat /\
    forall f', (String.length s - String.length rest <= f')%nat ->
               parse_value f' s = Some (v, rest).

Definition fuel_free_members (f : nat) : Prop :=
  forall acc s v rest,
    parse_members f acc s = Some (v, rest) ->
    (String.length rest < String.length s)%nat /\
    forall f', (String.length s - String.length rest <= f')%nat ->
               parse_members f' acc s = Some (v, rest).

Definition fuel_free_elements (f : nat) : Prop :=
  forall acc s v rest,
    parse_elements f acc s = Some (v, rest) ->
    (String.length rest < String.length s)%nat /\
    forall f', (String.length s - String.length rest <= f')%nat ->
               parse_elements f' acc s = Some (v, rest).

(** The seller's counter the examples feed the buyer with. *)
Definition seller_counter (price : Z) : string :=
  Seller.encode_reply
    {| Seller.r_type := "counter"; Seller.r_price := price;
       Seller.r_message := "My best price."; Seller.r_round := 1 |}.

(** The round the buyer's context is at (0 before the first offer). *)
Definition round_of (self : Buyer.BuyerClient) : Z :=
  match Buyer.context self with
  | Some c => Agent.current_round c
  | None => 0
  end.

(** A model that always answers with the same counter. *)
Definition steady_model : Agent.NegotiationContext -> json -> json -> string :=
  fun _ _ _ => jq "{'action': 'counter', 'price': 150000, 'message': 'My offer.'}".

(** The record of the noise scenario, bare and wrapped in noise, and what
    it parses to. *)
Definition scenario_record : string :=
  jq "{'kind':'counter','price':150000,'message':'ok'}".

Definition scenario_text : string :=
  "blah blah " ++ scenario_record ++ " trailing junk".

Definition scenario_data : json :=
  JObj [("kind", JStr "counter"); ("price", JInt 150000); ("message", JStr "ok")].


(* ================================================================== *)
(** * seller_server.py : the session of [run] *)
(* ================================================================== *)

Module Session.

Import Seller.

Section Run.

Variable use_gemini : bool.
Variable generate_content : SellerServer -> Z -> string -> result string.
Variable int_of_str : string -> result Z.
Variable repr_container : json -> string.

(** The [while True] of [run], on the successive results of
    [conn.recv]: the seller afterwards and the texts it has sent, in
    order.  An empty result and an exception leave the loop, a text that
    does not decode is passed over, and a reply of a final type is the
    last one. *)
Fixpoint negotiation_loop (self : SellerServer) (incoming : list string)
  : SellerServer * list string :=
  match incoming with
  | [] => (self, [])
  | raw :: rest =>
      match serve use_gemini generate_content int_of_str repr_container
              self raw with
      | (self', Disconnected) => (self', [])
      | (self', Ignored) => negotiation_loop self' rest
      | (self', Failed _) => (self', [])
      | (self', Sent wire ended) =>
          if ended then (self', [wire])
          else
            let '(self'', wires) := negotiation_loop self' rest in
            (self'', wire :: wires)
      end
  end.

(** [run]: the opening offer, then the loop. *)
Definition run (self : SellerServer) (incoming : list string)
  : SellerServer * list string :=
  let '(self', wires) := negotiation_loop self incoming in
  (self', encode_reply (opening_msg self) :: wires).

End Run.

End Session.

(* ================================================================== *)
(** * buyer_client.py : the text of the local model *)
(* ================================================================== *)

Module Ollama.

(** [needle in v] for a [str] needle: a key of a dict, an element of a
    list, a part of a string; the other values are not containers. *)
Definition contains (v : json) (needle : string) : result bool :=
  match v with
  | JObj d => Ok (match dict_get d needle with Some _ => true | None => false end)
  | JArr l => Ok (existsb (fun x => Buyer.json_is_str x needle) l)
  | JStr s => Ok (match String.index 0 needle s with Some _ => true | None => false end)
  | JNull | JBool _ | JInt _ => Raise TypeError
  end.

(** [v[key]] for a [str] key. *)
Definition subscript (v : json) (key : string) : result json :=
  match v with
  | JObj d => match dict_get d key with
              | Some x => Ok x
              | None => Raise KeyError
              end
  | _ => Raise TypeError
  end.

(** [v.get(key)]. *)
Definition get (v : json) (key : string) : result json :=
  match v with
  | JObj d => Ok (dict_get_default d key JNull)
  | _ => Raise AttributeError
  end.

(** The body of the inner [try] for a decoded chunk: the text so far with
    the chunk's content added, and whether the chunk says it is the last. *)
Definition read_chunk (response_text : string) (chunk : json)
  : result (string * bool) :=
  has_message <- contains chunk "message" ;;
  has_content <-
    (if has_message then
       message <- subscript chunk "message" ;;
       contains message "content"
     else Ok false) ;;
  response_text <-
    (if has_content then
       message <- subscript chunk "message" ;;
       content <- subscript message "content" ;;
       match content with
       | JStr c => Ok (response_text ++ c)
       | _ => Raise TypeError
       end
     else Ok response_text) ;;
  done <- get chunk "done" ;;
  Ok (response_text, truthy done).

(** The [for line in resp.iter_lines()] loop.  Each element is what the
    iterator gives next: the bytes of a line, or the exception it raises.
    An empty line and a line that is not JSON are passed over; on a line
    that is not UTF-8, [line.decode("utf-8")] raises
    [UnicodeDecodeError], which the [except json.JSONDecodeError] of the
    loop does not catch. *)
Fixpoint iter_lines (lines : list (result string)) (response_text : string)
  : result string :=
  match lines with
  | [] => Ok response_text
  | Raise e :: _ => Raise e
  | Ok line :: rest =>
      if String.eqb line EmptyString then iter_lines rest response_text
      else if negb (valid_utf8 line) then Raise UnicodeDecodeError
      else
        match loads line with
        | None => iter_lines rest response_text
        | Some chunk =>
            '(response_text, done) <- read_chunk response_text chunk ;;
            if (done : bool) then Ok response_text
            else iter_lines rest response_text
        end
  end.

(** The text returned when anything fails. *)
Definition unavailable : string :=
  jq "{'action': 'reject', 'price': 0, 'message': 'Ollama unavailable, rejecting.'}".

(** [_ollama_generate], on the outcome of the request: the exception of
    [requests.post] or [raise_for_status], or the lines of the streamed
    answer. *)
Definition _ollama_generate (response : result (list (result string))) : string :=
  match (lines <- response ;; iter_lines lines EmptyString) with
  | Ok response_text => strip response_text
  | Raise _ => unavailable
  end.

End Ollama.

(* ================================================================== *)
(** * main.py : the orchestrator *)
(* ================================================================== *)

Module Main.

Import Buyer.

Definition MIN_EXCHANGES : Z := 3.
Definition MAX_EXCHANGES : Z := 10.

Section Orchestrator.

Variable use_gemini : bool.
Variable generate_content : Seller.SellerServer -> Z -> string -> result string.
Variable int_of_str : string -> result Z.
Variable repr_container : json -> string.

(** [run_seller]: the seller of the mangoes at the default floor, run. *)
Definition run_seller (incoming : list string)
  : result (Seller.SellerServer * list string) :=
  min_price <- Seller.MIN_PRICE ;;
  server <- Seller.init mangoes min_price ;;
  Ok (Session.run use_gemini generate_content int_of_str repr_container
        server incoming).

Variable USE_OLLAMA : bool.
Variable ollama_generate : Agent.NegotiationContext -> json -> json -> string.

(** What the socket gives to each [recv] in turn: the bytes received
    (none once the seller has closed the connection), or [None] when
    nothing ever arrives: the socket has no timeout, and that [recv]
    does not return. *)
Variable recv : nat -> option string.

(** [buyer.negotiate()] with its socket: [k] counts the results of
    [recv] consumed so far, and [None] is a call that never returns.  On
    a closed socket [recv] raises, the method returns [False] and
    nothing is consumed. *)
Definition negotiate_call (buyer : BuyerClient) (k : nat)
  : option (BuyerClient * bool * nat) :=
  if closed buyer then Some (buyer, false, k)
  else
    match recv k with
    | None => None
    | Some data =>
        let '(buyer', cont) := negotiate USE_OLLAMA ollama_generate buyer data in
        Some (buyer', cont, S k)
    end.

(** How the [while] of [wrapped_buyer] goes: it leaves through a
    [break], or it waits for ever in a [recv]; each with the buyer and
    the exchange count at that point. *)
Inductive ending : Type :=
| Broke (buyer : BuyerClient) (count : Z)
| Blocked (buyer : BuyerClient) (count : Z).

(** The [while] of [wrapped_buyer]; [None] when the fuel does not reach
    its end. *)
Fixpoint wrapped_loop (fuel : nat) (buyer : BuyerClient) (count : Z) (k : nat)
  : option ending :=
  match fuel with
  | O => None
  | S fuel' =>
      match negotiate_call buyer k with
      | None => Some (Blocked buyer count)
      | Some (buyer, cont, k) =>
          let count := count + 1 in
          if count >=? MAX_EXCHANGES then Some (Broke buyer count)
          else if (count <? MIN_EXCHANGES) && negb cont
               then wrapped_loop fuel' buyer count k
          else if negb cont then Some (Broke buyer count)
          else wrapped_loop fuel' buyer count k
      end
  end.

(** [wrapped_buyer]: a client with the default budget, connected, and
    the loop from the count 0. *)
Definition wrapped_buyer (fuel : nat) : option ending :=
  wrapped_loop fuel (init 200000) 0 0%nat.

(** [run_buyer]: one call of [negotiate]. *)
Definition run_buyer : option (BuyerClient * bool) :=
  match negotiate_call (init 200000) 0%nat with
  | Some (buyer, cont, _) => Some (buyer, cont)
  | None => None
  end.

End Orchestrator.

End Main.

(* ================================================================== *)
(** * [json.dumps] as the buyer calls it: escaped to ASCII *)
(* ================================================================== *)

Module EnsureAscii.

(** Four lower-case hexadecimal digits. *)
Definition hex4_text (n : N) : string :=
  (String (hex_digit (n / 4096))
     (String (hex_digit ((n / 256) mod 16))
        (String (hex_digit ((n / 16) mod 16))
           (String (hex_digit (n mod 16)) EmptyString))))%N.

Definition u_escape (n : N) : string :=
  String backslash (String "u" (hex4_text n)).

(** A code point as [\uXXXX], or as a pair of surrogates above the basic
    plane. *)
Definition escape_code_point (cp : N) : string :=
  (if cp <? 65536 then u_escape cp
   else
     let n := cp - 65536 in
     u_escape (55296 + n / 1024) ++ u_escape (56320 + n mod 1024))%N.

(** An ASCII character: as [escape_char] writes it, but for DEL, which is
    escaped too. *)
Definition escape_ascii_char (c : ascii) : string :=
  if (N_of_ascii c =? 127)%N then u_escape 127 else escape_char c.

(** The inside of a string literal with [ensure_ascii=True]: every
    character outside the printable ASCII range is written as an escape.
    The text is read one UTF-8 character at a time; a text cut inside a
    character, which no [str] is, ends there. *)
Fixpoint escape_ascii (s : string) : string :=
  match s with
  | EmptyString => EmptyString
  | String c r =>
      let n := N_of_ascii c in
      if (n <? 128)%N then escape_ascii_char c ++ escape_ascii r
      else
        match r with
        | EmptyString => EmptyString
        | String c2 r2 =>
            if (n <? 224)%N
            then escape_code_point (code_point2 c c2) ++ escape_ascii r2
            else
              match r2 with
              | EmptyString => EmptyString
              | String c3 r3 =>
                  if (n <? 240)%N
                  then escape_code_point (code_point3 c c2 c3) ++ escape_ascii r3
                  else
                    match r3 with
                    | EmptyString => EmptyString
                    | String c4 r4 =>
                        escape_code_point (code_point4 c c2 c3 c4)
                        ++ escape_ascii r4
                    end
              end
        end
  end.

Definition dumps_str_ascii (s : string) : string := quoted (escape_ascii s).

(** [json.dumps(v)] with the defaults: [ensure_ascii=True] and the
    separators [", "] and [": "]. *)
Fixpoint dumps_ascii (v : json) : string :=
  match v with
  | JNull => "null"
  | JBool true => "true"
  | JBool false => "false"
  | JInt z => str_of_int z
  | JStr s => dumps_str_ascii s
  | JArr l =>
      "[" ++
      (fix items (l : list json) : string :=
         match l with
         | [] => EmptyString
         | [x] => dumps_ascii x
         | x :: r => dumps_ascii x ++ ", " ++ items r
         end) l ++ "]"
  | JObj d =>
      "{" ++
      (fix members (d : dict) : string :=
         match d with
         | [] => EmptyString
         | [(k, x)] => dumps_str_ascii k ++ ": " ++ dumps_ascii x
         | (k, x) :: r =>
             dumps_str_ascii k ++ ": " ++ dumps_ascii x ++ ", " ++ members r
         end) d ++ "}"
  end.

(** The bytes the buyer's [sendall] is given for a record:
    [json.dumps(record).encode("utf-8")]. *)
Definition encode_record (record : json) : string := dumps_ascii record.

End EnsureAscii.
(* ================================================================== *)
(** * Definitions the further properties are stated with *)
(* ================================================================== *)

(** The types on which [run] leaves its loop. *)
Definition is_final (typ : string) : bool :=
  String.eqb typ "deal_confirmed" || String.eqb typ "accept"
  || String.eqb typ "reject".

(** The [type] of the record a text on the wire decodes to. *)
Definition wire_type (wire : string) : option string :=
  match loads wire with
  | Some (JObj d) =>
      match dict_get d "type" with
      | Some (JStr t) => Some t
      | _ => None
      end
  | _ => None
  end.

(** A literal whose rounded products cannot fall below the other factor:
    53 digits at the exponent -52, and at least [1 / (1 - 2^-52)]. *)
Definition above_one (c : float) : Prop :=
  match c with
  | S754_finite false mc (-52) =>
      2 ^ 52 <= Z.pos mc < 2 ^ 53 /\ 2 ^ 104 <= Z.pos mc * (2 ^ 52 - 1)
  | _ => False
  end.

(** A literal whose rounded products cannot pass the other factor: 53
    digits at the exponent -53, and at most [1 / (1 + 2^-52)]. *)
Definition below_one (c : float) : Prop :=
  match c with
  | S754_finite false mc (-53) =>
      2 ^ 52 <= Z.pos mc < 2 ^ 53 /\ Z.pos mc * (2 ^ 52 + 1) <= 2 ^ 105
  | _ => False
  end.

(** The budget the buyer's decisions are taken with: that of its context
    once it has one. *)
Definition budget_in_force (self : Buyer.BuyerClient) : Z :=
  match Buyer.context self with
  | Some c => Agent.your_budget c
  | None => Buyer.budget self
  end.

(** The context [handle_offer] takes its decision with: the round advanced,
    the seller's price and message recorded. *)
Definition context_at_offer (self : Buyer.BuyerClient) (price message : json)
  : Agent.NegotiationContext :=
  Buyer.record_seller_message
    (Buyer.record_seller_price
       (Buyer.next_round
          match Buyer.context self with
          | Some c => c
          | None => Buyer.fresh_context (Buyer.budget self)
          end)
       price)
    message.

(** A line of the model's stream that carries a piece of the answer:
    it decodes to a dict whose [message] is a dict with a string [content];
    [is_last] is the truth value of its [done]. *)
Definition content_chunk (line content : string) (is_last : bool) : Prop :=
  line <> EmptyString /\
  exists d m,
    loads line = Some (JObj d) /\
    dict_get d "message" = Some (JObj m) /\
    dict_get m "content" = Some (JStr content) /\
    truthy (dict_get_default d "done" JNull) = is_last.

(** A line the loop passes over: empty, or a text that is not JSON. *)
Definition passed_over (line : string) : Prop :=
  line = EmptyString \/
  (valid_utf8 line = true /\ float_free line = true /\ loads line = None).

(** What a buyer's session keeps true of the client. *)
Definition session_invariant (initial_budget : Z) (self : Buyer.BuyerClient) : Prop :=
  Buyer.budget self = initial_budget /\
  budget_in_force self = initial_budget /\
  round_of self <= Buyer.MAX_ROUNDS /\
  (Buyer.closed self = true ->
   Buyer.negotiation_active self = false /\ round_of self = Buyer.MAX_ROUNDS) /\
  match Buyer.context self with
  | None => Buyer.sent self = []
  | Some c =>
      (List.length (Agent.your_offers c) <= List.length (Agent.messages c))%nat /\
      (List.length (Agent.messages c) <= List.length (Agent.seller_offers c))%nat /\
      Z.of_nat (List.length (Agent.seller_offers c)) <= Agent.current_round c /\
      (List.length (Buyer.sent self)
       <= List.length (Agent.messages c) + (if Buyer.closed self then 1 else 0))%nat
  end.

(** A text of ASCII characters only. *)
Fixpoint ascii_only (s : string) : bool :=
  match s with
  | EmptyString => true
  | String c r => (N_of_ascii c <? 128)%N && ascii_only r
  end.

(** Every string of the value, keys included, is a UTF-8 text. *)
Fixpoint utf8_json (v : json) : bool :=
  match v with
  | JStr s => valid_utf8 s
  | JArr l => forallb utf8_json l
  | JObj d => forallb (fun kv => valid_utf8 (fst kv) && utf8_json (snd kv)) d
  | _ => true
  end.

Fixpoint dumps_ascii_items (l : list json) : string :=
  match l with
  | [] => EmptyString
  | [x] => EnsureAscii.dumps_ascii x
  | x :: r => EnsureAscii.dumps_ascii x ++ ", " ++ dumps_ascii_items r
  end.

Fixpoint dumps_ascii_members (d : dict) : string :=
  match d with
  | [] => EmptyString
  | [(k, x)] => EnsureAscii.dumps_str_ascii k ++ ": " ++ EnsureAscii.dumps_ascii x
  | (k, x) :: r =>
      EnsureAscii.dumps_str_ascii k ++ ": " ++ EnsureAscii.dumps_ascii x ++ ", "
      ++ dumps_ascii_members r
  end.

(** [v], printed in ASCII, parses back to [v] with any fuel from its size
    on. *)
Definition parses_ascii (v : json) : Prop :=
  forall fuel rest,
    (size v <= fuel)%nat -> number_stops rest = true ->
    parse_value fuel (EnsureAscii.dumps_ascii v ++ rest) = Some (v, rest).

(** The name a status goes by in the record [handle_offer] builds. *)
Definition action_of (status : Agent.DealStatus) : string :=
  match status with
  | Agent.ACCEPTED => "accept"
  | Agent.REJECTED => "reject"
  | _ => "counter"
  end.

(* ================================================================== *)
(** * Lemmas *)
(* ================================================================== *)

(** The literals are the binary64 values Python reads them as. *)
Lemma literals_bits :
  f_1_1 = S754_finite false 0x1199999999999A (-52) /\
  f_1_5 = S754_finite false 0x18000000000000 (-52) /\
  f_0_8 = S754_finite false 0x1999999999999A (-53) /\
  f_0_65 = S754_finite false 0x14CCCCCCCCCCCD (-53) /\
  f_1_07 = S754_finite false 0x111EB851EB851F (-52) /\
  f_1_05 = S754_finite false 0x10CCCCCCCCCCCD (-52) /\
  f_1_12 = S754_finite false 0x11EB851EB851EC (-52) /\
  f_1_18 = S754_finite false 0x12E147AE147AE1 (-52) /\
  f_1_4 = S754_finite false 0x16666666666666 (-52).
Proof. repeat split; vm_compute; reflexivity. Qed.

Lemma default_seller_init :
  Seller.MIN_PRICE = Ok 144000 /\
  Seller.init mangoes 144000 = Ok default_seller.
Proof. split; vm_compute; reflexivity. Qed.

Section SellerFallback.

Import Seller.

Lemma rule_based_state self offer msg :
  fst (_rule_based_response self offer msg) = set_round self (round self + 1).
Proof. reflexivity. Qed.

(** The three rules, in order, for a threshold that is defined. *)
Lemma rule_based_cases self offer msg threshold :
  int_mul (min_price self) f_1_1 = Ok threshold ->
  (threshold <= offer ->
   exists m, snd (_rule_based_response self offer msg)
             = Ok {| r_type := "accept"; r_price := offer; r_message := m;
                     r_round := round self + 1 |}) /\
  (offer < threshold -> offer <= 0 ->
   exists m, snd (_rule_based_response self offer msg)
             = Ok {| r_type := "counter"; r_price := current_price self;
                     r_message := m; r_round := round self + 1 |}) /\
  (offer < threshold -> 0 < offer ->
   forall p, int_mul offer (concession (round self + 1)) = Ok p ->
   exists m, snd (_rule_based_response self offer msg)
             = Ok {| r_type := "counter";
                     r_price := Z.max (min_price self) p;
                     r_message := m; r_round := round self + 1 |}).
Proof.
  intros Hthr. unfold _rule_based_response. cbn [snd set_round min_price round current_price product].
  rewrite Hthr. cbn [bind].
  repeat split.
  - intros H. rewrite Z.geb_leb. apply Z.leb_le in H. rewrite H. eexists; reflexivity.
  - intros H1 H2.
    assert (E1 : (offer >=? threshold) = false) by (rewrite Z.geb_leb; apply Z.leb_gt; lia).
    assert (E2 : (offer <=? 0) = true) by (apply Z.leb_le; lia).
    rewrite E1, E2. eexists; reflexivity.
  - intros H1 H2 p Hp.
    assert (E1 : (offer >=? threshold) = false) by (rewrite Z.geb_leb; apply Z.leb_gt; lia).
    assert (E2 : (offer <=? 0) = false) by (apply Z.leb_gt; lia).
    rewrite E1, E2. unfold concession in Hp.
    destruct (round self + 1 >=? 8).
    + rewrite Hp. cbn [bind]. eexists; reflexivity.
    + destruct (round self + 1 >=? 6); rewrite Hp; cbn [bind]; eexists; reflexivity.
Qed.

(** Whatever the rules return is an accept or a counter. *)
Lemma rule_based_type self offer msg r :
  snd (_rule_based_response self offer msg) = Ok r ->
  r_type r = "accept" \/ r_type r = "counter".
Proof.
  unfold _rule_based_response. cbn [snd].
  destruct (int_mul _ f_1_1) as [thr|e]; cbn [bind]; [|discriminate].
  destruct (offer >=? thr).
  { intros H; inversion H; subst; cbn; auto. }
  destruct (offer <=? 0).
  { intros H; inversion H; subst; cbn; auto. }
  destruct (_ >=? 8).
  { destruct (int_mul offer f_1_05); cbn [bind]; [|discriminate].
    intros H; inversion H; subst; cbn; auto. }
  destruct (_ >=? 6).
  { destruct (int_mul offer f_1_12); cbn [bind]; [|discriminate].
    intros H; inversion H; subst; cbn; auto. }
  destruct (int_mul offer f_1_18); cbn [bind]; [|discriminate].
  intros H; inversion H; subst; cbn; auto.
Qed.

End SellerFallback.

Section SellerHandler.

Import Seller.

Variable use_gemini : bool.
Variable generate_content : SellerServer -> Z -> string -> result string.
Variable int_of_str : string -> result Z.
Variable repr_container : json -> string.

Lemma lower_nonempty a : lower a = "accept" -> String.eqb a EmptyString = false.
Proof. destruct a; [discriminate | reflexivity]. Qed.

(** The fields of a record whose action is given as a string. *)
Lemma buyer_fields_action d a :
  dict_get d "action" = Some (JStr a) ->
  String.eqb a EmptyString = false ->
  buyer_fields int_of_str repr_container (JObj d)
  = (buyer_price <- py_int int_of_str
                      (py_or (dict_get_default d "price" (JInt 0)) (JInt 0)) ;;
     Ok (lower a, buyer_price,
         py_str repr_container
           (py_or (dict_get_default d "message" (JStr EmptyString))
                  (JStr EmptyString)))).
Proof.
  intros Ha Hne. unfold buyer_fields, dict_get_default. rewrite Ha.
  unfold py_or at 2. cbn [truthy]. rewrite Hne. cbn [negb].
  unfold py_or at 1. cbn [truthy]. rewrite Hne. reflexivity.
Qed.

Lemma price_field_int d p :
  dict_get d "price" = Some (JInt p) ->
  py_int int_of_str (py_or (dict_get_default d "price" (JInt 0)) (JInt 0)) = Ok p.
Proof.
  intros H. unfold dict_get_default, py_or. rewrite H. cbn [truthy].
  destruct (Z.eqb_spec p 0); subst; reflexivity.
Qed.

Lemma price_field_absent d :
  dict_get d "price" = None ->
  py_int int_of_str (py_or (dict_get_default d "price" (JInt 0)) (JInt 0)) = Ok 0.
Proof. intros H. unfold dict_get_default. rewrite H. reflexivity. Qed.


End SellerHandler.


(* ================================================================== *)
(** * Binary64 arithmetic stays defined *)
(* ================================================================== *)

Section FloatsDefined.

Lemma digits2_spec m :
  2 ^ (Z.pos (digits2_pos m) - 1) <= Z.pos m < 2 ^ Z.pos (digits2_pos m).
Proof.
  induction m as [m IH|m IH|]; cbn [digits2_pos].
  - rewrite Pos2Z.inj_succ.
    replace (Z.succ (Z.pos (digits2_pos m)) - 1) with (Z.succ (Z.pos (digits2_pos m) - 1)) by lia.
    rewrite !Z.pow_succ_r by lia. lia.
  - rewrite Pos2Z.inj_succ.
    replace (Z.succ (Z.pos (digits2_pos m)) - 1) with (Z.succ (Z.pos (digits2_pos m) - 1)) by lia.
    rewrite !Z.pow_succ_r by lia. lia.
  - cbn. lia.
Qed.

Lemma digits2_bound m k : 0 <= k -> Z.pos m < 2 ^ k -> Z.pos (digits2_pos m) <= k.
Proof.
  intros Hk Hm. destruct (digits2_spec m) as [Hlo _].
  destruct (Z.le_gt_cases (Z.pos (digits2_pos m)) k) as [H|H]; [exact H|].
  exfalso. assert (2 ^ k <= 2 ^ (Z.pos (digits2_pos m) - 1))
    by (apply Z.pow_le_mono_r; lia). lia.
Qed.

Lemma Zdigits2_bound z k : 0 <= k -> 0 <= z < 2 ^ k -> 0 <= Zdigits2 z <= k.
Proof.
  intros Hk Hz. destruct z as [|p|p]; cbn [Zdigits2]; [lia| |lia].
  split; [lia|]. apply digits2_bound; lia.
Qed.

Lemma digits2_iter_xO m d :
  digits2_pos (Pos.iter xO m d) = (digits2_pos m + d)%positive.
Proof.
  induction d as [|d IH] using Pos.peano_ind.
  - cbn. lia.
  - rewrite Pos.iter_succ. cbn [digits2_pos]. rewrite IH. lia.
Qed.

(** Shifting right keeps a mantissa between 0 and where it was. *)
Lemma shr_1_range mrs M : 0 <= shr_m mrs <= M -> 0 <= shr_m (shr_1 mrs) <= M.
Proof.
  destruct mrs as [m r s]. cbn [shr_m shr_1].
  destruct m as [|[p|p|]|[p|p|]]; cbn [shr_m]; lia.
Qed.

Lemma iter_pos_range n : forall mrs M,
  0 <= shr_m mrs <= M -> 0 <= shr_m (iter_pos shr_1 n mrs) <= M.
Proof.
  induction n as [n IH|n IH|]; intros mrs M H; cbn [iter_pos].
  - apply IH, IH, shr_1_range, H.
  - apply IH, IH, H.
  - apply shr_1_range, H.
Qed.

Lemma shr_range mrs e n M :
  0 <= shr_m mrs <= M ->
  0 <= shr_m (fst (shr mrs e n)) <= M /\
  snd (shr mrs e n) = e + Z.max 0 n.
Proof.
  intros H. destruct n as [|p|p]; cbn [shr fst snd].
  - split; [exact H | lia].
  - split; [apply iter_pos_range, H | lia].
  - split; [exact H | lia].
Qed.

Lemma round_range m l : 0 <= m -> 0 <= round_nearest_even m l <= m + 1.
Proof.
  intros H. destruct l as [|[| |]]; cbn [round_nearest_even]; try lia.
  destruct (Z.even m); lia.
Qed.

Lemma shr_record_m m l : shr_m (shr_record_of_loc m l) = m.
Proof. destruct l as [|[| |]]; reflexivity. Qed.

(** Rounding a mantissa below [2^K] gives a zero or a finite number whose
    exponent has grown by [2 * K] at most. *)
Lemma binary_round_aux_bounded s m e K :
  0 <= K <= 300 -> Z.pos m < 2 ^ K -> -1074 <= e <= 300 ->
  bounded_float (Z.pos m + 1) e (e + 2 * K)
    (binary_round_aux prec emax s (Z.pos m) e loc_Exact).
Proof.
  intros HK Hm He. unfold binary_round_aux, shr_fexp.
  set (n1 := fexp prec emax (Zdigits2 (Z.pos m) + e) - e).
  destruct (shr_range (shr_record_of_loc (Z.pos m) loc_Exact) e n1 (Z.pos m))
    as [Hm1 He1]; [rewrite shr_record_m; lia|].
  destruct (shr (shr_record_of_loc (Z.pos m) loc_Exact) e n1) as [mrs1 e1].
  cbn [fst snd] in Hm1, He1.
  set (m2 := round_nearest_even (shr_m mrs1) (loc_of_shr_record mrs1)).
  assert (Hm2 : 0 <= m2 <= Z.pos m + 1)
    by (pose proof (round_range (shr_m mrs1) (loc_of_shr_record mrs1)); lia).
  set (n2 := fexp prec emax (Zdigits2 m2 + e1) - e1).
  destruct (shr_range (shr_record_of_loc m2 loc_Exact) e1 n2 m2)
    as [Hm3 He3]; [rewrite shr_record_m; lia|].
  destruct (shr (shr_record_of_loc m2 loc_Exact) e1 n2) as [mrs3 e3].
  cbn [fst snd] in Hm3, He3.
  assert (Hd1 : 0 <= Zdigits2 (Z.pos m) <= K) by (apply Zdigits2_bound; lia).
  assert (Hd2 : 0 <= Zdigits2 m2 <= K + 1).
  { apply Zdigits2_bound; [lia|]. rewrite Z.pow_add_r by lia.
    change (2 ^ 1) with 2. lia. }
  unfold fexp, SpecFloat.emin, prec, emax in n1, n2.
  subst n1 n2. change IntDef.Z.max with Z.max in He1, He3.
  assert (Hexp : e <= e3 <= e + 2 * K).
  { clear Hm3 Hm2 Hm1.
    set (d1 := Zdigits2 (Z.pos m)) in *. set (d2 := Zdigits2 m2) in *.
    clearbody d1 d2. lia. }
  destruct (shr_m mrs3) as [|p|p] eqn:E; [exact I | | lia].
  assert (Hle : (e3 <=? emax - prec) = true)
    by (apply Z.leb_le; unfold emax, prec; lia).
  rewrite Hle. cbn [bounded_float]. lia.
Qed.

(** The binary64 value of an int below [2^53] in absolute value. *)
Lemma of_Z_bounded x :
  Z.abs x < 2 ^ 53 -> bounded_float (2 ^ 53) (-52) 106 (of_Z x).
Proof.
  intros Hx. unfold of_Z, binary_normalize.
  assert (Hround : forall s m, Z.pos m < 2 ^ 53 ->
            bounded_float (2 ^ 53) (-52) 106 (binary_round prec emax s m 0)).
  { intros s m Hm. unfold binary_round, shl_align.
    pose proof (digits2_bound m 53 ltac:(lia) Hm) as Hd.
    assert (Hf : fexp prec emax (Z.pos (digits2_pos m) + 0)
                 = Z.pos (digits2_pos m) - 53).
    { unfold fexp, SpecFloat.emin, prec, emax.
      change IntDef.Z.max with Z.max. lia. }
    rewrite Hf.
    destruct (Z.pos (digits2_pos m) - 53 - 0) as [|q|q] eqn:Eq; [| lia |].
    - pose proof (binary_round_aux_bounded s m 0 53 ltac:(lia) Hm ltac:(lia)) as H.
      destruct (binary_round_aux prec emax s (Z.pos m) 0 loc_Exact);
        cbn [bounded_float] in *; lia.
    - assert (Hmz : Z.pos (Pos.iter xO m q) < 2 ^ 53).
      { pose proof (digits2_spec (Pos.iter xO m q)) as [_ Hhi].
        rewrite digits2_iter_xO in Hhi.
        replace (Z.pos (digits2_pos m + q)) with 53 in Hhi by lia. exact Hhi. }
      pose proof (binary_round_aux_bounded s (Pos.iter xO m q)
                    (Z.pos (digits2_pos m) - 53) 53 ltac:(lia) Hmz ltac:(lia)) as H.
      destruct (binary_round_aux prec emax s (Z.pos (Pos.iter xO m q))
                  (Z.pos (digits2_pos m) - 53) loc_Exact);
        cbn [bounded_float] in *; lia. }
  destruct x as [|m|m]; [exact I | apply Hround; lia | apply Hround; lia].
Qed.

(** [x * c] is a finite float, for an int below [2^53] and a literal. *)
Lemma mul_int_float_defined x c :
  Z.abs x < 2 ^ 53 -> plain_literal c ->
  exists f, mul_int_float x c = Ok f /\ bounded_float (2 ^ 106) (-112) 318 f.
Proof.
  intros Hx Hc. unfold mul_int_float, float_of_int.
  pose proof (of_Z_bounded x Hx) as Hf.
  destruct c as [| | |sc mc ec]; try contradiction. destruct Hc as [Hmc Hec].
  destruct (of_Z x) as [s| | |s m e]; cbn [bounded_float] in Hf; try contradiction;
    cbn [bind].
  - eexists. split; [reflexivity|]. exact I.
  - eexists. split; [reflexivity|]. unfold fmul, SFmul.
    assert (Hprod : Z.pos (m * mc) < 2 ^ 106).
    { rewrite Pos2Z.inj_mul. change (2 ^ 106) with (2 ^ 53 * 2 ^ 53).
      apply Z.le_lt_trans with (2 ^ 53 * Z.pos mc); [|lia].
      apply Z.mul_le_mono_nonneg_r; lia. }
    pose proof (binary_round_aux_bounded (xorb s sc) (m * mc) (e + ec) 106
                  ltac:(lia) Hprod ltac:(lia)) as H.
    destruct (binary_round_aux prec emax (xorb s sc) (Z.pos (m * mc)) (e + ec) loc_Exact);
      cbn [bounded_float] in *; lia.
Qed.

(** [int(x * c)] is defined, for an int below [2^53] and a literal. *)
Lemma int_mul_defined x c :
  Z.abs x < 2 ^ 53 -> plain_literal c -> exists z, int_mul x c = Ok z.
Proof.
  intros Hx Hc. unfold int_mul.
  destruct (mul_int_float_defined x c Hx Hc) as (f & -> & Hf). cbn [bind].
  destruct f; cbn [bounded_float] in Hf; try contradiction;
    eexists; reflexivity.
Qed.

Lemma literals_plain :
  plain_literal f_1_1 /\ plain_literal f_1_5 /\ plain_literal f_0_8 /\
  plain_literal f_0_65 /\ plain_literal f_1_07 /\ plain_literal f_1_05 /\
  plain_literal f_1_12 /\ plain_literal f_1_18 /\ plain_literal f_1_4.
Proof.
  destruct literals_bits as (-> & -> & -> & -> & -> & -> & -> & -> & ->).
  unfold plain_literal. repeat split; lia.
Qed.

End FloatsDefined.


(** Within 53 bits the policies always answer. *)
Section PoliciesDefined.

Lemma rule_based_total self offer msg :
  Z.abs (Seller.min_price self) < 2 ^ 53 -> Z.abs offer < 2 ^ 53 ->
  exists threshold r,
    int_mul (Seller.min_price self) f_1_1 = Ok threshold /\
    snd (Seller._rule_based_response self offer msg) = Ok r.
Proof.
  intros Hfloor Hoffer.
  destruct literals_plain as (H11 & _ & _ & _ & _ & H105 & H112 & H118 & _).
  destruct (int_mul_defined _ _ Hfloor H11) as [threshold Hthr].
  exists threshold.
  unfold Seller._rule_based_response.
  cbn [snd Seller.min_price Seller.set_round]. rewrite Hthr. cbn [bind].
  destruct (offer >=? threshold); [eexists; split; [reflexivity | reflexivity]|].
  destruct (offer <=? 0); [eexists; split; [reflexivity | reflexivity]|].
  destruct (_ >=? 8).
  { destruct (int_mul_defined _ _ Hoffer H105) as [p ->]. cbn [bind].
    eexists; split; reflexivity. }
  destruct (_ >=? 6).
  { destruct (int_mul_defined _ _ Hoffer H112) as [p ->]. cbn [bind].
    eexists; split; reflexivity. }
  destruct (int_mul_defined _ _ Hoffer H118) as [p ->]. cbn [bind].
  eexists; split; reflexivity.
Qed.

Lemma respond_total context seller_price msg last :
  Z.abs (Agent.your_budget context) < 2 ^ 53 ->
  Agent.last_offer_of context = Ok last -> Z.abs last < 2 ^ 53 ->
  exists answer, Agent.respond_to_seller_offer context seller_price msg = Ok answer.
Proof.
  intros Hbudget Hlast Hl.
  destruct literals_plain as (_ & H15 & H08 & _ & H107 & _).
  unfold Agent.respond_to_seller_offer.
  destruct (seller_price <=? Agent.your_budget context); [eexists; reflexivity|].
  destruct (mul_int_float_defined _ _ Hbudget H15) as (limit & -> & _).
  cbn [bind]. destruct (int_gt_float seller_price limit); [eexists; reflexivity|].
  rewrite Hlast. cbn [bind].
  destruct (int_mul_defined _ _ Hl H107) as [raised ->]. cbn [bind].
  destruct (int_mul_defined _ _ Hbudget H08) as [anchor ->]. cbn [bind].
  eexists; reflexivity.
Qed.

End PoliciesDefined.


(* ================================================================== *)
(** * The balanced-block scan *)
(* ================================================================== *)

Section Scan.

Lemma prefix_of_cons k c r : prefix_of (S k) (String c r) = String c (prefix_of k r).
Proof. reflexivity. Qed.

Lemma prefix_of_zero s : prefix_of 0 s = EmptyString.
Proof. destruct s; reflexivity. Qed.

(** The scan of a block that closes at its end stops on its last
    character, whatever follows. *)
Lemma scan_block_closes r : forall i d s,
  r <> EmptyString ->
  0 <= d ->
  (0 < d \/ exists r', r = String lbrace r') ->
  d + brace_depth r = 0 ->
  (forall k, (0 < k < String.length r)%nat -> 0 < d + brace_depth (prefix_of k r)) ->
  scan_block (r ++ s) i d = Some (i + String.length r - 1)%nat.
Proof.
  induction r as [|c r IH]; intros i d s Hne Hd Hfirst Htot Hpre; [congruence|].
  cbn [append scan_block String.length].
  assert (Hnext : r <> EmptyString ->
                  forall k, (0 < k < String.length r)%nat ->
                  0 < d + brace_depth (prefix_of (S k) (String c r))).
  { intros _ k Hk. apply Hpre. cbn [String.length]. lia. }
  assert (Hone : r <> EmptyString -> 0 < d + brace_depth (prefix_of 1 (String c r))).
  { intros Hr. apply Hpre. destruct r; [congruence|]. cbn [String.length]. lia. }
  cbn [brace_depth] in Htot.
  destruct (Ascii.eqb c lbrace) eqn:Hl.
  - destruct r as [|c' r'].
    + cbn [brace_depth] in Htot. lia.
    + rewrite (IH (S i) (d + 1) s); [f_equal; cbn [String.length]; lia | congruence
                                     | lia | left; lia | lia |].
      intros k Hk. specialize (Hnext ltac:(congruence) k Hk).
      rewrite prefix_of_cons in Hnext. cbn [brace_depth] in Hnext.
      rewrite Hl in Hnext. lia.
  - destruct Hfirst as [Hpos | [r' Hr']];
      [|inversion Hr'; subst c; rewrite Ascii.eqb_refl in Hl; discriminate].
    destruct (Ascii.eqb c rbrace) eqn:Hr.
    + cbv zeta. destruct r as [|c' r'].
      * cbn [brace_depth] in Htot.
        assert (E : (d - 1 =? 0) = true) by (apply Z.eqb_eq; lia).
        rewrite E. f_equal. cbn [String.length]. lia.
      * specialize (Hone ltac:(congruence)).
        rewrite prefix_of_cons, prefix_of_zero in Hone.
        cbn [brace_depth] in Hone. rewrite Hl, Hr in Hone.
        assert (E : (d - 1 =? 0) = false) by (apply Z.eqb_neq; lia).
        rewrite E.
        rewrite (IH (S i) (d - 1) s); [f_equal; cbn [String.length]; lia | congruence
                                       | lia | left; lia | lia |].
        intros k Hk. specialize (Hnext ltac:(congruence) k Hk).
        rewrite prefix_of_cons in Hnext. cbn [brace_depth] in Hnext.
        rewrite Hl, Hr in Hnext. lia.
    + destruct r as [|c' r'].
      * cbn [brace_depth] in Htot. lia.
      * rewrite (IH (S i) d s); [f_equal; cbn [String.length]; lia | congruence
                                 | lia | left; lia | lia |].
        intros k Hk. specialize (Hnext ltac:(congruence) k Hk).
        rewrite prefix_of_cons in Hnext. cbn [brace_depth] in Hnext.
        rewrite Hl, Hr in Hnext. lia.
Qed.

(** The scan of a text that stays inside its first brace finds nothing. *)
Lemma scan_block_never t : forall i d,
  0 <= d ->
  (forall k, (0 < k <= String.length t)%nat -> 0 < d + brace_depth (prefix_of k t)) ->
  scan_block t i d = None.
Proof.
  induction t as [|c t IH]; intros i d Hd Hpre; [reflexivity|].
  cbn [scan_block].
  assert (Hone : 0 < d + brace_depth (prefix_of 1 (String c t))).
  { apply Hpre. cbn [String.length]. lia. }
  assert (Hnext : forall k, (0 < k <= String.length t)%nat ->
                            0 < d + brace_depth (prefix_of (S k) (String c t))).
  { intros k Hk. apply Hpre. cbn [String.length]. lia. }
  rewrite prefix_of_cons, prefix_of_zero in Hone. cbn [brace_depth] in Hone.
  destruct (Ascii.eqb c lbrace) eqn:Hl.
  - apply IH; [lia|]. intros k Hk. specialize (Hnext k Hk).
    rewrite prefix_of_cons in Hnext. cbn [brace_depth] in Hnext.
    rewrite Hl in Hnext. lia.
  - destruct (Ascii.eqb c rbrace) eqn:Hr.
    + cbv zeta.
      assert (E : (d - 1 =? 0) = false) by (apply Z.eqb_neq; lia).
      rewrite E. apply IH; [lia|]. intros k Hk. specialize (Hnext k Hk).
      rewrite prefix_of_cons in Hnext. cbn [brace_depth] in Hnext.
      rewrite Hl, Hr in Hnext. lia.
    + apply IH; [lia|]. intros k Hk. specialize (Hnext k Hk).
      rewrite prefix_of_cons in Hnext. cbn [brace_depth] in Hnext.
      rewrite Hl, Hr in Hnext. lia.
Qed.

Lemma find_skips_prefix p t :
  find lbrace p = None ->
  find lbrace (p ++ String lbrace t) = Some (String.length p).
Proof.
  induction p as [|c p IH]; cbn [append find String.length].
  - intros _. rewrite Ascii.eqb_refl. reflexivity.
  - destruct (Ascii.eqb c lbrace); [discriminate|].
    destruct (find lbrace p); [discriminate|].
    intros _. rewrite (IH eq_refl). reflexivity.
Qed.

Lemma find_none_append p t :
  find lbrace p = None -> find lbrace t = None -> find lbrace (p ++ t) = None.
Proof.
  induction p as [|c p IH]; cbn [append find]; [auto|].
  destruct (Ascii.eqb c lbrace); [discriminate|].
  destruct (find lbrace p); [discriminate|].
  intros _ Ht. rewrite (IH eq_refl Ht). reflexivity.
Qed.

Lemma drop_prefix p t : drop (String.length p) (p ++ t) = t.
Proof.
  induction p as [|c p IH]; cbn [String.length append drop]; [destruct t|]; auto.
Qed.

Lemma substring_skips_prefix p t n :
  substring (String.length p) n (p ++ t) = substring 0 n t.
Proof.
  induction p as [|c p IH]; cbn [String.length append]; [reflexivity|].
  cbn [substring]. exact IH.
Qed.

Lemma substring_whole r s : substring 0 (String.length r) (r ++ s) = r.
Proof.
  induction r as [|c r IH]; cbn [String.length append substring].
  - destruct s; reflexivity.
  - rewrite IH. reflexivity.
Qed.

Lemma append_nonempty p c t : String.eqb (p ++ String c t) EmptyString = false.
Proof. destruct p; reflexivity. Qed.

(** The block extracted from a record that closes at its end, between a
    prefix without an opening brace and any suffix, is the record. *)
Lemma extract_embedded p r s :
  find lbrace p = None ->
  closes_at_end r ->
  extract_first_json_block (p ++ r ++ s) = Some r.
Proof.
  intros Hp ([r' Hr] & Htot & Hpre).
  unfold extract_first_json_block.
  assert (Hscan : scan_block (r ++ s) (String.length p) 0
                  = Some (String.length p + String.length r - 1)%nat).
  { apply scan_block_closes; [subst r; congruence | lia | right; eauto | lia |].
    intros k Hk. specialize (Hpre k Hk). lia. }
  subst r. cbn [append] in *.
  rewrite append_nonempty, (find_skips_prefix p _ Hp), drop_prefix, Hscan.
  replace (String.length p + String.length (String lbrace r') - 1 + 1
           - String.length p)%nat
    with (String.length (String lbrace r')) by (cbn [String.length]; lia).
  rewrite substring_skips_prefix.
  change (String lbrace (r' ++ s)) with (String lbrace r' ++ s).
  rewrite substring_whole. reflexivity.
Qed.

Lemma brace_depth_cons c r :
  brace_depth (String c r) = brace_depth (String c EmptyString) + brace_depth r.
Proof. cbn [brace_depth]. lia. Qed.

Lemma inside_correct s : forall d,
  inside d s = true ->
  d + brace_depth s = 0 /\
  forall k, (0 < k < String.length s)%nat -> 0 < d + brace_depth (prefix_of k s).
Proof.
  induction s as [|c s IH]; intros d H; [discriminate|].
  cbn [inside] in H. cbv zeta in H. rewrite (brace_depth_cons c s).
  destruct s as [|c' s'].
  - apply Z.eqb_eq in H. split; [cbn [brace_depth] in *; lia|].
    intros k Hk. cbn [String.length] in Hk. lia.
  - apply andb_prop in H. destruct H as [Hpos Hin]. apply Z.ltb_lt in Hpos.
    destruct (IH _ Hin) as [Htot Hpre]. split; [lia|].
    intros k Hk. destruct k as [|k]; [lia|].
    rewrite prefix_of_cons, (brace_depth_cons c).
    destruct k as [|k].
    + rewrite prefix_of_zero. cbn [brace_depth] in *. lia.
    + assert (Hk' : (0 < S k < String.length (String c' s'))%nat)
        by (cbn [String.length] in *; lia).
      specialize (Hpre (S k) Hk'). lia.
Qed.

Lemma closes_at_endb_correct r : closes_at_endb r = true -> closes_at_end r.
Proof.
  destruct r as [|c r]; [discriminate|]. cbn [closes_at_endb].
  intros H. apply andb_prop in H. destruct H as [Hc Hin].
  apply Ascii.eqb_eq in Hc. subst c.
  destruct (inside_correct _ 0 Hin) as [Htot Hpre].
  split; [eauto|]. split; [lia|].
  intros k Hk. specialize (Hpre k Hk). lia.
Qed.

(** No opening brace, or a first brace that is never closed: no block. *)
Lemma extract_none p t :
  find lbrace p = None ->
  t = EmptyString \/ ((exists t', t = String lbrace t') /\ never_closes t) ->
  extract_first_json_block (p ++ t) = None.
Proof.
  intros Hp [Ht | [[t' Ht] Hnever]]; unfold extract_first_json_block.
  - subst t. rewrite (find_none_append p EmptyString Hp eq_refl).
    destruct (String.eqb _ _); reflexivity.
  - subst t. rewrite append_nonempty, (find_skips_prefix p _ Hp), drop_prefix.
    rewrite scan_block_never; [reflexivity | lia |].
    intros k Hk. specialize (Hnever k Hk). lia.
Qed.

End Scan.

(* ================================================================== *)
(** * The parser's fuel *)
(* ================================================================== *)

Section Fuel.

Lemma skip_ws_length s : (String.length (skip_ws s) <= String.length s)%nat.
Proof.
  induction s as [|c s IH]; cbn [skip_ws String.length]; [lia|].
  destruct (is_ws c); cbn [String.length]; lia.
Qed.

Lemma prepend_some p x t rest :
  prepend p x = Some (t, rest) -> exists t', x = Some (t', rest).
Proof.
  destruct x as [[t' rest']|]; cbn [prepend]; [|discriminate].
  intros H; inversion H; subst. eauto.
Qed.

(** A string literal takes at least its closing quote off the input. *)
Lemma scan_string_length n : forall s t rest,
  (String.length s <= n)%nat ->
  scan_string s = Some (t, rest) ->
  (String.length rest < String.length s)%nat.
Proof.
  induction n as [|n IH]; intros s t rest Hn Hs.
  { destruct s; [discriminate | cbn [String.length] in Hn; lia]. }
  destruct s as [|c r]; [discriminate|].
  cbn [String.length] in Hn |- *. cbn [scan_string] in Hs.
  assert (Hrec : forall r' p, (String.length r' <= String.length r)%nat ->
                   prepend p (scan_string r') = Some (t, rest) ->
                   (String.length rest < S (String.length r))%nat).
  { intros r' p Hlen Hp. destruct (prepend_some _ _ _ _ Hp) as [t' Ht'].
    pose proof (IH r' t' rest ltac:(lia) Ht'). lia. }
  destruct (Ascii.eqb c dquote).
  { inversion Hs; subst. lia. }
  destruct (Ascii.eqb c backslash).
  - destruct r as [|e r1]; [discriminate|].
    destruct (Ascii.eqb e "u").
    + destruct r1 as [|h1 [|h2 [|h3 [|h4 r2]]]]; try discriminate.
      destruct (hex4 h1 h2 h3 h4) as [cp|]; [|discriminate].
      destruct (is_high_surrogate cp).
      * destruct r2 as [|b1 [|u1 [|l1 [|l2 [|l3 [|l4 r3]]]]]];
          try (eapply Hrec; [|exact Hs]; cbn [String.length]; lia).
        destruct (Ascii.eqb b1 backslash && Ascii.eqb u1 "u");
          [|eapply Hrec; [|exact Hs]; cbn [String.length]; lia].
        destruct (hex4 l1 l2 l3 l4) as [lo|]; [|discriminate].
        destruct (is_low_surrogate lo);
          (eapply Hrec; [|exact Hs]; cbn [String.length]; lia).
      * eapply Hrec; [|exact Hs]; cbn [String.length]; lia.
    + destruct (unescape e); [|discriminate].
      eapply Hrec; [|exact Hs]; cbn [String.length]; lia.
  - destruct (N_of_ascii c <? 32)%N; [discriminate|].
    eapply Hrec; [|exact Hs]; lia.
Qed.

Lemma strip_prefix_length p : forall s rest,
  strip_prefix p s = Some rest -> (String.length rest <= String.length s)%nat.
Proof.
  induction p as [|a p IH]; intros s rest H; cbn [strip_prefix] in H.
  - inversion H; subst. lia.
  - destruct s as [|b s]; [discriminate|].
    destruct (Ascii.eqb a b); [|discriminate].
    specialize (IH _ _ H). cbn [String.length]. lia.
Qed.

Lemma span_digits_length s : forall ds rest,
  span_digits s = (ds, rest) ->
  String.length s = (String.length ds + String.length rest)%nat.
Proof.
  induction s as [|c s IH]; intros ds rest H; cbn [span_digits] in H.
  - inversion H; subst. reflexivity.
  - destruct (is_digit c).
    + destruct (span_digits s) as [ds' rest'] eqn:E. inversion H; subst.
      cbn [String.length]. rewrite (IH _ _ eq_refl). lia.
    + inversion H; subst. reflexivity.
Qed.

Lemma scan_nat_length s z rest :
  scan_nat s = Some (z, rest) -> (String.length rest < String.length s)%nat.
Proof.
  unfold scan_nat. destruct (span_digits s) as [ds rest'] eqn:E.
  pose proof (span_digits_length _ _ _ E) as Hlen.
  destruct ds as [|d ds].
  - cbn. discriminate.
  - destruct (NilEmpty.uint_of_string (String d ds)) as [[| | | | | | | | | |]|];
      try discriminate;
      (destruct (_ && _); [|discriminate]; intros H; inversion H; subst;
       cbn [String.length] in Hlen; lia).
Qed.

Lemma scan_number_length s z rest :
  scan_number s = Some (z, rest) -> (String.length rest < String.length s)%nat.
Proof.
  unfold scan_number. destruct s as [|c r]; [apply scan_nat_length|].
  destruct (Ascii.eqb c "-") eqn:Ec.
  - apply Ascii.eqb_eq in Ec. subst c.
    destruct (scan_nat r) as [[n rest']|] eqn:E; [|discriminate].
    intros H; inversion H; subst. pose proof (scan_nat_length _ _ _ E).
    cbn [String.length]. lia.
  - assert (Hsame : match c with
                    | "-"%char => match scan_nat r with
                                  | Some (n, rest0) => Some (- n, rest0)
                                  | None => None
                                  end
                    | _ => scan_nat (String c r)
                    end = scan_nat (String c r)).
    { destruct c as [b0 b1 b2 b3 b4 b5 b6 b7].
      destruct b0, b1, b2, b3, b4, b5, b6, b7; try reflexivity; discriminate Ec. }
    rewrite Hsame. apply scan_nat_length.
Qed.

Lemma fuel_free_value_step f :
  fuel_free_members f -> fuel_free_elements f -> fuel_free_value (S f).
Proof.
  intros IHm IHe s v rest H.
  destruct s as [|c r]; [discriminate|].
  enough (Hboth : (String.length rest < String.length (String c r))%nat /\
                  forall f', (String.length r - String.length rest <= f')%nat ->
                             parse_value (S f') (String c r) = Some (v, rest)).
  { destruct Hboth as [Hlen Hfuel]. split; [exact Hlen|].
    intros f' Hf'. cbn [String.length] in Hf', Hlen.
    destruct f' as [|f']; [lia|]. apply Hfuel. lia. }
  cbn [parse_value] in H |- *. cbn [String.length].
  pose proof (skip_ws_length r) as Hws.
  destruct (Ascii.eqb c dquote).
  { destruct (scan_string r) as [[t rest']|] eqn:E; [|discriminate].
    inversion H; subst.
    pose proof (scan_string_length _ _ _ _ (le_n _) E). split; [lia | reflexivity]. }
  destruct (Ascii.eqb c lbrace).
  { destruct (skip_ws r) as [|c1 r1]; [discriminate|].
    cbn [String.length] in Hws.
    destruct (Ascii.eqb c1 rbrace).
    - inversion H; subst. split; [lia | reflexivity].
    - destruct (IHm _ _ _ _ H) as [Hlen Hfuel]. cbn [String.length] in Hlen, Hfuel.
      split; [lia|]. intros f' Hf'. apply Hfuel. lia. }
  destruct (Ascii.eqb c "[").
  { destruct (skip_ws r) as [|c1 r1]; [discriminate|].
    cbn [String.length] in Hws.
    destruct (Ascii.eqb c1 "]").
    - inversion H; subst. split; [lia | reflexivity].
    - destruct (IHe _ _ _ _ H) as [Hlen Hfuel]. cbn [String.length] in Hlen, Hfuel.
      split; [lia|]. intros f' Hf'. apply Hfuel. lia. }
  destruct (Ascii.eqb c "n").
  { destruct (strip_prefix "ull" r) as [rest'|] eqn:E; [|discriminate].
    inversion H; subst. pose proof (strip_prefix_length _ _ _ E).
    split; [lia | reflexivity]. }
  destruct (Ascii.eqb c "t").
  { destruct (strip_prefix "rue" r) as [rest'|] eqn:E; [|discriminate].
    inversion H; subst. pose proof (strip_prefix_length _ _ _ E).
    split; [lia | reflexivity]. }
  destruct (Ascii.eqb c "f").
  { destruct (strip_prefix "alse" r) as [rest'|] eqn:E; [|discriminate].
    inversion H; subst. pose proof (strip_prefix_length _ _ _ E).
    split; [lia | reflexivity]. }
  destruct (scan_number (String c r)) as [[z rest']|] eqn:E; [|discriminate].
  inversion H; subst. pose proof (scan_number_length _ _ _ E) as Hn.
  cbn [String.length] in Hn. split; [lia | reflexivity].
Qed.

Lemma fuel_free_members_step f :
  fuel_free_value f -> fuel_free_members f -> fuel_free_members (S f).
Proof.
  intros IHv IHm acc s v rest H.
  destruct s as [|c r]; [discriminate|].
  enough (Hboth : (String.length rest < String.length (String c r))%nat /\
                  forall f', (String.length r - String.length rest <= f')%nat ->
                             parse_members (S f') acc (String c r) = Some (v, rest)).
  { destruct Hboth as [Hlen Hfuel]. split; [exact Hlen|].
    intros f' Hf'. cbn [String.length] in Hf', Hlen.
    destruct f' as [|f']; [lia|]. apply Hfuel. lia. }
  cbn [parse_members] in H |- *. cbn [String.length].
  destruct (Ascii.eqb c dquote); [|discriminate].
  destruct (scan_string r) as [[k r1]|] eqn:Ek; [|discriminate].
  pose proof (scan_string_length _ _ _ _ (le_n _) Ek) as Hk.
  pose proof (skip_ws_length r1) as Hw1.
  destruct (skip_ws r1) as [|c2 r2]; [discriminate|].
  cbn [String.length] in Hw1.
  assert (Hcolon : c2 = ":"%char \/ c2 <> ":"%char)
    by (destruct (Ascii.eqb_spec c2 ":"); auto).
  destruct Hcolon as [->|Hne].
  2:{ exfalso. destruct c2 as [b0 b1 b2 b3 b4 b5 b6 b7].
      destruct b0, b1, b2, b3, b4, b5, b6, b7; try discriminate H.
      apply Hne; reflexivity. }
  pose proof (skip_ws_length r2) as Hw2.
  destruct (parse_value f (skip_ws r2)) as [[x r3]|] eqn:Ev; [|discriminate].
  destruct (IHv _ _ _ Ev) as [Hlen3 Hfuel3].
  pose proof (skip_ws_length r3) as Hw3.
  destruct (skip_ws r3) as [|c4 r4] eqn:E4; [discriminate|].
  cbn [String.length] in Hw3.
  pose proof (skip_ws_length r4) as Hw4.
  destruct (Ascii.eqb c4 rbrace) eqn:Eclose.
  - inversion H; subst. split; [lia|].
    intros f' Hf'. rewrite Hfuel3 by lia. rewrite E4, Eclose. reflexivity.
  - destruct (Ascii.eqb c4 ",") eqn:Ecomma; [|discriminate].
    destruct (IHm _ _ _ _ H) as [Hlen Hfuel]. split; [lia|].
    intros f' Hf'. rewrite Hfuel3 by lia. rewrite E4, Eclose, Ecomma.
    apply Hfuel. lia.
Qed.

Lemma fuel_free_elements_step f :
  fuel_free_value f -> fuel_free_elements f -> fuel_free_elements (S f).
Proof.
  intros IHv IHe acc s v rest H.
  cbn [parse_elements] in H.
  destruct (parse_value f s) as [[x r1]|] eqn:Ev; [|discriminate].
  destruct (IHv _ _ _ Ev) as [Hlen1 Hfuel1].
  pose proof (skip_ws_length r1) as Hw1.
  destruct (skip_ws r1) as [|c2 r2] eqn:E2; [discriminate|].
  cbn [String.length] in Hw1.
  pose proof (skip_ws_length r2) as Hw2.
  destruct (Ascii.eqb c2 "]") eqn:Eclose.
  - inversion H; subst. split; [lia|].
    intros f' Hf'. destruct f' as [|f']; [lia|]. cbn [parse_elements].
    rewrite Hfuel1 by lia. rewrite E2, Eclose. reflexivity.
  - destruct (Ascii.eqb c2 ",") eqn:Ecomma; [|discriminate].
    destruct (IHe _ _ _ _ H) as [Hlen Hfuel]. split; [lia|].
    intros f' Hf'. destruct f' as [|f']; [lia|]. cbn [parse_elements].
    rewrite Hfuel1 by lia. rewrite E2, Eclose, Ecomma. apply Hfuel. lia.
Qed.

Lemma fuel_free f :
  fuel_free_value f /\ fuel_free_members f /\ fuel_free_elements f.
Proof.
  induction f as [|f (IHv & IHm & IHe)].
  - repeat split; try discriminate; cbn in *; discriminate.
  - split; [|split].
    + apply fuel_free_value_step; assumption.
    + apply fuel_free_members_step; assumption.
    + apply fuel_free_elements_step; assumption.
Qed.

(** [loads] does not fail for lack of fuel: a text that parses with some
    fuel parses with the fuel [loads] gives it. *)
Lemma loads_fuel_enough s f v rest :
  parse_value f (skip_ws s) = Some (v, rest) ->
  parse_value (S (String.length s)) (skip_ws s) = Some (v, rest).
Proof.
  intros H. destruct (fuel_free f) as (Hv & _ & _).
  apply (Hv _ _ _ H). pose proof (skip_ws_length s). lia.
Qed.

End Fuel.

(* ================================================================== *)
(** * Round trip of [json.dumps] and [json.loads] *)
(* ================================================================== *)

Section RoundTrip.

Lemma append_assoc (a b c : string) : ((a ++ b) ++ c = a ++ (b ++ c))%string.
Proof. induction a as [|x a IH]; cbn; [reflexivity | rewrite IH; reflexivity]. Qed.

Lemma length_append (a b : string) :
  String.length (a ++ b) = (String.length a + String.length b)%nat.
Proof. induction a as [|x a IH]; cbn; [reflexivity | rewrite IH; reflexivity]. Qed.

(** One escaped character is read back as the character. *)
Lemma scan_escape_char c tail :
  scan_string (escape_char c ++ tail)
  = prepend (String c EmptyString) (scan_string tail).
Proof.
  destruct c as [b0 b1 b2 b3 b4 b5 b6 b7].
  destruct b0, b1, b2, b3, b4, b5, b6, b7; reflexivity.
Qed.

Lemma scan_escape s rest :
  scan_string (escape s ++ String dquote rest) = Some (s, rest).
Proof.
  induction s as [|c s IH]; [reflexivity|].
  cbn [escape]. rewrite append_assoc, scan_escape_char, IH. reflexivity.
Qed.

Lemma span_digits_stops rest :
  number_stops rest = true -> span_digits rest = (EmptyString, rest).
Proof.
  destruct rest as [|c r]; [reflexivity|]. cbn [number_stops span_digits].
  destruct (is_digit c); [discriminate | reflexivity].
Qed.

Lemma span_digits_uint d rest :
  number_stops rest = true ->
  span_digits (NilEmpty.string_of_uint d ++ rest)
  = (NilEmpty.string_of_uint d, rest).
Proof.
  intros Hrest.
  induction d; cbn [NilEmpty.string_of_uint append span_digits];
    try (change (is_digit _) with true; cbv iota; rewrite IHd; reflexivity).
  apply span_digits_stops; exact Hrest.
Qed.

Lemma uint_beq_refl d : Decimal.uint_beq d d = true.
Proof. induction d; cbn; auto. Qed.

Lemma scan_nat_uint d rest :
  d <> Decimal.Nil -> Decimal.unorm d = d -> number_stops rest = true ->
  scan_nat (NilEmpty.string_of_uint d ++ rest) = Some (Z.of_uint d, rest).
Proof.
  intros Hnil Hnorm Hrest. unfold scan_nat.
  rewrite (span_digits_uint d rest Hrest), NilEmpty.usu, Hnorm, uint_beq_refl.
  assert (Hft : starts_float_tail rest = false).
  { destruct rest as [|c r]; [reflexivity|]. cbn [number_stops] in Hrest.
    apply andb_prop in Hrest. destruct Hrest as [_ H].
    apply negb_true_iff in H. exact H. }
  rewrite Hft. destruct d; [congruence | reflexivity ..].
Qed.

Lemma to_int_shape z :
  (0 <= z /\ exists d, Z.to_int z = Decimal.Pos d /\ d <> Decimal.Nil
                       /\ Decimal.unorm d = d /\ Z.of_uint d = z)
  \/ (z < 0 /\ exists d, Z.to_int z = Decimal.Neg d /\ d <> Decimal.Nil
                         /\ Decimal.unorm d = d /\ Z.of_uint d = - z).
Proof.
  pose proof (DecimalZ.of_to z) as Hof.
  pose proof (DecimalZ.to_of (Z.to_int z)) as Hto. rewrite Hof in Hto.
  destruct z as [|p|p].
  - left. split; [lia|]. exists (Decimal.D0 Decimal.Nil). repeat split. discriminate.
  - left. split; [lia|]. exists (Pos.to_uint p).
    cbn in Hto, Hof |- *. repeat split.
    + apply DecimalPos.Unsigned.to_uint_nonnil.
    + congruence.
    + exact Hof.
  - right. split; [lia|]. exists (Pos.to_uint p).
    cbn in Hto, Hof |- *. repeat split.
    + apply DecimalPos.Unsigned.to_uint_nonnil.
    + pose proof (DecimalPos.Unsigned.to_uint_nonnil p) as Hn.
      unfold Decimal.unorm.
      destruct (Decimal.nzhead (Pos.to_uint p)) eqn:E; congruence.
    + lia.
Qed.

Lemma string_of_uint_nonnil d :
  d <> Decimal.Nil -> NilZero.string_of_uint d = NilEmpty.string_of_uint d.
Proof. destruct d; [congruence | reflexivity ..]. Qed.

Lemma uint_first_digit d :
  d <> Decimal.Nil ->
  exists c t, NilEmpty.string_of_uint d = String c t /\ is_digit c = true.
Proof. destruct d; [congruence | eexists; eexists; split; reflexivity ..]. Qed.

(** The decimal text of an int is read back as the int. *)
Lemma scan_number_int z rest :
  number_stops rest = true ->
  scan_number (str_of_int z ++ rest) = Some (z, rest).
Proof.
  intros Hrest. unfold str_of_int, NilZero.string_of_int.
  destruct (to_int_shape z) as [[Hz (d & -> & Hnil & Hnorm & Hv)]
                               |[Hz (d & -> & Hnil & Hnorm & Hv)]].
  - rewrite (string_of_uint_nonnil d Hnil).
    destruct (uint_first_digit d Hnil) as (c & t & Hc & Hdig).
    unfold scan_number.
    pose proof (scan_nat_uint d rest Hnil Hnorm Hrest) as Hs.
    rewrite Hc in Hs |- *. cbn [append] in Hs |- *.
    destruct c as [b0 b1 b2 b3 b4 b5 b6 b7].
    destruct b0, b1, b2, b3, b4, b5, b6, b7; try discriminate Hdig;
      rewrite Hs, Hv; reflexivity.
  - rewrite (string_of_uint_nonnil d Hnil). cbn [append scan_number].
    rewrite (scan_nat_uint d rest Hnil Hnorm Hrest), Hv.
    f_equal. f_equal. lia.
Qed.

(** ** Values *)

Lemma dumps_arr l : dumps (JArr l) = "[" ++ dumps_items l ++ "]".
Proof. reflexivity. Qed.

Lemma dumps_obj d : dumps (JObj d) = "{" ++ dumps_members d ++ "}".
Proof. reflexivity. Qed.

Lemma str_of_int_first z :
  exists c t, str_of_int z = String c t /\ (is_digit c || Ascii.eqb c "-") = true.
Proof.
  unfold str_of_int, NilZero.string_of_int.
  destruct (to_int_shape z) as [[Hz (d & -> & Hnil & _)]|[Hz (d & -> & Hnil & _)]].
  - rewrite (string_of_uint_nonnil d Hnil).
    destruct (uint_first_digit d Hnil) as (c & t & -> & Hc).
    exists c, t. rewrite Hc. split; reflexivity.
  - eexists; eexists; split; reflexivity.
Qed.

Lemma dumps_first v :
  exists c t, dumps v = String c t /\ value_start c = true.
Proof.
  destruct v as [|[|]|z|s|l|d];
    try (eexists; eexists; split; reflexivity).
  destruct (str_of_int_first z) as (c & t & Hc & Hs).
  exists c, t. split; [exact Hc|]. unfold value_start. rewrite Hs. reflexivity.
Qed.

Lemma value_start_facts c :
  value_start c = true ->
  is_ws c = false /\ Ascii.eqb c "]" = false /\ Ascii.eqb c rbrace = false.
Proof.
  destruct c as [b0 b1 b2 b3 b4 b5 b6 b7].
  destruct b0, b1, b2, b3, b4, b5, b6, b7; cbn; intros H;
    try discriminate H; repeat split.
Qed.

Lemma skip_ws_value v t : skip_ws (dumps v ++ t) = dumps v ++ t.
Proof.
  destruct (dumps_first v) as (c & r & -> & Hc).
  destruct (value_start_facts c Hc) as [Hws _].
  cbn [append skip_ws]. rewrite Hws. reflexivity.
Qed.

Lemma parse_number_text f s :
  (match s with
   | String c _ => is_digit c || Ascii.eqb c "-"
   | EmptyString => false
   end) = true ->
  parse_value (S f) s
  = match scan_number s with
    | Some (z, rest) => Some (JInt z, rest)
    | None => None
    end.
Proof.
  destruct s as [|c r]; [discriminate|].
  destruct c as [b0 b1 b2 b3 b4 b5 b6 b7].
  destruct b0, b1, b2, b3, b4, b5, b6, b7; cbn; intros H;
    try discriminate H; reflexivity.
Qed.

Lemma parse_elements_eq f acc s :
  parse_elements (S f) acc s
  = match parse_value f s with
    | None => None
    | Some (v, r1) =>
        match skip_ws r1 with
        | String c2 r2 =>
            if Ascii.eqb c2 "]" then Some (JArr (acc ++ [v]), r2)
            else if Ascii.eqb c2 ","
                 then parse_elements f (acc ++ [v]) (skip_ws r2)
                 else None
        | EmptyString => None
        end
    end.
Proof. reflexivity. Qed.

Lemma parse_members_eq f acc r :
  parse_members (S f) acc (String dquote r)
  = match scan_string r with
    | None => None
    | Some (k, r1) =>
        match skip_ws r1 with
        | String ":" r2 =>
            match parse_value f (skip_ws r2) with
            | None => None
            | Some (v, r3) =>
                match skip_ws r3 with
                | String c4 r4 =>
                    if Ascii.eqb c4 rbrace then Some (JObj (dict_set acc k v), r4)
                    else if Ascii.eqb c4 ","
                         then parse_members f (dict_set acc k v) (skip_ws r4)
                         else None
                | EmptyString => None
                end
            end
        | _ => None
        end
    end.
Proof. reflexivity. Qed.

Lemma dict_set_fresh acc k v :
  existsb (String.eqb k) (map fst acc) = false ->
  dict_set acc k v = (acc ++ [(k, v)])%list.
Proof.
  induction acc as [|[k' v'] acc IH]; cbn; [reflexivity|].
  intros H. apply orb_false_elim in H. destruct H as [Hk Hr].
  rewrite String.eqb_sym, Hk, (IH Hr). reflexivity.
Qed.

Lemma distinct_middle l1 k l2 :
  distinct (l1 ++ k :: l2) = true ->
  existsb (String.eqb k) l1 = false.
Proof.
  induction l1 as [|x l1 IH]; cbn; [reflexivity|].
  intros H. apply andb_prop in H. destruct H as [Hx Hd].
  rewrite (IH Hd), orb_false_r.
  apply negb_true_iff in Hx. rewrite existsb_app in Hx.
  apply orb_false_elim in Hx. destruct Hx as [_ Hx]. cbn in Hx.
  apply orb_false_elim in Hx. destruct Hx as [Hx _].
  rewrite String.eqb_sym. exact Hx.
Qed.

Lemma skip_ws_keep c t : is_ws c = false -> skip_ws (String c t) = String c t.
Proof. intros H. cbn [skip_ws]. rewrite H. reflexivity. Qed.

Lemma skip_ws_space t : skip_ws (String " " t) = skip_ws t.
Proof. reflexivity. Qed.

Lemma parse_items l : forall acc fuel rest,
  l <> [] -> Forall parses l ->
  (list_sum (map (fun x => S (size x)) l) <= fuel)%nat ->
  parse_elements fuel acc (dumps_items l ++ "]" ++ rest)
  = Some (JArr (acc ++ l), rest).
Proof.
  induction l as [|x l IH]; intros acc fuel rest Hne Hall Hfuel; [congruence|].
  inversion Hall as [|? ? Hx Hl]; subst.
  change (S (size x) + list_sum (map (fun x => S (size x)) l) <= fuel)%nat in Hfuel.
  destruct fuel as [|f]; [lia|].
  rewrite parse_elements_eq.
  destruct l as [|y r].
  - cbn [dumps_items].
    rewrite (Hx f ("]" ++ rest)); [|cbn in Hfuel; lia | reflexivity].
    reflexivity.
  - change (dumps_items (x :: y :: r))
      with (dumps x ++ ", " ++ dumps_items (y :: r)).
    rewrite !append_assoc.
    rewrite (Hx f); [|lia | reflexivity].
    change (skip_ws (", " ++ dumps_items (y :: r) ++ "]" ++ rest))
      with (String "," (String " " (dumps_items (y :: r) ++ "]" ++ rest))).
    cbv iota. change (Ascii.eqb "," "]") with false.
    change (Ascii.eqb "," ",") with true. cbv iota.
    assert (Hskip : skip_ws (String " " (dumps_items (y :: r) ++ "]" ++ rest))
                    = dumps_items (y :: r) ++ "]" ++ rest).
    { rewrite skip_ws_space.
      destruct r as [|z r'].
      - cbn [dumps_items]. apply skip_ws_value.
      - change (dumps_items (y :: z :: r'))
          with (dumps y ++ ", " ++ dumps_items (z :: r')).
        rewrite !append_assoc. apply skip_ws_value. }
    rewrite Hskip, (IH (acc ++ [x])%list f rest); [|congruence | exact Hl | lia].
    rewrite <- app_assoc. reflexivity.
Qed.

Lemma dumps_str_append k t :
  dumps_str k ++ t = String dquote (escape k ++ String dquote t).
Proof.
  unfold dumps_str, quoted. cbn [append]. rewrite append_assoc. reflexivity.
Qed.

Lemma parse_members_text d : forall acc fuel rest,
  d <> [] -> Forall (fun kv => parses (snd kv)) d ->
  distinct (map fst (acc ++ d)) = true ->
  (list_sum (map (fun kv => S (size (snd kv))) d) <= fuel)%nat ->
  parse_members fuel acc (dumps_members d ++ "}" ++ rest)
  = Some (JObj (acc ++ d), rest).
Proof.
  induction d as [|[k x] d IH]; intros acc fuel rest Hne Hall Hkeys Hfuel;
    [congruence|].
  inversion Hall as [|? ? Hx Hd]; subst. cbn [snd] in Hx.
  change (S (size x) + list_sum (map (fun kv => S (size (snd kv))) d) <= fuel)%nat
    in Hfuel.
  destruct fuel as [|f]; [lia|].
  assert (Hset : dict_set acc k x = (acc ++ [(k, x)])%list).
  { apply dict_set_fresh. rewrite map_app in Hkeys. cbn [map fst] in Hkeys.
    exact (distinct_middle _ _ _ Hkeys). }
  destruct d as [|[k' y] r].
  - cbn [dumps_members].
    rewrite !append_assoc, dumps_str_append, parse_members_eq, scan_escape.
    cbn [append skip_ws]. change (is_ws ":") with false. cbv iota.
    rewrite skip_ws_space, skip_ws_value, (Hx f); [|lia | reflexivity].
    cbn [append skip_ws]. change (is_ws "}") with false. cbv iota.
    change (Ascii.eqb "}" rbrace) with true. cbv iota.
    rewrite Hset. reflexivity.
  - change (dumps_members ((k, x) :: (k', y) :: r))
      with (dumps_str k ++ ": " ++ dumps x ++ ", " ++ dumps_members ((k', y) :: r)).
    rewrite !append_assoc, dumps_str_append, parse_members_eq, scan_escape.
    cbn [append skip_ws]. change (is_ws ":") with false. cbv iota.
    rewrite skip_ws_space, skip_ws_value, (Hx f); [|lia | reflexivity].
    cbn [append skip_ws]. change (is_ws ",") with false. cbv iota.
    change (Ascii.eqb "," rbrace) with false.
    change (Ascii.eqb "," ",") with true. cbv iota.
    rewrite skip_ws_space.
    assert (Hskip : forall t,
               skip_ws (dumps_members ((k', y) :: r) ++ t)
               = dumps_members ((k', y) :: r) ++ t).
    { intros t. destruct r as [|[k'' z] r']; reflexivity. }
    rewrite Hskip, Hset. change (String "}" rest) with ("}" ++ rest).
    rewrite (IH (acc ++ [(k, x)])%list f rest);
      [|congruence | exact Hd | rewrite <- app_assoc; exact Hkeys | lia].
    rewrite <- app_assoc. reflexivity.
Qed.

Lemma size_in_items x l :
  In x l -> (S (size x) <= list_sum (map (fun x => S (size x)) l))%nat.
Proof.
  induction l as [|y l IH]; [contradiction|].
  change (list_sum (map (fun x => S (size x)) (y :: l)))
    with (S (size y) + list_sum (map (fun x => S (size x)) l))%nat.
  intros [->|Hin]; [lia | specialize (IH Hin); lia].
Qed.

Lemma size_in_members (kv : string * json) (d : dict) :
  In kv d ->
  (S (size (snd kv)) <= list_sum (map (fun kv => S (size (snd kv))) d))%nat.
Proof.
  induction d as [|y d IH]; [contradiction|].
  change (list_sum (map (fun kv : string * json => S (size (snd kv))) (y :: d)))
    with (S (size (snd y))
          + list_sum (map (fun kv : string * json => S (size (snd kv))) d))%nat.
  intros [->|Hin]; [lia | specialize (IH Hin); lia].
Qed.

(** Every well-formed value, printed, parses back. *)
Lemma parse_dumps n : forall v,
  (size v <= n)%nat -> well_formed v = true -> parses v.
Proof.
  induction n as [|n IH]; intros v Hsize Hwf.
  { destruct v; cbn in Hsize; lia. }
  intros fuel rest Hfuel Hrest.
  destruct v as [|b|z|s|l|d].
  - destruct fuel as [|f]; [cbn in Hfuel; lia | reflexivity].
  - destruct fuel as [|f]; [cbn in Hfuel; lia | destruct b; reflexivity].
  - destruct fuel as [|f]; [cbn in Hfuel; lia|].
    cbn [dumps]. rewrite parse_number_text, (scan_number_int z rest Hrest);
      [reflexivity|].
    destruct (str_of_int_first z) as (c & t & -> & Hc). exact Hc.
  - destruct fuel as [|f]; [cbn in Hfuel; lia|].
    cbn [dumps]. rewrite dumps_str_append.
    change (parse_value (S f) (String dquote (escape s ++ String dquote rest)))
      with (match scan_string (escape s ++ String dquote rest) with
            | Some (t, rest') => Some (JStr t, rest')
            | None => None
            end).
    rewrite scan_escape. reflexivity.
  - rewrite dumps_arr.
    change (size (JArr l)) with (S (list_sum (map (fun x => S (size x)) l)))
      in Hsize, Hfuel.
    destruct fuel as [|f]; [lia|].
    destruct l as [|x l]; [reflexivity|].
    assert (Hall : Forall parses (x :: l)).
    { apply Forall_forall. intros y Hy. apply IH.
      - pose proof (size_in_items y _ Hy). lia.
      - cbn [well_formed] in Hwf. rewrite forallb_forall in Hwf. exact (Hwf y Hy). }
    pose proof (parse_items (x :: l) [] f rest ltac:(congruence) Hall ltac:(lia))
      as Hitems.
    rewrite !append_assoc.
    destruct (dumps_first x) as (c & t & Hc & Hstart).
    destruct (value_start_facts c Hstart) as (Hws & Hclose & _).
    assert (Hhead : exists t', dumps_items (x :: l) = String c t').
    { destruct l as [|y r].
      - exists t. exact Hc.
      - exists (t ++ ", " ++ dumps_items (y :: r)).
        change (dumps_items (x :: y :: r))
          with (dumps x ++ ", " ++ dumps_items (y :: r)).
        rewrite Hc. reflexivity. }
    destruct Hhead as [t' Ht']. rewrite Ht' in Hitems |- *.
    cbn [append] in Hitems |- *.
    change (parse_value (S f) (String "[" (String c (t' ++ String "]" rest))))
      with (match skip_ws (String c (t' ++ String "]" rest)) with
            | String c1 r1 =>
                if Ascii.eqb c1 "]" then Some (JArr [], r1)
                else parse_elements f [] (String c1 r1)
            | EmptyString => None
            end).
    rewrite (skip_ws_keep c _ Hws), Hclose. exact Hitems.
  - rewrite dumps_obj.
    change (size (JObj d))
      with (S (list_sum (map (fun kv : string * json => S (size (snd kv))) d)))
      in Hsize, Hfuel.
    destruct fuel as [|f]; [lia|].
    destruct d as [|[k x] d]; [reflexivity|].
    cbn [well_formed] in Hwf. apply andb_prop in Hwf. destruct Hwf as [Hkeys Hwf].
    assert (Hall : Forall (fun kv => parses (snd kv)) ((k, x) :: d)).
    { apply Forall_forall. intros y Hy. apply IH.
      - pose proof (size_in_members y _ Hy). lia.
      - rewrite forallb_forall in Hwf. exact (Hwf y Hy). }
    pose proof (parse_members_text ((k, x) :: d) [] f rest ltac:(congruence)
                  Hall Hkeys ltac:(lia)) as Hmem.
    rewrite !append_assoc.
    assert (Hhead : exists t', dumps_members ((k, x) :: d) = String dquote t').
    { destruct d as [|[k' y] r]; eexists; reflexivity. }
    destruct Hhead as [t' Ht']. rewrite Ht' in Hmem |- *.
    cbn [append] in Hmem |- *.
    exact Hmem.
Qed.

Lemma append_nil_r (a : string) : a ++ EmptyString = a.
Proof. induction a as [|x a IH]; cbn; [reflexivity | rewrite IH; reflexivity]. Qed.

Lemma length_items l :
  l <> [] ->
  Forall (fun x => size x <= String.length (dumps x))%nat l ->
  (list_sum (map (fun x => S (size x)) l) <= S (String.length (dumps_items l)))%nat.
Proof.
  induction l as [|x l IH]; intros Hne Hall; [congruence|].
  inversion Hall as [|? ? Hx Hl]; subst.
  change (list_sum (map (fun x => S (size x)) (x :: l)))
    with (S (size x) + list_sum (map (fun x => S (size x)) l))%nat.
  destruct l as [|y r].
  - cbn [map list_sum dumps_items]. cbn. lia.
  - change (dumps_items (x :: y :: r))
      with (dumps x ++ ", " ++ dumps_items (y :: r)).
    rewrite !length_append. specialize (IH ltac:(congruence) Hl).
    cbn [String.length]. lia.
Qed.

Lemma length_members (d : dict) :
  d <> [] ->
  Forall (fun kv : string * json =>
            size (snd kv) <= String.length (dumps (snd kv)))%nat d ->
  (list_sum (map (fun kv : string * json => S (size (snd kv))) d)
   <= S (String.length (dumps_members d)))%nat.
Proof.
  induction d as [|[k x] d IH]; intros Hne Hall; [congruence|].
  inversion Hall as [|? ? Hx Hd]; subst. cbn [snd] in Hx.
  change (list_sum (map (fun kv : string * json => S (size (snd kv))) ((k, x) :: d)))
    with (S (size x)
          + list_sum (map (fun kv : string * json => S (size (snd kv))) d))%nat.
  destruct d as [|[k' y] r].
  - cbn [dumps_members]. rewrite !length_append. cbn. lia.
  - change (dumps_members ((k, x) :: (k', y) :: r))
      with (dumps_str k ++ ": " ++ dumps x ++ ", " ++ dumps_members ((k', y) :: r)).
    rewrite !length_append. specialize (IH ltac:(congruence) Hd).
    cbn [String.length]. lia.
Qed.

(** The text of a value is at least as long as the fuel it takes. *)
Lemma size_le_length n : forall v,
  (size v <= n)%nat -> (size v <= String.length (dumps v))%nat.
Proof.
  induction n as [|n IH]; intros v Hsize.
  { destruct v; cbn in Hsize; lia. }
  destruct v as [|b|z|s|l|d].
  - cbn. lia.
  - destruct b; cbn; lia.
  - destruct (str_of_int_first z) as (c & t & Hc & _).
    cbn [dumps size]. rewrite Hc. cbn [String.length]. lia.
  - cbn. lia.
  - rewrite dumps_arr.
    change (size (JArr l)) with (S (list_sum (map (fun x => S (size x)) l)))
      in Hsize |- *.
    destruct l as [|x l]; [cbn; lia|].
    assert (Hall : Forall (fun x => size x <= String.length (dumps x))%nat (x :: l)).
    { apply Forall_forall. intros y Hy. apply IH.
      pose proof (size_in_items y _ Hy). lia. }
    pose proof (length_items (x :: l) ltac:(congruence) Hall).
    rewrite !length_append. cbn [String.length]. lia.
  - rewrite dumps_obj.
    change (size (JObj d))
      with (S (list_sum (map (fun kv : string * json => S (size (snd kv))) d)))
      in Hsize |- *.
    destruct d as [|kv d]; [cbn; lia|].
    assert (Hall : Forall (fun kv : string * json =>
                             size (snd kv) <= String.length (dumps (snd kv)))%nat
                          (kv :: d)).
    { apply Forall_forall. intros y Hy. apply IH.
      pose proof (size_in_members y _ Hy). lia. }
    pose proof (length_members (kv :: d) ltac:(congruence) Hall).
    rewrite !length_append. cbn [String.length]. lia.
Qed.

(** [json.loads(json.dumps(v, ensure_ascii=False)) == v]. *)
Lemma loads_dumps v : well_formed v = true -> loads (dumps v) = Some v.
Proof.
  intros Hwf. unfold loads.
  pose proof (skip_ws_value v EmptyString) as Hskip.
  rewrite append_nil_r in Hskip. rewrite Hskip.
  pose proof (parse_dumps (size v) v (le_n _) Hwf
                (S (String.length (dumps v))) EmptyString) as Hp.
  rewrite append_nil_r in Hp.
  rewrite Hp; [reflexivity | | reflexivity].
  pose proof (size_le_length (size v) v (le_n _)). lia.
Qed.

End RoundTrip.

(* ================================================================== *)
(** * The buyer's round counter *)
(* ================================================================== *)

Section BuyerRounds.

Variable USE_OLLAMA : bool.
Variable ollama_generate : Agent.NegotiationContext -> json -> json -> string.

(** [handle_offer] advances the round by one, whether it ends well or
    not. *)
Lemma handle_offer_round self seller_data :
  round_of (fst (Buyer.handle_offer USE_OLLAMA ollama_generate self seller_data))
  = round_of self + 1.
Proof.
  unfold Buyer.handle_offer.
  assert (Hnext : Agent.current_round
                    (Buyer.next_round
                       match Buyer.context self with
                       | Some c => c
                       | None => Buyer.fresh_context (Buyer.budget self)
                       end) = round_of self + 1).
  { unfold round_of. destruct (Buyer.context self); reflexivity. }
  destruct (dict_get seller_data "price") as [price|]; [|exact Hnext].
  destruct (dict_get seller_data "message") as [message|]; [|exact Hnext].
  destruct (Buyer.decide _ _ _ _ _) as [response|]; [|exact Hnext].
  destruct (Buyer.counter_price_of response) as [[own|]|]; exact Hnext.
Qed.

Lemma stop_round self reason : round_of (Buyer.stop self reason) = round_of self.
Proof. reflexivity. Qed.

(** One [negotiate] moves the round by one at most, and goes on only
    below the limit or without having moved. *)
Lemma negotiate_round self data :
  let '(self', continue) := Buyer.negotiate USE_OLLAMA ollama_generate self data in
  round_of self <= round_of self' <= round_of self + 1 /\
  (continue = true ->
   round_of self' < Buyer.MAX_ROUNDS \/ round_of self' = round_of self).
Proof.
  unfold Buyer.negotiate.
  destruct (String.eqb data EmptyString); [split; [lia | auto]|].
  destruct (loads data) as [[| | | | |seller_data]|];
    try (split; [lia | auto]).
  destruct (Buyer.type_in seller_data ["offer"; "counter"]).
  - pose proof (handle_offer_round self seller_data) as Hr.
    destruct (Buyer.handle_offer USE_OLLAMA ollama_generate self seller_data)
      as [self' [u|e]]; cbn [fst] in Hr.
    + destruct (Buyer.context self') as [c|] eqn:Ec.
      * assert (Hc : Agent.current_round c = round_of self')
          by (unfold round_of; rewrite Ec; reflexivity).
        destruct (Z.geb_spec (Agent.current_round c) Buyer.MAX_ROUNDS).
        -- rewrite stop_round. split; [lia | discriminate].
        -- split; [lia | left; lia].
      * split; [lia | discriminate].
    + split; [lia | discriminate].
  - destruct (Buyer.type_in seller_data ["accept"; "deal_confirmed"]);
      [split; [lia | discriminate]|].
    destruct (Buyer.type_in seller_data ["reject"]); split; try lia; auto;
      discriminate.
Qed.

(** A session that starts below the limit never passes it. *)
Lemma main_loop_round incoming : forall self,
  round_of self < Buyer.MAX_ROUNDS ->
  round_of (fst (Buyer.main_loop USE_OLLAMA ollama_generate self incoming))
  <= Buyer.MAX_ROUNDS.
Proof.
  induction incoming as [|data rest IH]; intros self Hlt; cbn [Buyer.main_loop fst].
  - lia.
  - pose proof (negotiate_round self data) as Hn.
    destruct (Buyer.negotiate USE_OLLAMA ollama_generate self data)
      as [self' continue].
    destruct Hn as [Hstep Hgo]. destruct continue; cbn [fst].
    + apply IH. destruct (Hgo eq_refl); lia.
    + lia.
Qed.

End BuyerRounds.
Section FloatBounds.

Lemma shr_1_div2 mrs : 0 <= shr_m mrs -> shr_m (shr_1 mrs) = shr_m mrs / 2.
Proof.
  destruct mrs as [m r s]. cbn [shr_m shr_1]. intros H.
  destruct m as [|[p|p|]|p]; cbn [shr_m]; try lia; try reflexivity.
  - rewrite Pos2Z.inj_xI. apply Z.div_unique with 1; lia.
  - rewrite Pos2Z.inj_xO. apply Z.div_unique with 0; lia.
Qed.

Lemma iter_pos_shr_m n : forall mrs,
  0 <= shr_m mrs ->
  shr_m (iter_pos shr_1 n mrs) = shr_m mrs / 2 ^ Z.pos n.
Proof.
  assert (Hnonneg : forall mrs, 0 <= shr_m mrs -> 0 <= shr_m (shr_1 mrs)).
  { intros mrs H. rewrite shr_1_div2 by exact H. apply Z.div_pos; lia. }
  induction n as [n IH|n IH|]; intros mrs H; cbn [iter_pos].
  - assert (Hpow : 2 ^ Z.pos n~1 = 2 * (2 ^ Z.pos n * 2 ^ Z.pos n)).
    { rewrite <- Z.pow_add_r, <- Z.pow_succ_r by lia. f_equal. lia. }
    assert (0 < 2 ^ Z.pos n) by (apply Z.pow_pos_nonneg; lia).
    assert (H1 : 0 <= shr_m (shr_1 mrs)) by (apply Hnonneg, H).
    assert (H2 : 0 <= shr_m (iter_pos shr_1 n (shr_1 mrs))).
    { rewrite IH by exact H1. apply Z.div_pos; lia. }
    rewrite IH by exact H2. rewrite IH by exact H1.
    rewrite shr_1_div2 by exact H. rewrite Hpow.
    rewrite !Z.div_div by lia. reflexivity.
  - assert (Hpow : 2 ^ Z.pos n~0 = 2 ^ Z.pos n * 2 ^ Z.pos n).
    { rewrite <- Z.pow_add_r by lia. f_equal. lia. }
    assert (0 < 2 ^ Z.pos n) by (apply Z.pow_pos_nonneg; lia).
    assert (H2 : 0 <= shr_m (iter_pos shr_1 n mrs)).
    { rewrite IH by exact H. apply Z.div_pos; lia. }
    rewrite IH by exact H2. rewrite IH by exact H. rewrite Hpow.
    rewrite !Z.div_div by lia. reflexivity.
  - rewrite shr_1_div2 by exact H. reflexivity.
Qed.

Lemma shr_m_div mrs e n :
  0 <= shr_m mrs -> 0 <= n ->
  shr_m (fst (shr mrs e n)) = shr_m mrs / 2 ^ n /\ snd (shr mrs e n) = e + n.
Proof.
  intros H Hn. destruct n as [|p|p]; cbn [shr fst snd]; [| |lia].
  - rewrite Z.div_1_r. split; [reflexivity | lia].
  - split; [apply iter_pos_shr_m, H | reflexivity].
Qed.

Lemma round_between m l : m <= round_nearest_even m l <= m + 1.
Proof.
  destruct l as [|[| |]]; cbn [round_nearest_even]; try lia.
  destruct (Z.even m); lia.
Qed.

Lemma Zdigits2_pos_spec m :
  2 ^ (Zdigits2 (Z.pos m) - 1) <= Z.pos m < 2 ^ Zdigits2 (Z.pos m).
Proof. apply digits2_spec. Qed.

(** The number of digits of a positive number between two powers. *)
Lemma Zdigits2_eq z d : 0 < d -> 2 ^ (d - 1) <= z < 2 ^ d -> Zdigits2 z = d.
Proof.
  intros Hd Hz.
  assert (0 < 2 ^ (d - 1)) by (apply Z.pow_pos_nonneg; lia).
  destruct z as [|m|m]; try lia.
  pose proof (digits2_spec m) as [Hlo Hhi]. cbn [Zdigits2].
  set (k := Z.pos (digits2_pos m)) in *.
  assert (0 < k) by (subst k; lia).
  destruct (Z.lt_trichotomy k d) as [Hlt|[Heq|Hgt]]; [|exact Heq|].
  - assert (2 ^ k <= 2 ^ (d - 1)) by (apply Z.pow_le_mono_r; lia). lia.
  - assert (2 ^ d <= 2 ^ (k - 1)) by (apply Z.pow_le_mono_r; lia). lia.
Qed.

(** A mantissa of 53 digits is kept as it is. *)
Lemma binary_round_aux_canonical s m e :
  2 ^ 52 <= Z.pos m < 2 ^ 53 -> -1074 <= e <= 971 ->
  binary_round_aux prec emax s (Z.pos m) e loc_Exact = S754_finite s m e.
Proof.
  intros Hm He. unfold binary_round_aux, shr_fexp.
  rewrite (Zdigits2_eq (Z.pos m) 53) by (try lia; exact Hm).
  assert (Hf : fexp prec emax (53 + e) - e = 0).
  { unfold fexp, SpecFloat.emin, prec, emax. change IntDef.Z.max with Z.max. lia. }
  rewrite Hf. cbn [shr shr_record_of_loc shr_m loc_of_shr_record round_nearest_even].
  rewrite (Zdigits2_eq (Z.pos m) 53) by (try lia; exact Hm).
  rewrite Hf. cbn [shr shr_record_of_loc shr_m].
  assert (Hle : (e <=? emax - prec) = true) by (apply Z.leb_le; unfold emax, prec; lia).
  rewrite Hle. reflexivity.
Qed.

(** The binary64 value of a positive int below [2^53] is the int itself,
    with a mantissa of 53 digits. *)
Lemma of_Z_exact x :
  0 < x < 2 ^ 53 ->
  exists m e, of_Z x = S754_finite false m e /\
              -52 <= e <= 0 /\ 2 ^ 52 <= Z.pos m < 2 ^ 53 /\
              Z.pos m = x * 2 ^ (- e).
Proof.
  intros Hx. destruct x as [|px|px]; try lia.
  unfold of_Z, binary_normalize, binary_round, shl_align.
  pose proof (digits2_spec px) as [Hlo Hhi].
  pose proof (digits2_bound px 53 ltac:(lia) ltac:(lia)) as Hd.
  set (d := Z.pos (digits2_pos px)) in *.
  assert (Hf : fexp prec emax (d + 0) = d - 53).
  { unfold fexp, SpecFloat.emin, prec, emax. change IntDef.Z.max with Z.max.
    subst d. lia. }
  rewrite Hf.
  destruct (d - 53 - 0) as [|q|q] eqn:Eq; [| subst d; lia |].
  - assert (H : d = 53) by lia.
    rewrite H in Hlo, Hhi. change (53 - 1) with 52 in Hlo.
    exists px, 0.
    rewrite binary_round_aux_canonical by lia.
    repeat split; lia.
  - pose proof (digits2_spec (Pos.iter xO px q)) as [Hlo' Hhi'].
    rewrite digits2_iter_xO in Hlo', Hhi'.
    assert (Hq : Z.pos (digits2_pos px + q) = 53) by (subst d; lia).
    rewrite Hq in Hlo', Hhi'.
    exists (Pos.iter xO px q), (d - 53).
    rewrite binary_round_aux_canonical by (subst d; lia).
    repeat split; try (subst d; lia).
    replace (- (d - 53)) with (Z.pos q) by lia.
    clear. induction q as [|q IH] using Pos.peano_ind.
    + cbn [Pos.iter]. rewrite Pos2Z.inj_xO. change (2 ^ 1) with 2. lia.
    + rewrite Pos.iter_succ, Pos2Z.inj_xO, IH, Pos2Z.inj_succ, Z.pow_succ_r by lia.
      lia.
Qed.

End FloatBounds.
Section FloatProducts.

Lemma shr_1_exact mrs :
  shr_r mrs = false -> shr_s mrs = false -> 0 <= shr_m mrs ->
  shr_m mrs mod 2 = 0 ->
  shr_r (shr_1 mrs) = false /\ shr_s (shr_1 mrs) = false.
Proof.
  destruct mrs as [m r s]. cbn [shr_m shr_r shr_s shr_1]. intros -> -> Hm Hmod.
  destruct m as [|[p|p|]|p]; cbn [shr_r shr_s orb]; try (split; reflexivity).
  - rewrite Pos2Z.inj_xI in Hmod.
    replace (2 * Z.pos p + 1) with (1 + Z.pos p * 2) in Hmod by lia.
    rewrite Z.mod_add in Hmod by lia. discriminate.
  - discriminate.
  - lia.
Qed.

Lemma iter_pos_exact n : forall mrs,
  shr_r mrs = false -> shr_s mrs = false -> 0 <= shr_m mrs ->
  shr_m mrs mod 2 ^ Z.pos n = 0 ->
  shr_r (iter_pos shr_1 n mrs) = false /\ shr_s (iter_pos shr_1 n mrs) = false.
Proof.
  induction n as [n IH|n IH|]; intros mrs Hr Hs Hm Hmod; cbn [iter_pos].
  - assert (Hpow : 2 ^ Z.pos n~1 = 2 * (2 ^ Z.pos n * 2 ^ Z.pos n)).
    { rewrite <- Z.pow_add_r, <- Z.pow_succ_r by lia. f_equal. lia. }
    assert (Hp : 0 < 2 ^ Z.pos n) by (apply Z.pow_pos_nonneg; lia).
    rewrite Hpow in Hmod.
    apply Z.mod_divide in Hmod; [|lia]. destruct Hmod as [q Hq].
    assert (H1 : shr_m mrs mod 2 = 0).
    { rewrite Hq. replace (q * (2 * (2 ^ Z.pos n * 2 ^ Z.pos n)))
        with (q * (2 ^ Z.pos n * 2 ^ Z.pos n) * 2) by lia.
      apply Z.mod_mul. lia. }
    destruct (shr_1_exact mrs Hr Hs Hm H1) as [Hr1 Hs1].
    assert (Hm1 : shr_m (shr_1 mrs) = q * 2 ^ Z.pos n * 2 ^ Z.pos n).
    { rewrite shr_1_div2 by exact Hm. rewrite Hq.
      replace (q * (2 * (2 ^ Z.pos n * 2 ^ Z.pos n)))
        with (q * 2 ^ Z.pos n * 2 ^ Z.pos n * 2) by lia.
      apply Z.div_mul. lia. }
    assert (Hq0 : 0 <= q) by nia.
    assert (Hm1' : 0 <= shr_m (shr_1 mrs)) by (rewrite Hm1; nia).
    destruct (IH (shr_1 mrs) Hr1 Hs1 Hm1') as [Hr2 Hs2].
    { rewrite Hm1. apply Z.mod_mul. lia. }
    apply IH; [exact Hr2 | exact Hs2 | |].
    + rewrite iter_pos_shr_m by exact Hm1'. apply Z.div_pos; lia.
    + rewrite iter_pos_shr_m by exact Hm1'. rewrite Hm1.
      rewrite Z.div_mul by lia. apply Z.mod_mul. lia.
  - assert (Hpow : 2 ^ Z.pos n~0 = 2 ^ Z.pos n * 2 ^ Z.pos n).
    { rewrite <- Z.pow_add_r by lia. f_equal. lia. }
    assert (Hp : 0 < 2 ^ Z.pos n) by (apply Z.pow_pos_nonneg; lia).
    rewrite Hpow in Hmod.
    apply Z.mod_divide in Hmod; [|lia]. destruct Hmod as [q Hq].
    assert (Hq0 : 0 <= q) by nia.
    destruct (IH mrs Hr Hs Hm) as [Hr2 Hs2].
    { rewrite Hq. replace (q * (2 ^ Z.pos n * 2 ^ Z.pos n))
        with (q * 2 ^ Z.pos n * 2 ^ Z.pos n) by lia.
      apply Z.mod_mul. lia. }
    apply IH; [exact Hr2 | exact Hs2 | |].
    + rewrite iter_pos_shr_m by exact Hm. apply Z.div_pos; lia.
    + rewrite iter_pos_shr_m by exact Hm. rewrite Hq.
      replace (q * (2 ^ Z.pos n * 2 ^ Z.pos n))
        with (q * 2 ^ Z.pos n * 2 ^ Z.pos n) by lia.
      rewrite Z.div_mul by lia. apply Z.mod_mul. lia.
  - change (2 ^ 1) with 2 in Hmod. apply shr_1_exact; assumption.
Qed.

(** Rounding the product of two 53-digit mantissas: the result has 53
    digits again, the exponent has grown by [N], and the value is within
    one part in [2^52] of the product, which it equals when the digits
    dropped are zeros. *)
Lemma binary_round_aux_product s M e :
  2 ^ 104 <= Z.pos M < 2 ^ 106 -> -112 <= e <= 0 ->
  exists m3 N,
    binary_round_aux prec emax s (Z.pos M) e loc_Exact = S754_finite s m3 (e + N) /\
    52 <= N <= 54 /\
    2 ^ 52 <= Z.pos m3 < 2 ^ 53 /\
    Z.pos M * (2 ^ 52 - 1) < Z.pos m3 * 2 ^ N * 2 ^ 52 <= Z.pos M * (2 ^ 52 + 1) /\
    (Z.pos M mod 2 ^ (Zdigits2 (Z.pos M) - 53) = 0 -> Z.pos m3 * 2 ^ N = Z.pos M).
Proof.
  intros HM He. unfold binary_round_aux, shr_fexp.
  pose proof (digits2_spec M) as HD. cbn [Zdigits2].
  set (D := Z.pos (digits2_pos M)) in *.
  assert (HDr : 105 <= D <= 106).
  { split.
    - destruct (Z.le_gt_cases 105 D) as [H|H]; [exact H|].
      assert (2 ^ D <= 2 ^ 104) by (apply Z.pow_le_mono_r; lia). lia.
    - destruct (Z.le_gt_cases D 106) as [H|H]; [exact H|].
      assert (2 ^ 106 <= 2 ^ (D - 1)) by (apply Z.pow_le_mono_r; lia). lia. }
  set (n := D - 53) in *.
  assert (Hn : fexp prec emax (D + e) - e = n).
  { unfold fexp, SpecFloat.emin, prec, emax. change IntDef.Z.max with Z.max.
    subst n. lia. }
  rewrite Hn.
  destruct (shr_m_div (shr_record_of_loc (Z.pos M) loc_Exact) e n)
    as [Hm1 He1]; [rewrite shr_record_m; lia | subst n; lia |].
  assert (Hexact : Z.pos M mod 2 ^ n = 0 ->
                   loc_of_shr_record
                     (fst (shr (shr_record_of_loc (Z.pos M) loc_Exact) e n))
                   = loc_Exact).
  { intros Hmod. destruct n as [|pn|pn] eqn:En; try (subst n; lia).
    cbn [shr fst].
    destruct (iter_pos_exact pn (shr_record_of_loc (Z.pos M) loc_Exact))
      as [Hr Hs]; try reflexivity; [cbn; lia | exact Hmod |].
    destruct (iter_pos shr_1 pn _) as [m' r' s']. cbn [shr_r shr_s] in Hr, Hs.
    subst. reflexivity. }
  destruct (shr (shr_record_of_loc (Z.pos M) loc_Exact) e n) as [mrs1 e1].
  cbn [fst snd] in Hm1, He1, Hexact. rewrite shr_record_m in Hm1.
  set (m1 := shr_m mrs1) in *.
  assert (Hpn : 0 < 2 ^ n) by (apply Z.pow_pos_nonneg; subst n; lia).
  assert (Hsplit : Z.pos M = 2 ^ n * m1 + Z.pos M mod 2 ^ n)
    by (rewrite Hm1; apply Z.div_mod; lia).
  assert (Hrem : 0 <= Z.pos M mod 2 ^ n < 2 ^ n) by (apply Z.mod_pos_bound; lia).
  assert (HpD : 2 ^ (D - 1) = 2 ^ n * 2 ^ 52).
  { rewrite <- Z.pow_add_r by (subst n; lia). f_equal. subst n. lia. }
  assert (HpD' : 2 ^ D = 2 ^ n * 2 ^ 53).
  { rewrite <- Z.pow_add_r by (subst n; lia). f_equal. subst n. lia. }
  assert (Hm1r : 2 ^ 52 <= m1 < 2 ^ 53).
  { rewrite HpD, HpD' in HD. split; nia. }
  pose proof (round_between m1 (loc_of_shr_record mrs1)) as Hm2.
  set (m2 := round_nearest_even m1 (loc_of_shr_record mrs1)) in *.
  assert (Hcases : (m2 < 2 ^ 53 /\ Zdigits2 m2 = 53) \/ (m2 = 2 ^ 53 /\ Zdigits2 m2 = 54)).
  { destruct (Z.lt_ge_cases m2 (2 ^ 53)) as [H|H].
    - left. split; [exact H|]. apply Zdigits2_eq; lia.
    - right. split; [lia|]. apply Zdigits2_eq; [lia|].
      change (2 ^ (54 - 1)) with (2 ^ 53). change (2 ^ 54) with (2 * 2 ^ 53). lia. }
  assert (Hex2 : Z.pos M mod 2 ^ n = 0 -> m2 = m1).
  { intros Hmod. specialize (Hexact Hmod). subst m2. rewrite Hexact. reflexivity. }
  clearbody m2.
  destruct Hcases as [[Hlt Hd2]|[Heq Hd2]]; rewrite Hd2.
  - assert (Hn2 : fexp prec emax (53 + e1) - e1 = 0).
    { unfold fexp, SpecFloat.emin, prec, emax. change IntDef.Z.max with Z.max.
      subst n. lia. }
    rewrite Hn2. cbn [shr]. rewrite shr_record_m.
    destruct m2 as [|p2|p2]; try lia.
    assert (Hle : (e1 <=? emax - prec) = true)
      by (apply Z.leb_le; unfold emax, prec; subst n; lia).
    rewrite Hle. exists p2, n. rewrite He1.
    split; [reflexivity|]. split; [subst n; lia|]. split; [lia|].
    split; [split; nia|].
    intros Hmod. specialize (Hex2 Hmod). lia.
  - assert (Hn2 : fexp prec emax (54 + e1) - e1 = 1).
    { unfold fexp, SpecFloat.emin, prec, emax. change IntDef.Z.max with Z.max.
      subst n. lia. }
    rewrite Hn2.
    destruct (shr_m_div (shr_record_of_loc m2 loc_Exact) e1 1)
      as [Hm3 He3]; [rewrite shr_record_m; lia | lia |].
    destruct (shr (shr_record_of_loc m2 loc_Exact) e1 1) as [mrs3 e3].
    cbn [fst snd] in Hm3, He3. rewrite shr_record_m in Hm3.
    rewrite Heq in Hm3. change (2 ^ 53 / 2 ^ 1) with (2 ^ 52) in Hm3.
    rewrite Hm3. change (2 ^ 52) with (Z.pos (2 ^ 52)%positive) at 1.
    cbv iota.
    assert (Hle : (e3 <=? emax - prec) = true)
      by (apply Z.leb_le; unfold emax, prec; subst n; lia).
    rewrite Hle. exists (2 ^ 52)%positive, (n + 1). rewrite He3, He1.
    split; [f_equal; lia|]. split; [subst n; lia|].
    split; [change (Z.pos (2 ^ 52)%positive) with (2 ^ 52); lia|].
    change (Z.pos (2 ^ 52)%positive) with (2 ^ 52).
    rewrite Z.pow_add_r by (subst n; lia). change (2 ^ 1) with 2.
    split; [split; nia|].
    intros Hmod. specialize (Hex2 Hmod). lia.
Qed.

End FloatProducts.
Section IntTimesLiteral.

(** [x * c] for a positive int below [2^53] and a literal of 53 digits:
    the float returned, with its value against the exact product. *)
Lemma mul_int_float_value x mc ec :
  0 < x < 2 ^ 53 -> 2 ^ 52 <= Z.pos mc < 2 ^ 53 -> -60 <= ec <= 0 ->
  exists m e m3 N,
    of_Z x = S754_finite false m e /\
    -52 <= e <= 0 /\ 2 ^ 52 <= Z.pos m < 2 ^ 53 /\ Z.pos m = x * 2 ^ (- e) /\
    mul_int_float x (S754_finite false mc ec)
    = Ok (S754_finite false m3 (e + ec + N)) /\
    52 <= N <= 54 /\
    2 ^ 52 <= Z.pos m3 < 2 ^ 53 /\
    Z.pos m * Z.pos mc * (2 ^ 52 - 1) < Z.pos m3 * 2 ^ N * 2 ^ 52
      <= Z.pos m * Z.pos mc * (2 ^ 52 + 1) /\
    (Z.pos (m * mc) mod 2 ^ (Zdigits2 (Z.pos (m * mc)) - 53) = 0 ->
     Z.pos m3 * 2 ^ N = Z.pos m * Z.pos mc).
Proof.
  intros Hx Hmc Hec.
  destruct (of_Z_exact x Hx) as (m & e & Hof & He & Hm & Hval).
  assert (HM : 2 ^ 104 <= Z.pos (m * mc) < 2 ^ 106).
  { rewrite Pos2Z.inj_mul. change (2 ^ 104) with (2 ^ 52 * 2 ^ 52).
    change (2 ^ 106) with (2 ^ 53 * 2 ^ 53). split; nia. }
  destruct (binary_round_aux_product false (m * mc) (e + ec) HM ltac:(lia))
    as (m3 & N & Hr & HN & Hm3 & Hb & Hex).
  exists m, e, m3, N.
  split; [exact Hof|]. split; [exact He|]. split; [exact Hm|].
  split; [exact Hval|].
  split.
  { unfold mul_int_float, float_of_int. rewrite Hof. cbn [bind].
    unfold fmul, SFmul. cbn [xorb]. rewrite Hr. reflexivity. }
  split; [exact HN|]. split; [exact Hm3|].
  rewrite Pos2Z.inj_mul in Hb, Hex. split; [exact Hb | exact Hex].
Qed.

(** [int(x * c)] against the exact product [x * mc * 2^ec]: the float
    product is within one part in [2^52] of it, and [int] takes the
    integer part. *)
Lemma int_mul_bounds x mc ec :
  0 < x < 2 ^ 53 -> 2 ^ 52 <= Z.pos mc < 2 ^ 53 -> -60 <= ec <= 0 ->
  exists p,
    int_mul x (S754_finite false mc ec) = Ok p /\
    x * Z.pos mc * (2 ^ 52 - 1) < (p + 1) * (2 ^ (- ec) * 2 ^ 52) /\
    p * (2 ^ (- ec) * 2 ^ 52) <= x * Z.pos mc * (2 ^ 52 + 1).
Proof.
  intros Hx Hmc Hec.
  destruct (mul_int_float_value x mc ec Hx Hmc Hec)
    as (m & e & m3 & N & _ & He & _ & Hval & Hmul & HN & Hm3 & [Hlo Hhi] & _).
  unfold int_mul. rewrite Hmul. cbn [bind int_of_float].
  set (A := 2 ^ (- e)) in *. set (B := 2 ^ (- ec)).
  assert (HA : 0 < A) by (apply Z.pow_pos_nonneg; lia).
  assert (HB : 0 < B) by (apply Z.pow_pos_nonneg; lia).
  set (V := Z.pos m3 * 2 ^ N) in *.
  set (p := if 0 <=? e + ec + N
            then Z.shiftl (Z.pos m3) (e + ec + N)
            else Z.shiftr (Z.pos m3) (- (e + ec + N))).
  assert (Hp : p * (A * B) <= V < (p + 1) * (A * B)).
  { subst p V A B. destruct (Z.leb_spec 0 (e + ec + N)) as [H|H].
    - rewrite Z.shiftl_mul_pow2 by lia.
      assert (E : 2 ^ N = 2 ^ (e + ec + N) * (2 ^ (- e) * 2 ^ (- ec))).
      { rewrite <- !Z.pow_add_r by lia. f_equal. lia. }
      rewrite E.
      assert (0 < 2 ^ (- e) * 2 ^ (- ec)) by lia.
      set (Q := 2 ^ (- e) * 2 ^ (- ec)) in *.
      assert (0 < 2 ^ (e + ec + N)) by (apply Z.pow_pos_nonneg; lia).
      split; nia.
    - rewrite Z.shiftr_div_pow2 by lia.
      assert (E : 2 ^ (- e) * 2 ^ (- ec) = 2 ^ (- (e + ec + N)) * 2 ^ N).
      { rewrite <- !Z.pow_add_r by lia. f_equal. lia. }
      rewrite E.
      assert (Hq : 0 < 2 ^ (- (e + ec + N))) by (apply Z.pow_pos_nonneg; lia).
      assert (HqN : 0 < 2 ^ N) by (apply Z.pow_pos_nonneg; lia).
      pose proof (Z.div_mod (Z.pos m3) (2 ^ (- (e + ec + N))) ltac:(lia)) as Hdm.
      pose proof (Z.mod_pos_bound (Z.pos m3) (2 ^ (- (e + ec + N))) Hq) as Hmb.
      set (q := Z.pos m3 / 2 ^ (- (e + ec + N))) in *.
      set (r := Z.pos m3 mod 2 ^ (- (e + ec + N))) in *.
      set (K := 2 ^ (- (e + ec + N))) in *. set (L := 2 ^ N) in *.
      clearbody q r K L. split; nia. }
  exists p. split; [reflexivity|].
  rewrite Hval in Hlo, Hhi. clearbody p V.
  split.
  - apply Z.mul_lt_mono_pos_l with A; [exact HA|]. nia.
  - apply Z.mul_le_mono_pos_l with A; [exact HA|]. nia.
Qed.

(** [int(0 * c)] is 0. *)
Lemma int_mul_zero mc ec : int_mul 0 (S754_finite false mc ec) = Ok 0.
Proof. reflexivity. Qed.

End IntTimesLiteral.
Section OneAndAHalf.

(** [x * 1.5] is exact while [3 * x] fits in 53 digits. *)
Lemma mul_one_and_a_half x :
  0 < x -> 3 * x < 2 ^ 53 ->
  exists m3 e3,
    mul_int_float x f_1_5 = Ok (S754_finite false m3 e3) /\
    (0 <= e3 -> 2 * (Z.pos m3 * 2 ^ e3) = 3 * x) /\
    (e3 < 0 -> 2 * Z.pos m3 = 3 * x * 2 ^ (- e3)).
Proof.
  intros Hx0 Hx. destruct literals_bits as (_ & -> & _).
  set (mc := 0x18000000000000%positive).
  assert (Hmc : Z.pos mc = 3 * 2 ^ 51) by reflexivity.
  destruct (mul_int_float_value x mc (-52) ltac:(lia) ltac:(subst mc; lia)
              ltac:(lia))
    as (m & e & m3 & N & _ & He & Hm & Hval & Hmul & HN & Hm3 & _ & Hex).
  exists m3, (e + -52 + N). split; [exact Hmul|].
  assert (He1 : e <= -1).
  { destruct (Z.le_gt_cases e (-1)) as [H|H]; [exact H|].
    assert (e = 0) by lia. subst e. change (2 ^ (- 0)) with 1 in Hval. lia. }
  assert (HA : 0 < 2 ^ (51 - e)) by (apply Z.pow_pos_nonneg; lia).
  assert (HM : Z.pos m * Z.pos mc = 3 * x * 2 ^ (51 - e)).
  { rewrite Hval, Hmc.
    replace (51 - e) with (- e + 51) by lia. rewrite Z.pow_add_r by lia. lia. }
  assert (Hexact : Z.pos m3 * 2 ^ N = 3 * x * 2 ^ (51 - e)).
  { rewrite <- HM. apply Hex.
    pose proof (digits2_spec (m * mc)) as [Hlo Hhi]. cbn [Zdigits2].
    set (D := Z.pos (digits2_pos (m * mc))) in *.
    assert (HD : D <= 104 - e).
    { apply digits2_bound; [lia|]. rewrite Pos2Z.inj_mul, HM.
      replace (104 - e) with (53 + (51 - e)) by lia.
      rewrite Z.pow_add_r by lia. nia. }
    assert (HD' : 53 <= D).
    { destruct (Z.le_gt_cases 53 D) as [H|H]; [exact H|].
      assert (2 ^ D <= 2 ^ 53) by (apply Z.pow_le_mono_r; lia).
      rewrite Pos2Z.inj_mul in Hhi. nia. }
    rewrite Pos2Z.inj_mul, HM.
    replace (51 - e) with ((51 - e - (D - 53)) + (D - 53)) by lia.
    rewrite Z.pow_add_r by lia. rewrite !Z.mul_assoc. apply Z.mod_mul.
    apply Z.pow_nonzero; lia. }
  split.
  - intros H0.
    assert (E : 2 ^ N = 2 ^ (e + -52 + N) * (2 * 2 ^ (51 - e))).
    { rewrite <- Z.pow_succ_r, <- Z.pow_add_r by lia. f_equal. lia. }
    rewrite E in Hexact. nia.
  - intros H0.
    assert (E : 2 * 2 ^ (51 - e) = 2 ^ N * 2 ^ (- (e + -52 + N))).
    { rewrite <- Z.pow_succ_r, <- Z.pow_add_r by lia. f_equal. lia. }
    assert (HN0 : 0 < 2 ^ N) by (apply Z.pow_pos_nonneg; lia).
    nia.
Qed.

(** The comparison of an int with [x * 1.5] is then that of twice the int
    with [3 * x]. *)
Lemma int_gt_one_and_a_half x price :
  0 <= x -> 3 * x < 2 ^ 53 ->
  exists limit,
    mul_int_float x f_1_5 = Ok limit /\
    int_gt_float price limit = (3 * x <? 2 * price).
Proof.
  intros Hx0 Hx.
  destruct (Z.eq_dec x 0) as [->|Hnz].
  { destruct literals_bits as (_ & -> & _).
    eexists. split; [reflexivity|]. unfold int_gt_float, compare_int_float.
    destruct (Z.compare_spec price 0), (Z.ltb_spec (3 * 0) (2 * price));
      try reflexivity; lia. }
  destruct (mul_one_and_a_half x ltac:(lia) Hx) as (m3 & e3 & Hmul & Hpos & Hneg).
  eexists. split; [exact Hmul|].
  unfold int_gt_float, compare_int_float.
  destruct (Z.leb_spec 0 e3) as [H|H].
  - rewrite Z.shiftl_mul_pow2 by lia. specialize (Hpos H).
    destruct (Z.compare_spec price (Z.pos m3 * 2 ^ e3)),
             (Z.ltb_spec (3 * x) (2 * price)); try reflexivity; lia.
  - rewrite Z.shiftl_mul_pow2 by lia. specialize (Hneg H).
    assert (0 < 2 ^ (- e3)) by (apply Z.pow_pos_nonneg; lia).
    destruct (Z.compare_spec (price * 2 ^ (- e3)) (Z.pos m3)),
             (Z.ltb_spec (3 * x) (2 * price)); try reflexivity; nia.
Qed.

End OneAndAHalf.
Section ScanSound.

Lemma find_split c s n :
  find c s = Some n ->
  exists p t, s = p ++ String c t /\ String.length p = n /\ find c p = None.
Proof.
  revert n. induction s as [|c' s IH]; intros n; cbn [find]; [discriminate|].
  destruct (Ascii.eqb_spec c' c) as [->|Hne].
  - intros H; inversion H; subst. exists EmptyString, s. repeat split.
  - destruct (find c s) as [i|] eqn:E; [|discriminate].
    intros H; inversion H; subst.
    destruct (IH i eq_refl) as (p & t & -> & Hlen & Hnone).
    exists (String c' p), t. cbn [append String.length find].
    rewrite Hlen, Hnone.
    destruct (Ascii.eqb_spec c' c); [congruence|]. repeat split.
Qed.

(** Where the scan stops, the depth is back to zero for the first time. *)
Lemma scan_block_sound rest : forall i d j,
  0 <= d ->
  (0 < d \/ exists r', rest = String lbrace r') ->
  scan_block rest i d = Some j ->
  exists blk suf,
    rest = blk ++ suf /\ blk <> EmptyString /\
    j = (i + String.length blk - 1)%nat /\
    d + brace_depth blk = 0 /\
    (forall k, (0 < k < String.length blk)%nat ->
               0 < d + brace_depth (prefix_of k blk)) /\
    exists body, blk = body ++ String rbrace EmptyString.
Proof.
  induction rest as [|c r IH]; intros i d j Hd Hfirst; cbn [scan_block];
    [discriminate|].
  assert (Hstep : forall d', 0 < d' ->
            d' = d + brace_depth (String c EmptyString) ->
            scan_block r (S i) d' = Some j ->
            exists blk suf,
              String c r = blk ++ suf /\ blk <> EmptyString /\
              j = (i + String.length blk - 1)%nat /\
              d + brace_depth blk = 0 /\
              (forall k, (0 < k < String.length blk)%nat ->
                         0 < d + brace_depth (prefix_of k blk)) /\
              exists body, blk = body ++ String rbrace EmptyString).
  { intros d' Hd' Hd'eq Hscan.
    destruct (IH (S i) d' j ltac:(lia) (or_introl Hd') Hscan)
      as (blk & suf & -> & Hne & Hj & Htot & Hpre & body & Hbody).
    exists (String c blk), suf. cbn [append String.length].
    split; [reflexivity|]. split; [discriminate|].
    split; [destruct blk; [congruence | cbn [String.length] in *; lia]|].
    split; [rewrite brace_depth_cons; lia|].
    split; [|exists (String c body); rewrite Hbody; reflexivity].
    intros k Hk. destruct k as [|k]; [lia|].
    rewrite prefix_of_cons, brace_depth_cons.
    destruct k as [|k].
    - rewrite prefix_of_zero. cbn [brace_depth] in *. lia.
    - specialize (Hpre (S k) ltac:(lia)). lia. }
  destruct (Ascii.eqb c lbrace) eqn:Hl.
  - apply Hstep; [lia|]. cbn [brace_depth]. rewrite Hl. lia.
  - destruct Hfirst as [Hpos | [r' Hr']];
      [|inversion Hr'; subst c; rewrite Ascii.eqb_refl in Hl; discriminate].
    destruct (Ascii.eqb c rbrace) eqn:Hr.
    + cbv zeta. destruct (Z.eqb_spec (d - 1) 0) as [Hz|Hnz].
      * intros H; inversion H; subst j.
        exists (String c EmptyString), r. cbn [append String.length brace_depth].
        rewrite Hl, Hr.
        split; [reflexivity|]. split; [discriminate|]. split; [lia|].
        split; [lia|]. split; [intros k Hk; lia|].
        exists EmptyString. apply Ascii.eqb_eq in Hr. subst c. reflexivity.
      * apply Hstep; [lia|]. cbn [brace_depth]. rewrite Hl, Hr. lia.
    + apply Hstep; [lia|]. cbn [brace_depth]. rewrite Hl, Hr. lia.
Qed.

(** What the extractor returns is a slice after a prefix without an
    opening brace, and its braces balance at its end and not before. *)
Lemma extract_sound text b :
  extract_first_json_block text = Some b ->
  exists p s, text = p ++ b ++ s /\ find lbrace p = None /\ closes_at_end b /\
              exists body, b = body ++ String rbrace EmptyString.
Proof.
  unfold extract_first_json_block.
  destruct (String.eqb text EmptyString); [discriminate|].
  destruct (find lbrace text) as [start|] eqn:Hfind; [|discriminate].
  destruct (find_split _ _ _ Hfind) as (p & t & -> & Hlen & Hnone).
  subst start. rewrite drop_prefix.
  destruct (scan_block (String lbrace t) (String.length p) 0) as [j|] eqn:Hscan;
    [|discriminate].
  destruct (scan_block_sound _ _ _ _ (Z.le_refl 0)
              (or_intror (ex_intro _ t eq_refl)) Hscan)
    as (blk & suf & Hsplit & Hne & Hj & Htot & Hpre & Hend).
  intros H; inversion H; subst b; clear H.
  rewrite substring_skips_prefix, Hsplit.
  replace (j + 1 - String.length p)%nat with (String.length blk).
  2:{ destruct blk; [congruence|]. cbn [String.length] in *. lia. }
  rewrite substring_whole.
  exists p, suf. split; [reflexivity|]. split; [exact Hnone|].
  split; [|exact Hend].
  split; [|split; [lia|]].
  - destruct blk as [|c blk']; [congruence|].
    cbn [append] in Hsplit. inversion Hsplit; subst. eexists; reflexivity.
  - intros k Hk. specialize (Hpre k Hk). lia.
Qed.

Lemma parse_members_obj fuel : forall acc s v rest,
  parse_members fuel acc s = Some (v, rest) -> exists d, v = JObj d.
Proof.
  induction fuel as [|fuel IH]; intros acc s v rest; cbn [parse_members];
    [discriminate|].
  destruct s as [|c r]; [discriminate|].
  destruct (Ascii.eqb c dquote); [|discriminate].
  destruct (scan_string r) as [[k r1]|]; [|discriminate].
  destruct (skip_ws r1) as [|c2 r2]; [discriminate|].
  destruct (Ascii.eqb_spec c2 ":") as [->|Hc2].
  2:{ destruct c2 as [[] [] [] [] [] [] [] []]; try discriminate.
      congruence. }
  destruct (parse_value fuel (skip_ws r2)) as [[x r3]|]; [|discriminate].
  destruct (skip_ws r3) as [|c4 r4]; [discriminate|].
  destruct (Ascii.eqb c4 rbrace).
  - intros H; inversion H; subst. eexists; reflexivity.
  - destruct (Ascii.eqb c4 ","); [|discriminate]. apply IH.
Qed.

(** A text that starts with an opening brace decodes to a dict or not at
    all. *)
Lemma loads_brace_obj t v :
  loads (String lbrace t) = Some v -> exists d, v = JObj d.
Proof.
  unfold loads. change (skip_ws (String lbrace t)) with (String lbrace t).
  cbn [parse_value]. change (Ascii.eqb lbrace dquote) with false.
  change (Ascii.eqb lbrace lbrace) with true. cbv iota.
  destruct (skip_ws t) as [|c1 r1]; [discriminate|].
  destruct (Ascii.eqb c1 rbrace).
  - destruct (skip_ws r1); [|discriminate].
    intros H; inversion H; subst. eexists; reflexivity.
  - destruct (parse_members _ _ _) as [[x rest]|] eqn:E; [|discriminate].
    destruct (skip_ws rest); [|discriminate].
    intros H; inversion H; subst. eapply parse_members_obj, E.
Qed.

End ScanSound.
Section FloatLiterals.

Lemma int_mul_above x c :
  above_one c -> 0 <= x < 2 ^ 53 -> exists p, int_mul x c = Ok p /\ x <= p.
Proof.
  intros Hc Hx. destruct c as [| | |[] mc ec]; try contradiction.
  destruct ec as [|ec|ec]; try contradiction.
  destruct (Pos.eq_dec ec 52) as [->|Hne].
  2:{ exfalso. cbn in Hc.
      repeat (destruct ec as [ec|ec|]; try contradiction); congruence. }
  cbn [above_one] in Hc. destruct Hc as [Hmc Hbig].
  destruct (Z.eq_dec x 0) as [->|Hx0].
  { exists 0. split; [reflexivity | lia]. }
  destruct (int_mul_bounds x mc (-52) ltac:(lia) Hmc ltac:(lia))
    as (p & Hp & Hlo & _).
  exists p. split; [exact Hp|].
  change (2 ^ (- -52) * 2 ^ 52) with (2 ^ 104) in Hlo.
  assert (x * 2 ^ 104 < (p + 1) * 2 ^ 104) by nia.
  assert (0 < 2 ^ 104) by (apply Z.pow_pos_nonneg; lia).
  nia.
Qed.

Lemma int_mul_below x c :
  below_one c -> 0 <= x < 2 ^ 53 -> exists p, int_mul x c = Ok p /\ 0 <= p <= x.
Proof.
  intros Hc Hx. destruct c as [| | |[] mc ec]; try contradiction.
  destruct ec as [|ec|ec]; try contradiction.
  destruct (Pos.eq_dec ec 53) as [->|Hne].
  2:{ exfalso. cbn in Hc.
      repeat (destruct ec as [ec|ec|]; try contradiction); congruence. }
  cbn [below_one] in Hc. destruct Hc as [Hmc Hsmall].
  destruct (Z.eq_dec x 0) as [->|Hx0].
  { exists 0. split; [reflexivity | lia]. }
  destruct (int_mul_bounds x mc (-53) ltac:(lia) Hmc ltac:(lia))
    as (p & Hp & Hlo & Hhi).
  exists p. split; [exact Hp|].
  change (2 ^ (- -53) * 2 ^ 52) with (2 ^ 105) in Hlo, Hhi.
  assert (0 < 2 ^ 105) by (apply Z.pow_pos_nonneg; lia).
  split; nia.
Qed.

Lemma literals_above_one :
  above_one f_1_1 /\ above_one f_1_5 /\ above_one f_1_07 /\ above_one f_1_05 /\
  above_one f_1_12 /\ above_one f_1_18 /\ above_one f_1_4.
Proof.
  destruct literals_bits as (-> & -> & _ & _ & -> & -> & -> & -> & ->).
  unfold above_one. repeat split; lia.
Qed.

Lemma literals_below_one : below_one f_0_8 /\ below_one f_0_65.
Proof.
  destruct literals_bits as (_ & _ & -> & -> & _).
  unfold below_one. repeat split; lia.
Qed.

End FloatLiterals.
Section SellerModel.

Import Seller.

Variable use_gemini : bool.
Variable generate_content : SellerServer -> Z -> string -> result string.
Variable int_of_str : string -> result Z.
Variable repr_container : json -> string.

Lemma sanitize_type parsed typ price message :
  sanitize int_of_str repr_container parsed = Ok (typ, price, message) ->
  typ = "counter" \/ typ = "accept" \/ typ = "reject".
Proof.
  unfold sanitize. destruct parsed as [| | | | |d]; try discriminate.
  destruct (dict_get_default d "type" (JStr EmptyString)) as [| | |t| |];
    cbn [bind]; try discriminate.
  destruct (match dict_get d "price" with
            | Some JNull | None => Ok 0
            | Some v => py_int int_of_str v
            end) as [p|e]; cbn [bind]; [|discriminate].
  intros H; inversion H; subst; clear H.
  destruct (String.eqb_spec (lower t) "counter") as [->|_]; [auto|].
  destruct (String.eqb_spec (lower t) "accept") as [->|_]; [auto|].
  destruct (String.eqb_spec (lower t) "reject") as [->|_]; [auto|].
  cbn [orb].
  destruct (startswith (lower t) "acc"); [auto|].
  destruct (startswith (lower t) "rej"); auto.
Qed.

(** The reply of the model branch: one of the three types, with the floor
    enforced on a counter and on an accept, at the seller's round. *)
Lemma gemini_reply self offer msg :
  let r := _gemini_generate generate_content int_of_str repr_container
             self offer msg in
  (r_type r = "counter" \/ r_type r = "accept" \/ r_type r = "reject") /\
  (r_type r <> "reject" -> min_price self <= r_price r) /\
  r_round r = round self.
Proof.
  unfold _gemini_generate, gemini_try.
  destruct (generate_content self offer msg) as [raw|e]; cbn [bind];
    [|cbn; split; [auto | split; [congruence | reflexivity]]].
  destruct (safe_json_loads_from_model_output (strip raw)) as [parsed|];
    [|cbn; split; [auto | split; [congruence | reflexivity]]].
  destruct (truthy parsed); cbn [negb];
    [|cbn; split; [auto | split; [congruence | reflexivity]]].
  destruct (sanitize int_of_str repr_container parsed) as [[[typ price] message]|e]
    eqn:Hs; cbn [bind];
    [|cbn; split; [auto | split; [congruence | reflexivity]]].
  cbn [r_type r_price r_round].
  destruct (sanitize_type _ _ _ _ Hs) as [-> | [-> | ->]]; cbn [String.eqb Ascii.eqb Bool.eqb];
    (split; [auto | split; [intros H; try congruence; lia | reflexivity]]).
Qed.

(** What one message changes in the seller: never the product nor the
    floor, the round by one at most, and an asking price at or above the
    floor stays there. *)
Lemma handle_frame self buyer_data :
  let self' := fst (handle_buyer_message use_gemini generate_content
                      int_of_str repr_container self buyer_data) in
  product self' = product self /\ min_price self' = min_price self /\
  round self <= round self' <= round self + 1 /\
  (min_price self <= current_price self -> min_price self' <= current_price self') /\
  (use_gemini = false -> current_price self' = current_price self).
Proof.
  unfold handle_buyer_message.
  destruct (buyer_fields int_of_str repr_container buyer_data)
    as [[[action price] message]|e]; [|cbn; repeat split; lia].
  destruct (String.eqb action "accept"); [cbn; repeat split; lia|].
  destruct (String.eqb action "reject"); [cbn; repeat split; lia|].
  destruct use_gemini.
  - cbv zeta.
    destruct (String.eqb (r_type _) "counter" && negb (r_price _ =? 0));
      cbn [fst product min_price round current_price set_round set_current_price];
      repeat split; try lia; discriminate.
  - rewrite rule_based_state. cbn. repeat split; lia.
Qed.

Lemma reply_well_formed r : well_formed (reply_json r) = true.
Proof. reflexivity. Qed.

Lemma loads_encode_reply r : loads (encode_reply r) = Some (reply_json r).
Proof. apply loads_dumps, reply_well_formed. Qed.

Lemma wire_type_reply r : wire_type (encode_reply r) = Some (r_type r).
Proof. unfold wire_type. rewrite loads_encode_reply. reflexivity. Qed.

(** The receive step on bytes that are UTF-8: the whole text, or else the
    first balanced block of it. *)
Lemma decode_received_text raw :
  valid_utf8 raw = true ->
  decode_received raw
  = Ok match loads (strip raw) with
       | Some buyer_data => Some buyer_data
       | None =>
           match extract_first_json_block (strip raw) with
           | Some json_block => loads json_block
           | None => None
           end
       end.
Proof.
  intros H. unfold decode_received. rewrite H. cbn [negb].
  destruct (loads (strip raw)); [reflexivity|].
  destruct (extract_first_json_block (strip raw)); reflexivity.
Qed.

(** On bytes that are not UTF-8 the loop of [run] is left. *)
Lemma serve_not_utf8 self raw :
  raw <> EmptyString -> valid_utf8 raw = false ->
  serve use_gemini generate_content int_of_str repr_container self raw
  = (self, Failed UnicodeDecodeError).
Proof.
  intros Hne H. unfold serve, decode_received.
  apply String.eqb_neq in Hne. rewrite Hne, H. reflexivity.
Qed.

(** The texts [serve] sends are replies, marked as ending by their type. *)
Lemma serve_sent self raw self' wire ended :
  serve use_gemini generate_content int_of_str repr_container self raw
  = (self', Sent wire ended) ->
  exists buyer_data reply,
    handle_buyer_message use_gemini generate_content int_of_str repr_container
      self buyer_data = (self', Ok reply) /\
    wire = encode_reply reply /\ ended = is_final (r_type reply).
Proof.
  unfold serve. destruct (String.eqb raw EmptyString); [discriminate|].
  destruct (decode_received raw) as [[buyer_data|]|e]; try discriminate.
  destruct (handle_buyer_message _ _ _ _ self buyer_data) as [s [reply|e]] eqn:Hh;
    [|discriminate].
  intros H; inversion H; subst. exists buyer_data, reply.
  split; [exact Hh | split; reflexivity].
Qed.

Lemma serve_frame self raw :
  let self' := fst (serve use_gemini generate_content int_of_str repr_container
                      self raw) in
  product self' = product self /\ min_price self' = min_price self /\
  round self <= round self' <= round self + 1 /\
  (min_price self <= current_price self -> min_price self' <= current_price self') /\
  (use_gemini = false -> current_price self' = current_price self).
Proof.
  unfold serve. destruct (String.eqb raw EmptyString); [cbn; repeat split; lia|].
  destruct (decode_received raw) as [[buyer_data|]|e];
    [|cbn; repeat split; lia|cbn; repeat split; lia].
  pose proof (handle_frame self buyer_data) as H. cbv zeta in H.
  destruct (handle_buyer_message _ _ _ _ self buyer_data) as [s [reply|e]];
    exact H.
Qed.

(** The seller over a whole loop. *)
Lemma loop_frame incoming : forall self,
  let self' := fst (Session.negotiation_loop use_gemini generate_content
                      int_of_str repr_container self incoming) in
  product self' = product self /\ min_price self' = min_price self /\
  round self <= round self' <= round self + Z.of_nat (List.length incoming) /\
  (min_price self <= current_price self -> min_price self' <= current_price self') /\
  (use_gemini = false -> current_price self' = current_price self).
Proof.
  induction incoming as [|raw rest IH]; intros self;
    [cbn; repeat split; lia|].
  cbn [Session.negotiation_loop List.length].
  pose proof (serve_frame self raw) as Hs. cbv zeta in Hs.
  destruct (serve _ _ _ _ self raw) as [s1 out]. cbn [fst] in Hs.
  destruct Hs as (Hp & Hm & Hr & Hfl & Hcp).
  assert (Hstop : product s1 = product self /\ min_price s1 = min_price self /\
                  round self <= round s1
                    <= round self + Z.of_nat (S (List.length rest)) /\
                  (min_price self <= current_price self ->
                   min_price s1 <= current_price s1) /\
                  (use_gemini = false -> current_price s1 = current_price self))
    by (repeat split; try assumption; lia).
  assert (Hgo : let s2 := fst (Session.negotiation_loop use_gemini generate_content
                                 int_of_str repr_container s1 rest) in
                product s2 = product self /\ min_price s2 = min_price self /\
                round self <= round s2
                  <= round self + Z.of_nat (S (List.length rest)) /\
                (min_price self <= current_price self ->
                 min_price s2 <= current_price s2) /\
                (use_gemini = false -> current_price s2 = current_price self)).
  { specialize (IH s1). cbv zeta in IH |- *.
    destruct IH as (Hp2 & Hm2 & Hr2 & Hfl2 & Hcp2).
    split; [congruence|]. split; [congruence|]. split; [lia|].
    split; [intros H; apply Hfl2; apply Hfl, H|].
    intros H. rewrite (Hcp2 H). apply Hcp, H. }
  cbv zeta in Hgo.
  destruct out as [| |wire ended|e]; cbn [fst]; try exact Hstop; try exact Hgo.
  destruct ended; [exact Hstop|].
  destruct (Session.negotiation_loop _ _ _ _ s1 rest) as [s2 wires].
  exact Hgo.
Qed.

(** The texts of a loop: at most one for each message, each a reply, and
    a reply of a final type only as the last. *)
Lemma loop_wires incoming : forall self,
  let wires := snd (Session.negotiation_loop use_gemini generate_content
                      int_of_str repr_container self incoming) in
  (List.length wires <= List.length incoming)%nat /\
  forall i wire,
    nth_error wires i = Some wire ->
    exists t, wire_type wire = Some t /\
              ((S i < List.length wires)%nat -> is_final t = false).
Proof.
  induction incoming as [|raw rest IH]; intros self.
  { cbn. split; [lia|]. intros [|i] wire H; discriminate. }
  cbn [Session.negotiation_loop List.length].
  destruct (serve _ _ _ _ self raw) as [s1 out] eqn:Hserve.
  assert (Hnone : (List.length (@nil string) <= S (List.length rest))%nat /\
                  forall i wire,
                    nth_error (@nil string) i = Some wire ->
                    exists t, wire_type wire = Some t /\
                              ((S i < List.length (@nil string))%nat ->
                               is_final t = false)).
  { split; [cbn; lia|]. intros [|i] wire H; discriminate. }
  destruct out as [| |wire ended|e]; cbn [snd]; try exact Hnone.
  - specialize (IH s1). cbv zeta in IH. destruct IH as [Hlen Hall].
    split; [lia | exact Hall].
  - destruct (serve_sent _ _ _ _ _ Hserve) as (buyer_data & reply & _ & -> & ->).
    destruct (is_final (r_type reply)) eqn:Hfinal.
    + cbn [snd List.length]. split; [lia|].
      intros [|i] w H; [|destruct i; discriminate].
      inversion H; subst w. exists (r_type reply).
      split; [apply wire_type_reply | cbn; lia].
    + specialize (IH s1). cbv zeta in IH.
      destruct (Session.negotiation_loop _ _ _ _ s1 rest) as [s2 wires].
      cbn [snd List.length] in IH |- *. destruct IH as [Hlen Hall].
      split; [lia|].
      intros [|i] w H.
      * inversion H; subst w. exists (r_type reply).
        split; [apply wire_type_reply | intros _; exact Hfinal].
      * destruct (Hall i w H) as (t & Ht & Hlast).
        exists t. split; [exact Ht | intros Hi; apply Hlast; lia].
Qed.

End SellerModel.
Section ConcessionBound.

Lemma chain_bound p offer thr floor T K1 Kc :
  0 < T -> 0 <= K1 -> 0 <= Kc -> 0 <= offer <= thr -> 0 <= floor ->
  p * T <= offer * Kc -> thr * T <= floor * K1 ->
  10 * (K1 * Kc) <= 13 * (T * T) ->
  10 * p <= 13 * floor.
Proof.
  intros HT HK1 HKc Ho Hf Hp Hthr HK.
  assert (H1 : p * T * T <= offer * Kc * T) by (apply Z.mul_le_mono_nonneg_r; lia).
  assert (H2 : offer * Kc * T <= thr * Kc * T).
  { apply Z.mul_le_mono_nonneg_r; [lia|]. apply Z.mul_le_mono_nonneg_r; lia. }
  assert (H3 : thr * T * Kc <= floor * K1 * Kc)
    by (apply Z.mul_le_mono_nonneg_r; lia).
  assert (H4 : p * (T * T) <= floor * (K1 * Kc)) by lia.
  assert (H5 : floor * (10 * (K1 * Kc)) <= floor * (13 * (T * T)))
    by (apply Z.mul_le_mono_nonneg_l; lia).
  assert (H6 : (10 * p) * (T * T) <= (13 * floor) * (T * T)) by lia.
  assert (HTT : 0 < T * T) by lia.
  apply Z.mul_le_mono_pos_r with (T * T); assumption.
Qed.

(** The counter of the third rule is within three tenths of the floor. *)
Lemma concession_near_floor floor offer round thr p :
  0 < floor < 2 ^ 52 -> 0 < offer < thr ->
  int_mul floor f_1_1 = Ok thr ->
  int_mul offer (concession round) = Ok p ->
  10 * p <= 13 * floor.
Proof.
  intros Hfloor Hoffer Hthr Hp.
  destruct literals_bits as (E11 & _ & _ & _ & _ & E105 & E112 & E118 & _).
  rewrite E11 in Hthr.
  destruct (int_mul_bounds floor 0x1199999999999A (-52) ltac:(lia) ltac:(lia)
              ltac:(lia)) as (thr' & Hthr' & _ & Hthr_hi).
  rewrite Hthr in Hthr'. inversion Hthr'; subst thr'; clear Hthr'.
  change (2 ^ (- -52) * 2 ^ 52) with (2 ^ 104) in Hthr_hi.
  assert (HT : 0 < 2 ^ 104) by (apply Z.pow_pos_nonneg; lia).
  rewrite <- Z.mul_assoc in Hthr_hi.
  assert (K11 : Z.pos 0x1199999999999A * (2 ^ 52 + 1) <= 2 * 2 ^ 104)
    by (apply Z.leb_le; vm_compute; reflexivity).
  assert (Hthr53 : thr < 2 ^ 53).
  { assert (thr * 2 ^ 104 <= floor * (2 * 2 ^ 104)).
    { eapply Z.le_trans; [exact Hthr_hi|]. apply Z.mul_le_mono_nonneg_l; lia. }
    change (2 ^ 53) with (2 * 2 ^ 52). nia. }
  assert (Hcases : exists mc,
             concession round = S754_finite false mc (-52) /\
             2 ^ 52 <= Z.pos mc < 2 ^ 53 /\
             10 * (Z.pos 0x1199999999999A * (2 ^ 52 + 1)
                   * (Z.pos mc * (2 ^ 52 + 1)))
             <= 13 * (2 ^ 104 * 2 ^ 104)).
  { unfold concession. rewrite E105, E112, E118.
    destruct (round >=? 8); [|destruct (round >=? 6)];
      eexists; (split; [reflexivity|]); (split; [lia|]);
      apply Z.leb_le; vm_compute; reflexivity. }
  destruct Hcases as (mc & Ec & Hmc & HK). rewrite Ec in Hp.
  destruct (int_mul_bounds offer mc (-52) ltac:(lia) Hmc ltac:(lia))
    as (p' & Hp' & _ & Hp_hi).
  rewrite Hp in Hp'. inversion Hp'; subst p'; clear Hp'.
  change (2 ^ (- -52) * 2 ^ 52) with (2 ^ 104) in Hp_hi.
  rewrite <- Z.mul_assoc in Hp_hi.
  apply (chain_bound p offer thr floor (2 ^ 104)
           (Z.pos 0x1199999999999A * (2 ^ 52 + 1)) (Z.pos mc * (2 ^ 52 + 1)));
    try assumption; try lia.
Qed.

End ConcessionBound.
Section BuyerModel.

Import Agent Buyer.

Variable USE_OLLAMA : bool.
Variable ollama_generate : NegotiationContext -> json -> json -> string.

(** [handle_offer] on a record with a price and a message, in terms of
    the decision. *)
Lemma handle_offer_decided self seller_data price message :
  dict_get seller_data "price" = Some price ->
  dict_get seller_data "message" = Some message ->
  handle_offer USE_OLLAMA ollama_generate self seller_data
  = let c := context_at_offer self price message in
    match decide USE_OLLAMA ollama_generate c price message with
    | Raise e => (set_context self c, Raise e)
    | Ok buyer_response =>
        match counter_price_of buyer_response with
        | Raise e => (set_context self c, Raise e)
        | Ok own =>
            (sendall
               (set_context self
                  match own with
                  | Some p => record_own_offer c p
                  | None => c
                  end)
               buyer_response, Ok tt)
        end
    end.
Proof.
  intros Hp Hm. unfold handle_offer, context_at_offer. rewrite Hp, Hm.
  reflexivity.
Qed.

Lemma encode_reply_nonempty r :
  String.eqb (Seller.encode_reply r) EmptyString = false.
Proof. reflexivity. Qed.

Lemma type_in_reply r names :
  type_in [("type", JStr (Seller.r_type r)); ("price", JInt (Seller.r_price r));
           ("message", JStr (Seller.r_message r));
           ("round", JInt (Seller.r_round r))] names
  = existsb (String.eqb (Seller.r_type r)) names.
Proof. reflexivity. Qed.

(** [negotiate] on a reply of the seller as it arrives. *)
Lemma negotiate_reply self r :
  negotiate USE_OLLAMA ollama_generate self (Seller.encode_reply r)
  = let seller_data :=
      [("type", JStr (Seller.r_type r)); ("price", JInt (Seller.r_price r));
       ("message", JStr (Seller.r_message r));
       ("round", JInt (Seller.r_round r))] in
    if existsb (String.eqb (Seller.r_type r)) ["offer"; "counter"] then
      match handle_offer USE_OLLAMA ollama_generate self seller_data with
      | (self', Raise _) => (self', false)
      | (self', Ok _) =>
          match context self' with
          | Some c =>
              if current_round c >=? MAX_ROUNDS
              then (stop self' "Max rounds reached.", false)
              else (self', true)
          | None => (self', false)
          end
      end
    else if existsb (String.eqb (Seller.r_type r)) ["accept"; "deal_confirmed"]
    then (self, false)
    else if existsb (String.eqb (Seller.r_type r)) ["reject"] then (self, false)
    else (self, true).
Proof.
  unfold negotiate. rewrite encode_reply_nonempty, loads_encode_reply.
  unfold Seller.reply_json. rewrite !type_in_reply. reflexivity.
Qed.

End BuyerModel.
Section OllamaStream.

Import Ollama.

Lemma iter_lines_skip noise post : forall pre acc,
  passed_over noise ->
  iter_lines (pre ++ Ok noise :: post)%list acc = iter_lines (pre ++ post)%list acc.
Proof.
  intros pre acc Hn. revert acc.
  induction pre as [|x pre IH]; intros acc; cbn [app iter_lines].
  - destruct Hn as [->|(Hv & _ & Hn)]; [reflexivity|].
    destruct (String.eqb noise EmptyString); [reflexivity|].
    rewrite Hv, Hn. reflexivity.
  - destruct x as [line|e]; [|reflexivity].
    destruct (String.eqb line EmptyString); [apply IH|].
    destruct (valid_utf8 line); cbn [negb]; [|reflexivity].
    destruct (loads line) as [chunk|]; [|apply IH].
    destruct (read_chunk acc chunk) as [[text done]|e]; cbn [bind];
      [|reflexivity].
    destruct done; [reflexivity | apply IH].
Qed.

Lemma read_content_chunk line content is_last acc :
  content_chunk line content is_last ->
  String.eqb line EmptyString = false /\
  exists chunk, loads line = Some chunk /\
                read_chunk acc chunk = Ok (acc ++ content, is_last).
Proof.
  intros (Hne & d & m & Hl & Hm & Hc & Hd).
  split; [apply String.eqb_neq, Hne|].
  exists (JObj d). split; [exact Hl|].
  unfold read_chunk. cbn [contains subscript get bind]. rewrite Hm.
  cbn [bind contains subscript]. rewrite Hc. cbn [bind]. rewrite Hd.
  reflexivity.
Qed.

Lemma read_chunk_not_dict acc v :
  (forall d, v <> JObj d) -> exists e, read_chunk acc v = Raise e.
Proof.
  intros Hv. unfold read_chunk.
  destruct v as [|b|z|s|l|d]; cbn [contains bind];
    try (eexists; reflexivity); [| |exfalso; exact (Hv d eq_refl)].
  - destruct (String.index 0 "message" s); cbn [subscript bind get];
      eexists; reflexivity.
  - destruct (existsb _ l); cbn [subscript bind get]; eexists; reflexivity.
Qed.

Lemma concat_cons (x : string) xs :
  String.concat EmptyString (x :: xs) = x ++ String.concat EmptyString xs.
Proof.
  destruct xs as [|y ys]; cbn [String.concat]; [|reflexivity].
  symmetry. apply append_nil_r.
Qed.

(** The chunks before the last add their contents to the text, in order. *)
Lemma iter_lines_contents lines contents :
  Forall2 (fun line content =>
             valid_utf8 line = true /\ content_chunk line content false)
          lines contents ->
  forall tail acc,
    iter_lines (map Ok lines ++ tail)%list acc
    = iter_lines tail (acc ++ String.concat EmptyString contents).
Proof.
  induction 1 as [|line content lines contents [Hv Hc] _ IH]; intros tail acc.
  - cbn [map app String.concat]. rewrite append_nil_r. reflexivity.
  - cbn [map app iter_lines].
    destruct (read_content_chunk line content false acc Hc)
      as (-> & chunk & -> & ->).
    rewrite Hv. cbn [negb bind].
    rewrite IH, concat_cons, append_assoc. reflexivity.
Qed.

(** The same for bytes of any kind: the loop has raised on a line that is
    not UTF-8, or it has got through the chunks. *)
Lemma iter_lines_prefix lines contents :
  Forall2 (fun line content => content_chunk line content false) lines contents ->
  forall tail acc,
    (exists e, iter_lines (map Ok lines ++ tail)%list acc = Raise e) \/
    iter_lines (map Ok lines ++ tail)%list acc
    = iter_lines tail (acc ++ String.concat EmptyString contents).
Proof.
  induction 1 as [|line content lines contents Hc _ IH]; intros tail acc.
  - right. cbn [map app String.concat]. rewrite append_nil_r. reflexivity.
  - cbn [map app iter_lines].
    destruct (read_content_chunk line content false acc Hc)
      as (-> & chunk & -> & ->).
    destruct (valid_utf8 line); cbn [negb bind]; [|left; eexists; reflexivity].
    destruct (IH tail (acc ++ content)) as [[e He]|He].
    + left. exists e. exact He.
    + right. rewrite He, concat_cons, append_assoc. reflexivity.
Qed.

End OllamaStream.
Section BuyerSession.

Import Agent Buyer.

Variable USE_OLLAMA : bool.
Variable ollama_generate : NegotiationContext -> json -> json -> string.

(** The lists and the socket after [handle_offer], for an open socket. *)
Lemma handle_offer_invariant b self seller_data :
  session_invariant b self -> closed self = false ->
  round_of self < MAX_ROUNDS ->
  let self' := fst (handle_offer USE_OLLAMA ollama_generate self seller_data) in
  session_invariant b self' /\ closed self' = false /\
  negotiation_active self' = negotiation_active self.
Proof.
  intros (Hb & Hbf & Hround & Hclosed & Hctx) Hopen Hlt.
  pose proof (handle_offer_round USE_OLLAMA ollama_generate self seller_data)
    as Hr.
  unfold handle_offer in *.
  set (c0 := match context self with
             | Some c => c
             | None => fresh_context (budget self)
             end) in *.
  assert (Hc0 : your_budget c0 = b /\
                (List.length (your_offers c0) <= List.length (messages c0))%nat /\
                (List.length (messages c0) <= List.length (seller_offers c0))%nat /\
                Z.of_nat (List.length (seller_offers c0)) <= current_round c0 /\
                (List.length (sent self) <= List.length (messages c0))%nat /\
                current_round c0 = round_of self).
  { unfold round_of, budget_in_force in *. subst c0.
    destruct (context self) as [c|].
    - rewrite Hopen in Hctx. repeat split; try tauto; lia.
    - rewrite Hctx. cbn. repeat split; lia. }
  destruct Hc0 as (Hc0b & Hc01 & Hc02 & Hc03 & Hc04 & Hc05).
  clearbody c0.
  assert (Hfinish : forall c' self',
             context self' = Some c' -> budget self' = budget self ->
             closed self' = false ->
             negotiation_active self' = negotiation_active self ->
             your_budget c' = b -> current_round c' = current_round c0 + 1 ->
             (List.length (your_offers c') <= List.length (messages c'))%nat ->
             (List.length (messages c') <= List.length (seller_offers c'))%nat ->
             (List.length (seller_offers c') <= S (List.length (seller_offers c0)))%nat ->
             (List.length (sent self') <= List.length (messages c'))%nat ->
             session_invariant b self' /\ closed self' = false /\
             negotiation_active self' = negotiation_active self).
  { intros c' self' H1 H2 H3 H4 H5 H6 H7 H8 H9 H10.
    split; [|split; assumption].
    unfold session_invariant, budget_in_force, round_of. rewrite H1, H3.
    split; [congruence|]. split; [exact H5|]. split; [lia|].
    split; [discriminate|]. repeat split; lia. }
  destruct (dict_get seller_data "price") as [price|].
  2:{ cbn [fst]. eapply Hfinish; try reflexivity; cbn; try assumption; lia. }
  destruct (dict_get seller_data "message") as [message|].
  2:{ cbn [fst]. eapply Hfinish; try reflexivity; cbn; try assumption;
      rewrite ?List.length_app; cbn; lia. }
  destruct (decide _ _ _ _ _) as [response|e].
  2:{ cbn [fst]. eapply Hfinish; try reflexivity; cbn; try assumption;
      rewrite ?List.length_app; cbn; lia. }
  destruct (counter_price_of response) as [[own|]|e]; cbn [fst];
    eapply Hfinish; try reflexivity; cbn; try assumption;
    rewrite ?List.length_app; cbn; lia.
Qed.

Lemma negotiate_invariant b self data :
  session_invariant b self -> closed self = false ->
  round_of self < MAX_ROUNDS ->
  let '(self', continue) := negotiate USE_OLLAMA ollama_generate self data in
  session_invariant b self' /\
  (continue = true -> closed self' = false /\ round_of self' < MAX_ROUNDS).
Proof.
  intros Hinv Hopen Hlt. unfold negotiate.
  destruct (String.eqb data EmptyString); [split; [exact Hinv | discriminate]|].
  destruct (loads data) as [[| | | | |seller_data]|];
    try (split; [exact Hinv | (discriminate || (intros _; split; assumption))]).
  destruct (type_in seller_data ["offer"; "counter"]).
  - pose proof (handle_offer_invariant b self seller_data Hinv Hopen Hlt) as H.
    pose proof (handle_offer_round USE_OLLAMA ollama_generate self seller_data)
      as Hr.
    cbv zeta in H.
    destruct (handle_offer USE_OLLAMA ollama_generate self seller_data)
      as [self' [u|e]]; cbn [fst] in H, Hr;
      destruct H as (Hinv' & Hopen' & Hact); [|split; [exact Hinv' | discriminate]].
    destruct (context self') as [c|] eqn:Ec; [|split; [exact Hinv' | discriminate]].
    assert (Hc : current_round c = round_of self')
      by (unfold round_of; rewrite Ec; reflexivity).
    destruct (Z.geb_spec (current_round c) MAX_ROUNDS) as [Hge|Hlt'].
    + split; [|discriminate].
      destruct Hinv' as (Hb & Hbf & Hround & _ & Hctx).
      unfold session_invariant, budget_in_force, round_of in *.
      cbn [stop context budget closed negotiation_active sent].
      rewrite Ec in *. rewrite Hopen' in *.
      split; [exact Hb|]. split; [exact Hbf|]. split; [exact Hround|].
      split; [intros _; split; [reflexivity | lia]|].
      rewrite List.length_app. cbn [List.length]. repeat split; lia.
    + split; [exact Hinv' | intros _; split; [exact Hopen' | lia]].
  - destruct (type_in seller_data ["accept"; "deal_confirmed"]);
      [split; [exact Hinv | discriminate]|].
    destruct (type_in seller_data ["reject"]);
      split; try exact Hinv; try discriminate.
    intros _. split; assumption.
Qed.

Lemma main_loop_invariant b incoming : forall self,
  session_invariant b self -> closed self = false ->
  round_of self < MAX_ROUNDS ->
  session_invariant b (fst (main_loop USE_OLLAMA ollama_generate self incoming)).
Proof.
  induction incoming as [|data rest IH]; intros self Hinv Hopen Hlt;
    cbn [main_loop fst]; [exact Hinv|].
  pose proof (negotiate_invariant b self data Hinv Hopen Hlt) as H.
  destruct (negotiate USE_OLLAMA ollama_generate self data) as [self' continue].
  destruct H as [Hinv' Hgo]. destruct continue; cbn [fst]; [|exact Hinv'].
  destruct (Hgo eq_refl) as [Hopen' Hlt']. apply IH; assumption.
Qed.

Lemma init_invariant b : session_invariant b (init b).
Proof.
  unfold session_invariant, budget_in_force, round_of. cbn.
  repeat split; try reflexivity; try discriminate; unfold MAX_ROUNDS; lia.
Qed.

End BuyerSession.
Section Orchestrated.

Import Agent Buyer.

Variable USE_OLLAMA : bool.
Variable ollama_generate : NegotiationContext -> json -> json -> string.
Variable recv : nat -> option string.

(** The loop from the count [count], the first [count] results of [recv]
    consumed: where it ends, and with what. *)
Lemma wrapped_loop_bounds b fuel : forall buyer count k,
  0 <= count < Main.MAX_EXCHANGES ->
  Main.MAX_EXCHANGES - count <= Z.of_nat fuel ->
  Z.of_nat k = count ->
  session_invariant b buyer -> closed buyer = false ->
  round_of buyer <= count ->
  exists e,
    Main.wrapped_loop USE_OLLAMA ollama_generate recv fuel buyer count k = Some e /\
    match e with
    | Main.Broke buyer' count' =>
        Main.MIN_EXCHANGES <= count' <= Main.MAX_EXCHANGES /\
        count < count' /\
        round_of buyer' <= count' /\
        session_invariant b buyer'
    | Main.Blocked buyer' count' =>
        count <= count' < Main.MAX_EXCHANGES /\
        recv (Z.to_nat count') = None /\
        round_of buyer' <= count' /\
        session_invariant b buyer'
    end.
Proof.
  unfold Main.MAX_EXCHANGES, Main.MIN_EXCHANGES.
  induction fuel as [|fuel IH];
    intros buyer count k Hcount Hfuel Hk Hinv Hopen Hround; [lia|].
  cbn [Main.wrapped_loop]. unfold Main.negotiate_call. rewrite Hopen.
  destruct (recv k) as [data|] eqn:Hrecv.
  2:{ exists (Main.Blocked buyer count). split; [reflexivity|].
      split; [lia|]. split; [|split; [exact Hround | exact Hinv]].
      rewrite <- Hk, Nat2Z.id. exact Hrecv. }
  pose proof (negotiate_invariant USE_OLLAMA ollama_generate b buyer data
                Hinv Hopen ltac:(unfold MAX_ROUNDS; lia)) as Hn.
  pose proof (negotiate_round USE_OLLAMA ollama_generate buyer data) as Hr.
  destruct (negotiate USE_OLLAMA ollama_generate buyer data) as [buyer1 cont].
  destruct Hn as [Hinv1 Hgo]. destruct Hr as [Hstep _].
  unfold Main.MAX_EXCHANGES, Main.MIN_EXCHANGES.
  destruct (Z.geb_spec (count + 1) 10) as [Hge|Hlt].
  { exists (Main.Broke buyer1 (count + 1)). split; [reflexivity|]. split; [lia|].
    split; [lia|]. split; [lia | exact Hinv1]. }
  assert (Hopen1 : closed buyer1 = false).
  { destruct (closed buyer1) eqn:E; [|reflexivity].
    destruct Hinv1 as (_ & _ & _ & Hc & _). destruct (Hc E) as [_ H10].
    unfold MAX_ROUNDS in H10. lia. }
  assert (Hrec : exists e,
             Main.wrapped_loop USE_OLLAMA ollama_generate recv fuel buyer1
               (count + 1) (S k) = Some e /\
             match e with
             | Main.Broke buyer' count' =>
                 3 <= count' <= 10 /\ count < count' /\
                 round_of buyer' <= count' /\ session_invariant b buyer'
             | Main.Blocked buyer' count' =>
                 count <= count' < 10 /\ recv (Z.to_nat count') = None /\
                 round_of buyer' <= count' /\ session_invariant b buyer'
             end).
  { destruct (IH buyer1 (count + 1) (S k) ltac:(lia) ltac:(lia) ltac:(lia)
                Hinv1 Hopen1 ltac:(lia)) as (e & H1 & H2).
    exists e. split; [exact H1|].
    destruct e as [b' c'|b' c'].
    - destruct H2 as (H2 & H3 & H4 & H5).
      split; [lia|]. split; [lia|]. split; [exact H4 | exact H5].
    - destruct H2 as (H2 & H3 & H4 & H5).
      split; [lia|]. split; [exact H3|]. split; [exact H4 | exact H5]. }
  destruct cont; cbn [negb andb].
  - rewrite Bool.andb_false_r. exact Hrec.
  - rewrite Bool.andb_true_r.
    destruct (Z.ltb_spec (count + 1) 3) as [H3|H3]; [exact Hrec|].
    exists (Main.Broke buyer1 (count + 1)). split; [reflexivity|]. split; [lia|].
    split; [lia|]. split; [lia | exact Hinv1].
Qed.

End Orchestrated.
Section FallbackExchange.

Import Agent Buyer.

Variable ollama_generate : NegotiationContext -> json -> json -> string.
Variable use_gemini : bool.
Variable generate_content : Seller.SellerServer -> Z -> string -> result string.
Variable int_of_str : string -> result Z.
Variable repr_container : json -> string.

Lemma context_at_offer_budget self price message :
  your_budget (context_at_offer self price message) = budget_in_force self.
Proof.
  unfold context_at_offer, budget_in_force. destruct (context self); reflexivity.
Qed.

Lemma context_at_offer_round self price message :
  current_round (context_at_offer self price message) = round_of self + 1.
Proof.
  unfold context_at_offer, round_of. destruct (context self); reflexivity.
Qed.

(** The fallback buyer on an offer or a counter of the seller, below the
    round limit: the policy's answer is sent and the session goes on. *)
Lemma fallback_step self reply status price text :
  Seller.r_type reply = "offer" \/ Seller.r_type reply = "counter" ->
  round_of self + 1 < MAX_ROUNDS ->
  respond_to_seller_offer
    (context_at_offer self (JInt (Seller.r_price reply))
       (JStr (Seller.r_message reply)))
    (Seller.r_price reply) (Seller.r_message reply)
  = Ok (status, price, text) ->
  exists self',
    negotiate false ollama_generate self (Seller.encode_reply reply)
    = (self', true) /\
    sent self' = (sent self ++ [action_record (action_of status) (JInt price) text])%list /\
    budget_in_force self' = budget_in_force self /\
    round_of self' = round_of self + 1.
Proof.
  intros Htype Hround Hrespond.
  rewrite negotiate_reply. cbv zeta.
  assert (Ht : existsb (String.eqb (Seller.r_type reply)) ["offer"; "counter"] = true).
  { destruct Htype as [-> | ->]; reflexivity. }
  rewrite Ht.
  rewrite (handle_offer_decided false ollama_generate self
             [("type", JStr (Seller.r_type reply));
              ("price", JInt (Seller.r_price reply));
              ("message", JStr (Seller.r_message reply));
              ("round", JInt (Seller.r_round reply))]
             (JInt (Seller.r_price reply))
             (JStr (Seller.r_message reply)) eq_refl eq_refl).
  cbv zeta. unfold decide. cbn [formatted_price bind message_text].
  rewrite Hrespond. cbn [bind]. fold (action_of status).
  set (c := context_at_offer self (JInt (Seller.r_price reply))
              (JStr (Seller.r_message reply))) in *.
  assert (Hc : exists own,
             counter_price_of (action_record (action_of status) (JInt price) text)
             = Ok own /\
             your_budget match own with
                         | Some p => record_own_offer c p
                         | None => c
                         end = your_budget c /\
             current_round match own with
                           | Some p => record_own_offer c p
                           | None => c
                           end = current_round c).
  { destruct status; eexists; (split; [reflexivity|]); split; reflexivity. }
  destruct Hc as (own & -> & Hb & Hr).
  cbn [context sendall set_context]. rewrite Hr.
  unfold c at 1. rewrite context_at_offer_round.
  assert (Hlt : (round_of self + 1 >=? MAX_ROUNDS) = false).
  { rewrite Z.geb_leb. apply Z.leb_gt. exact Hround. }
  rewrite Hlt. eexists. split; [reflexivity|].
  split; [reflexivity|]. split.
  - unfold budget_in_force at 1. cbn [context sendall set_context].
    rewrite Hb. apply context_at_offer_budget.
  - unfold round_of at 1. cbn [context sendall set_context].
    rewrite Hr. apply context_at_offer_round.
Qed.

(** The buyer on a reply of a final type: it stops and sends nothing. *)
Lemma hear_final self reply :
  is_final (Seller.r_type reply) = true ->
  negotiate false ollama_generate self (Seller.encode_reply reply) = (self, false).
Proof.
  intros H. rewrite negotiate_reply. cbv zeta. unfold is_final in H.
  cbn [existsb].
  destruct (String.eqb_spec (Seller.r_type reply) "deal_confirmed") as [->|_];
    [reflexivity|].
  destruct (String.eqb_spec (Seller.r_type reply) "accept") as [->|_];
    [reflexivity|].
  destruct (String.eqb_spec (Seller.r_type reply) "reject") as [->|_];
    [reflexivity | discriminate].
Qed.

(** The seller's handler on the record of an accept. *)
Lemma handle_accept_record seller price text :
  Seller.handle_buyer_message use_gemini generate_content int_of_str
    repr_container seller (action_record "accept" (JInt price) text)
  = (seller,
     Ok {| Seller.r_type := "deal_confirmed"; Seller.r_price := price;
           Seller.r_message := "Deal confirmed! Pleasure doing business with you.";
           Seller.r_round := Seller.round seller |}).
Proof.
  unfold Seller.handle_buyer_message, action_record.
  rewrite (buyer_fields_action int_of_str repr_container
             [("action", JStr "accept"); ("price", JInt price);
              ("message", JStr text)] "accept" eq_refl eq_refl).
  rewrite (price_field_int int_of_str
             [("action", JStr "accept"); ("price", JInt price);
              ("message", JStr text)] price eq_refl).
  reflexivity.
Qed.

(** The seller's handler on the record of a reject. *)
Lemma handle_reject_record seller price text :
  Seller.handle_buyer_message use_gemini generate_content int_of_str
    repr_container seller (action_record "reject" (JInt price) text)
  = (seller,
     Ok {| Seller.r_type := "reject"; Seller.r_price := 0;
           Seller.r_message := "Understood. If you change your mind, let me know.";
           Seller.r_round := Seller.round seller |}).
Proof.
  unfold Seller.handle_buyer_message, action_record.
  rewrite (buyer_fields_action int_of_str repr_container
             [("action", JStr "reject"); ("price", JInt price);
              ("message", JStr text)] "reject" eq_refl eq_refl).
  rewrite (price_field_int int_of_str
             [("action", JStr "reject"); ("price", JInt price);
              ("message", JStr text)] price eq_refl).
  reflexivity.
Qed.

(** The rule-based seller's handler on the record of a counter. *)
Lemma handle_counter_record seller price text :
  Seller.handle_buyer_message false generate_content int_of_str
    repr_container seller (action_record "counter" (JInt price) text)
  = Seller._rule_based_response seller price text.
Proof.
  unfold Seller.handle_buyer_message, action_record.
  rewrite (buyer_fields_action int_of_str repr_container
             [("action", JStr "counter"); ("price", JInt price);
              ("message", JStr text)] "counter" eq_refl eq_refl).
  rewrite (price_field_int int_of_str
             [("action", JStr "counter"); ("price", JInt price);
              ("message", JStr text)] price eq_refl).
  reflexivity.
Qed.

End FallbackExchange.
Section AsciiStrings.

Import EnsureAscii.

Lemma hex_val_digit k : (k < 16)%N -> hex_val (hex_digit k) = Some k.
Proof.
  intros H.
  destruct k as [|p]; [reflexivity|].
  do 4 (destruct p as [p|p|]; try reflexivity; try lia).
Qed.

Lemma hex4_of_text n :
  (n < 65536)%N ->
  exists h1 h2 h3 h4,
    hex4_text n = String h1 (String h2 (String h3 (String h4 EmptyString))) /\
    hex4 h1 h2 h3 h4 = Some n.
Proof.
  intros Hn. unfold hex4_text.
  eexists; eexists; eexists; eexists. split; [reflexivity|].
  unfold hex4.
  rewrite !hex_val_digit.
  - f_equal.
    pose proof (N.div_mod n 4096 ltac:(lia)).
    pose proof (N.mod_lt n 4096 ltac:(lia)).
    pose proof (N.div_mod n 256 ltac:(lia)).
    pose proof (N.mod_lt n 256 ltac:(lia)).
    pose proof (N.div_mod n 16 ltac:(lia)).
    pose proof (N.mod_lt n 16 ltac:(lia)).
    pose proof (N.div_mod (n / 256) 16 ltac:(lia)).
    pose proof (N.mod_lt (n / 256) 16 ltac:(lia)).
    pose proof (N.div_mod (n / 16) 16 ltac:(lia)).
    pose proof (N.mod_lt (n / 16) 16 ltac:(lia)).
    assert (E1 : (n / 256 / 16 = n / 4096)%N)
      by (rewrite N.Div0.div_div by lia; reflexivity).
    assert (E2 : (n / 16 / 16 = n / 256)%N)
      by (rewrite N.Div0.div_div by lia; reflexivity).
    rewrite E1 in *. rewrite E2 in *. lia.
  - apply N.mod_lt; lia.
  - apply N.mod_lt; lia.
  - apply N.mod_lt; lia.
  - apply N.Div0.div_lt_upper_bound; lia.
Qed.

(** A [\uXXXX] escape of a code point that is not a high surrogate is
    read back as the UTF-8 text of the code point. *)
Lemma scan_u_escape cp tail :
  (cp < 65536)%N -> is_high_surrogate cp = false ->
  scan_string (u_escape cp ++ tail)
  = prepend (utf8_encode cp) (scan_string tail).
Proof.
  intros Hcp Hhigh. unfold u_escape.
  destruct (hex4_of_text cp Hcp) as (h1 & h2 & h3 & h4 & -> & Hhex).
  cbn [append scan_string].
  change (Ascii.eqb backslash dquote) with false.
  change (Ascii.eqb backslash backslash) with true.
  change (Ascii.eqb "u" "u") with true. cbv iota.
  rewrite Hhex, Hhigh. reflexivity.
Qed.

(** A pair of surrogates is read back as the UTF-8 text of the code point
    it stands for. *)
Lemma scan_surrogates cp tail :
  (65536 <= cp < 1114112)%N ->
  scan_string (escape_code_point cp ++ tail)
  = prepend (utf8_encode cp) (scan_string tail).
Proof.
  intros Hcp. unfold escape_code_point.
  assert (E : (cp <? 65536)%N = false) by (apply N.ltb_ge; lia).
  rewrite E. cbv zeta.
  pose proof (N.div_mod (cp - 65536) 1024 ltac:(lia)) as Hdm.
  pose proof (N.mod_lt (cp - 65536) 1024 ltac:(lia)) as Hm.
  assert (Hd : ((cp - 65536) / 1024 < 1024)%N)
    by (apply N.Div0.div_lt_upper_bound; lia).
  set (q := ((cp - 65536) / 1024)%N) in *.
  set (r := ((cp - 65536) mod 1024)%N) in *.
  clearbody q r.
  destruct (hex4_of_text (55296 + q) ltac:(lia)) as (h1 & h2 & h3 & h4 & Eh & Hh).
  destruct (hex4_of_text (56320 + r) ltac:(lia)) as (l1 & l2 & l3 & l4 & El & Hl).
  unfold u_escape. rewrite Eh, El.
  cbn [append scan_string].
  change (Ascii.eqb backslash dquote) with false.
  change (Ascii.eqb backslash backslash) with true.
  change (Ascii.eqb "u" "u") with true. cbv iota. cbn [andb].
  rewrite Hh, Hl.
  assert (Hhigh : is_high_surrogate (55296 + q) = true).
  { unfold is_high_surrogate. apply andb_true_intro.
    split; apply N.leb_le; lia. }
  assert (Hlow : is_low_surrogate (56320 + r) = true).
  { unfold is_low_surrogate. apply andb_true_intro.
    split; apply N.leb_le; lia. }
  rewrite Hhigh, Hlow.
  assert (Ejoin : join_surrogates (55296 + q) (56320 + r) = cp).
  { unfold join_surrogates. lia. }
  rewrite Ejoin. reflexivity.
Qed.

Lemma scan_code_point cp tail :
  (cp < 1114112)%N -> (cp < 55296 \/ 57343 < cp)%N ->
  scan_string (escape_code_point cp ++ tail)
  = prepend (utf8_encode cp) (scan_string tail).
Proof.
  intros Hcp Hsur. destruct (N.ltb_spec cp 65536) as [Hlt|Hge].
  - unfold escape_code_point. apply N.ltb_lt in Hlt as E. rewrite E.
    apply scan_u_escape; [exact Hlt|].
    unfold is_high_surrogate. apply andb_false_iff.
    destruct Hsur as [H|H]; [left | right]; apply N.leb_gt; lia.
  - apply scan_surrogates. lia.
Qed.

Lemma scan_escape_ascii_char c tail :
  (N_of_ascii c < 128)%N ->
  scan_string (escape_ascii_char c ++ tail)
  = prepend (String c EmptyString) (scan_string tail).
Proof.
  intros Hc. unfold escape_ascii_char.
  destruct (N.eqb_spec (N_of_ascii c) 127) as [E|_];
    [|apply scan_escape_char].
  assert (c = ascii_of_N 127) by (rewrite <- E, ascii_N_embedding; reflexivity).
  subst c. reflexivity.
Qed.

Lemma ascii_of_byte c n : N_of_ascii c = n -> ascii_of_N n = c.
Proof. intros <-. apply ascii_N_embedding. Qed.

Lemma is_cont_range c : is_cont c = true -> (128 <= N_of_ascii c < 192)%N.
Proof.
  unfold is_cont. intros H. apply andb_prop in H. destruct H as [H1 H2].
  apply N.leb_le in H1. apply N.ltb_lt in H2. lia.
Qed.

Lemma utf8_encode_2 c1 c2 :
  (194 <= N_of_ascii c1 < 224)%N -> is_cont c2 = true ->
  utf8_encode (code_point2 c1 c2) = String c1 (String c2 EmptyString) /\
  (code_point2 c1 c2 < 55296)%N.
Proof.
  intros H1 H2. apply is_cont_range in H2. unfold code_point2, utf8_encode.
  set (n1 := N_of_ascii c1) in *. set (n2 := N_of_ascii c2) in *.
  set (cp := ((n1 - 192) * 64 + (n2 - 128))%N).
  assert (Hq : (cp / 64 = n1 - 192)%N).
  { symmetry. apply N.div_unique with (n2 - 128)%N; subst cp; lia. }
  assert (Hr : (cp mod 64 = n2 - 128)%N).
  { symmetry. apply N.mod_unique with (n1 - 192)%N; subst cp; lia. }
  assert (E1 : (cp <? 128)%N = false) by (apply N.ltb_ge; subst cp; lia).
  assert (E2 : (cp <? 2048)%N = true) by (apply N.ltb_lt; subst cp; lia).
  rewrite E1, E2, Hq, Hr.
  split; [|subst cp; lia].
  f_equal; [|f_equal]; apply ascii_of_byte; subst n1 n2; lia.
Qed.

Lemma utf8_encode_3 c1 c2 c3 :
  (224 <= N_of_ascii c1 < 240)%N -> is_cont c2 = true -> is_cont c3 = true ->
  (2048 <= code_point3 c1 c2 c3)%N ->
  utf8_encode (code_point3 c1 c2 c3)
  = String c1 (String c2 (String c3 EmptyString)) /\
  (code_point3 c1 c2 c3 < 65536)%N.
Proof.
  intros H1 H2 H3 Hlow. apply is_cont_range in H2, H3.
  unfold code_point3 in *. unfold utf8_encode.
  set (n1 := N_of_ascii c1) in *. set (n2 := N_of_ascii c2) in *.
  set (n3 := N_of_ascii c3) in *.
  set (cp := ((n1 - 224) * 4096 + (n2 - 128) * 64 + (n3 - 128))%N) in *.
  assert (Hq1 : (cp / 4096 = n1 - 224)%N).
  { symmetry. apply N.div_unique with ((n2 - 128) * 64 + (n3 - 128))%N;
      subst cp; lia. }
  assert (Hq2 : (cp / 64 = (n1 - 224) * 64 + (n2 - 128))%N).
  { symmetry. apply N.div_unique with (n3 - 128)%N; subst cp; lia. }
  assert (Hr2 : ((cp / 64) mod 64 = n2 - 128)%N).
  { rewrite Hq2. symmetry. apply N.mod_unique with (n1 - 224)%N; lia. }
  assert (Hr3 : (cp mod 64 = n3 - 128)%N).
  { symmetry. apply N.mod_unique with ((n1 - 224) * 64 + (n2 - 128))%N;
      subst cp; lia. }
  assert (E1 : (cp <? 128)%N = false) by (apply N.ltb_ge; lia).
  assert (E2 : (cp <? 2048)%N = false) by (apply N.ltb_ge; lia).
  assert (E3 : (cp <? 65536)%N = true) by (apply N.ltb_lt; subst cp; lia).
  rewrite E1, E2, E3, Hq1, Hr2, Hr3.
  split; [|subst cp; lia].
  f_equal; [|f_equal; [|f_equal]]; apply ascii_of_byte; subst n1 n2 n3; lia.
Qed.

Lemma utf8_encode_4 c1 c2 c3 c4 :
  (240 <= N_of_ascii c1 < 245)%N ->
  is_cont c2 = true -> is_cont c3 = true -> is_cont c4 = true ->
  (65536 <= code_point4 c1 c2 c3 c4)%N ->
  utf8_encode (code_point4 c1 c2 c3 c4)
  = String c1 (String c2 (String c3 (String c4 EmptyString))).
Proof.
  intros H1 H2 H3 H4 Hlow. apply is_cont_range in H2, H3, H4.
  unfold code_point4 in *. unfold utf8_encode.
  set (n1 := N_of_ascii c1) in *. set (n2 := N_of_ascii c2) in *.
  set (n3 := N_of_ascii c3) in *. set (n4 := N_of_ascii c4) in *.
  set (cp := ((n1 - 240) * 262144 + (n2 - 128) * 4096 + (n3 - 128) * 64
              + (n4 - 128))%N) in *.
  assert (Hq1 : (cp / 262144 = n1 - 240)%N).
  { symmetry.
    apply N.div_unique with ((n2 - 128) * 4096 + (n3 - 128) * 64 + (n4 - 128))%N;
      subst cp; lia. }
  assert (Hq2 : (cp / 4096 = (n1 - 240) * 64 + (n2 - 128))%N).
  { symmetry. apply N.div_unique with ((n3 - 128) * 64 + (n4 - 128))%N;
      subst cp; lia. }
  assert (Hr2 : ((cp / 4096) mod 64 = n2 - 128)%N).
  { rewrite Hq2. symmetry. apply N.mod_unique with (n1 - 240)%N; lia. }
  assert (Hq3 : (cp / 64 = ((n1 - 240) * 64 + (n2 - 128)) * 64 + (n3 - 128))%N).
  { symmetry. apply N.div_unique with (n4 - 128)%N; subst cp; lia. }
  assert (Hr3 : ((cp / 64) mod 64 = n3 - 128)%N).
  { rewrite Hq3. symmetry.
    apply N.mod_unique with ((n1 - 240) * 64 + (n2 - 128))%N; lia. }
  assert (Hr4 : (cp mod 64 = n4 - 128)%N).
  { symmetry.
    apply N.mod_unique with (((n1 - 240) * 64 + (n2 - 128)) * 64 + (n3 - 128))%N;
      subst cp; lia. }
  assert (E1 : (cp <? 128)%N = false) by (apply N.ltb_ge; lia).
  assert (E2 : (cp <? 2048)%N = false) by (apply N.ltb_ge; lia).
  assert (E3 : (cp <? 65536)%N = false) by (apply N.ltb_ge; lia).
  rewrite E1, E2, E3, Hq1, Hr2, Hr3, Hr4.
  f_equal; [|f_equal; [|f_equal; [|f_equal]]]; apply ascii_of_byte;
    subst n1 n2 n3 n4; lia.
Qed.

Lemma prepend_scanned p s rest :
  prepend p (Some (s, rest)) = Some (p ++ s, rest).
Proof. reflexivity. Qed.

(** The escaped text of a [str] is read back as the [str]. *)
Lemma scan_escape_ascii n : forall s rest,
  (String.length s <= n)%nat -> valid_utf8 s = true ->
  scan_string (escape_ascii s ++ String dquote rest) = Some (s, rest).
Proof.
  induction n as [|n IH]; intros s rest Hlen Hvalid.
  { destruct s; [reflexivity | cbn in Hlen; lia]. }
  destruct s as [|c r]; [reflexivity|].
  cbn [escape_ascii valid_utf8] in *. cbn [String.length] in Hlen.
  destruct (N.ltb_spec (N_of_ascii c) 128) as [H1|H1].
  { rewrite append_assoc, scan_escape_ascii_char by exact H1.
    rewrite IH by (try lia; exact Hvalid). reflexivity. }
  destruct (N.ltb_spec (N_of_ascii c) 194) as [H2|H2]; [discriminate|].
  destruct r as [|c2 r2]; [discriminate|]. cbn [String.length] in Hlen.
  destruct (N.ltb_spec (N_of_ascii c) 224) as [H3|H3].
  { apply andb_prop in Hvalid. destruct Hvalid as [Hc2 Hvalid].
    destruct (utf8_encode_2 c c2 ltac:(lia) Hc2) as [Henc Hcp].
    rewrite append_assoc, scan_code_point by lia.
    rewrite IH by (try lia; exact Hvalid). rewrite prepend_scanned, Henc.
    reflexivity. }
  destruct r2 as [|c3 r3]; [discriminate|]. cbn [String.length] in Hlen.
  destruct (N.ltb_spec (N_of_ascii c) 240) as [H4|H4].
  { cbv zeta in Hvalid.
    apply andb_prop in Hvalid. destruct Hvalid as [Hvalid Hrest].
    apply andb_prop in Hvalid. destruct Hvalid as [Hvalid Hsur].
    apply andb_prop in Hvalid. destruct Hvalid as [Hvalid Hlow].
    apply andb_prop in Hvalid. destruct Hvalid as [Hc2 Hc3].
    apply N.leb_le in Hlow.
    destruct (utf8_encode_3 c c2 c3 ltac:(lia) Hc2 Hc3 Hlow) as [Henc Hcp].
    apply negb_true_iff, andb_false_iff in Hsur.
    rewrite append_assoc, scan_code_point.
    - rewrite IH by (try lia; exact Hrest). rewrite prepend_scanned, Henc.
      reflexivity.
    - lia.
    - destruct Hsur as [H|H]; apply N.leb_gt in H; lia. }
  destruct r3 as [|c4 r4]; [discriminate|]. cbn [String.length] in Hlen.
  cbv zeta in Hvalid.
  apply andb_prop in Hvalid. destruct Hvalid as [Hvalid Hrest].
  apply andb_prop in Hvalid. destruct Hvalid as [Hvalid Hhigh].
  apply andb_prop in Hvalid. destruct Hvalid as [Hvalid Hlow].
  apply andb_prop in Hvalid. destruct Hvalid as [Hvalid Hc4].
  apply andb_prop in Hvalid. destruct Hvalid as [Hvalid Hc3].
  apply andb_prop in Hvalid. destruct Hvalid as [Hlead Hc2].
  apply N.ltb_lt in Hlead. apply N.leb_le in Hlow, Hhigh.
  pose proof (utf8_encode_4 c c2 c3 c4 ltac:(lia) Hc2 Hc3 Hc4 Hlow) as Henc.
  rewrite append_assoc, scan_code_point by lia.
  rewrite IH by (try lia; exact Hrest). rewrite prepend_scanned, Henc.
  reflexivity.
Qed.

End AsciiStrings.
Section AsciiRoundTrip.

Import EnsureAscii.

Lemma dumps_ascii_arr l : dumps_ascii (JArr l) = "[" ++ dumps_ascii_items l ++ "]".
Proof. reflexivity. Qed.

Lemma dumps_ascii_obj d : dumps_ascii (JObj d) = "{" ++ dumps_ascii_members d ++ "}".
Proof. reflexivity. Qed.

Lemma dumps_ascii_first v :
  exists c t, dumps_ascii v = String c t /\ value_start c = true.
Proof.
  destruct v as [|[|]|z|s|l|d];
    try (eexists; eexists; split; reflexivity).
  destruct (str_of_int_first z) as (c & t & Hc & Hs).
  exists c, t. split; [exact Hc|]. unfold value_start. rewrite Hs. reflexivity.
Qed.

Lemma skip_ws_value_ascii v t : skip_ws (dumps_ascii v ++ t) = dumps_ascii v ++ t.
Proof.
  destruct (dumps_ascii_first v) as (c & r & -> & Hc).
  destruct (value_start_facts c Hc) as [Hws _].
  cbn [append skip_ws]. rewrite Hws. reflexivity.
Qed.

Lemma dumps_str_ascii_append k t :
  dumps_str_ascii k ++ t = String dquote (escape_ascii k ++ String dquote t).
Proof.
  unfold dumps_str_ascii, quoted. cbn [append]. rewrite append_assoc. reflexivity.
Qed.

Lemma scan_key k rest :
  valid_utf8 k = true ->
  scan_string (escape_ascii k ++ String dquote rest) = Some (k, rest).
Proof. intros H. apply (scan_escape_ascii (String.length k)); [lia | exact H]. Qed.

Lemma parse_items_ascii l : forall acc fuel rest,
  l <> [] -> Forall parses_ascii l ->
  (list_sum (map (fun x => S (size x)) l) <= fuel)%nat ->
  parse_elements fuel acc (dumps_ascii_items l ++ "]" ++ rest)
  = Some (JArr (acc ++ l), rest).
Proof.
  induction l as [|x l IH]; intros acc fuel rest Hne Hall Hfuel; [congruence|].
  inversion Hall as [|? ? Hx Hl]; subst.
  change (S (size x) + list_sum (map (fun x => S (size x)) l) <= fuel)%nat in Hfuel.
  destruct fuel as [|f]; [lia|].
  rewrite parse_elements_eq.
  destruct l as [|y r].
  - cbn [dumps_ascii_items].
    rewrite (Hx f ("]" ++ rest)); [|cbn in Hfuel; lia | reflexivity].
    reflexivity.
  - change (dumps_ascii_items (x :: y :: r))
      with (dumps_ascii x ++ ", " ++ dumps_ascii_items (y :: r)).
    rewrite !append_assoc.
    rewrite (Hx f); [|lia | reflexivity].
    change (skip_ws (", " ++ dumps_ascii_items (y :: r) ++ "]" ++ rest))
      with (String "," (String " " (dumps_ascii_items (y :: r) ++ "]" ++ rest))).
    cbv iota. change (Ascii.eqb "," "]") with false.
    change (Ascii.eqb "," ",") with true. cbv iota.
    assert (Hskip : skip_ws (String " " (dumps_ascii_items (y :: r) ++ "]" ++ rest))
                    = dumps_ascii_items (y :: r) ++ "]" ++ rest).
    { rewrite skip_ws_space.
      destruct r as [|z r'].
      - cbn [dumps_ascii_items]. apply skip_ws_value_ascii.
      - change (dumps_ascii_items (y :: z :: r'))
          with (dumps_ascii y ++ ", " ++ dumps_ascii_items (z :: r')).
        rewrite !append_assoc. apply skip_ws_value_ascii. }
    rewrite Hskip, (IH (acc ++ [x])%list f rest); [|congruence | exact Hl | lia].
    rewrite <- app_assoc. reflexivity.
Qed.

Lemma parse_members_ascii d : forall acc fuel rest,
  d <> [] ->
  Forall (fun kv => valid_utf8 (fst kv) = true /\ parses_ascii (snd kv)) d ->
  distinct (map fst (acc ++ d)) = true ->
  (list_sum (map (fun kv => S (size (snd kv))) d) <= fuel)%nat ->
  parse_members fuel acc (dumps_ascii_members d ++ "}" ++ rest)
  = Some (JObj (acc ++ d), rest).
Proof.
  induction d as [|[k x] d IH]; intros acc fuel rest Hne Hall Hkeys Hfuel;
    [congruence|].
  inversion Hall as [|? ? [Hk Hx] Hd]; subst. cbn [fst snd] in Hk, Hx.
  change (S (size x) + list_sum (map (fun kv => S (size (snd kv))) d) <= fuel)%nat
    in Hfuel.
  destruct fuel as [|f]; [lia|].
  assert (Hset : dict_set acc k x = (acc ++ [(k, x)])%list).
  { apply dict_set_fresh. rewrite map_app in Hkeys. cbn [map fst] in Hkeys.
    exact (distinct_middle _ _ _ Hkeys). }
  destruct d as [|[k' y] r].
  - cbn [dumps_ascii_members].
    rewrite !append_assoc, dumps_str_ascii_append, parse_members_eq,
      (scan_key k _ Hk).
    cbn [append skip_ws]. change (is_ws ":") with false. cbv iota.
    rewrite skip_ws_space, skip_ws_value_ascii, (Hx f); [|lia | reflexivity].
    cbn [append skip_ws]. change (is_ws "}") with false. cbv iota.
    change (Ascii.eqb "}" rbrace) with true. cbv iota.
    rewrite Hset. reflexivity.
  - change (dumps_ascii_members ((k, x) :: (k', y) :: r))
      with (dumps_str_ascii k ++ ": " ++ dumps_ascii x ++ ", "
            ++ dumps_ascii_members ((k', y) :: r)).
    rewrite !append_assoc, dumps_str_ascii_append, parse_members_eq,
      (scan_key k _ Hk).
    cbn [append skip_ws]. change (is_ws ":") with false. cbv iota.
    rewrite skip_ws_space, skip_ws_value_ascii, (Hx f); [|lia | reflexivity].
    cbn [append skip_ws]. change (is_ws ",") with false. cbv iota.
    change (Ascii.eqb "," rbrace) with false.
    change (Ascii.eqb "," ",") with true. cbv iota.
    rewrite skip_ws_space.
    assert (Hskip : forall t,
               skip_ws (dumps_ascii_members ((k', y) :: r) ++ t)
               = dumps_ascii_members ((k', y) :: r) ++ t).
    { intros t. destruct r as [|[k'' z] r']; reflexivity. }
    rewrite Hskip, Hset. change (String "}" rest) with ("}" ++ rest).
    rewrite (IH (acc ++ [(k, x)])%list f rest);
      [|congruence | exact Hd | rewrite <- app_assoc; exact Hkeys | lia].
    rewrite <- app_assoc. reflexivity.
Qed.

(** Every well-formed value of UTF-8 strings, printed in ASCII, parses
    back. *)
Lemma parse_dumps_ascii n : forall v,
  (size v <= n)%nat -> well_formed v = true -> utf8_json v = true ->
  parses_ascii v.
Proof.
  induction n as [|n IH]; intros v Hsize Hwf Hutf.
  { destruct v; cbn in Hsize; lia. }
  intros fuel rest Hfuel Hrest.
  destruct v as [|b|z|s|l|d].
  - destruct fuel as [|f]; [cbn in Hfuel; lia | reflexivity].
  - destruct fuel as [|f]; [cbn in Hfuel; lia | destruct b; reflexivity].
  - destruct fuel as [|f]; [cbn in Hfuel; lia|].
    cbn [dumps_ascii]. rewrite parse_number_text, (scan_number_int z rest Hrest);
      [reflexivity|].
    destruct (str_of_int_first z) as (c & t & -> & Hc). exact Hc.
  - destruct fuel as [|f]; [cbn in Hfuel; lia|].
    cbn [dumps_ascii]. rewrite dumps_str_ascii_append.
    change (parse_value (S f) (String dquote (escape_ascii s ++ String dquote rest)))
      with (match scan_string (escape_ascii s ++ String dquote rest) with
            | Some (t, rest') => Some (JStr t, rest')
            | None => None
            end).
    rewrite (scan_key s rest Hutf). reflexivity.
  - rewrite dumps_ascii_arr.
    change (size (JArr l)) with (S (list_sum (map (fun x => S (size x)) l)))
      in Hsize, Hfuel.
    destruct fuel as [|f]; [lia|].
    destruct l as [|x l]; [reflexivity|].
    assert (Hall : Forall parses_ascii (x :: l)).
    { apply Forall_forall. intros y Hy. apply IH.
      - pose proof (size_in_items y _ Hy). lia.
      - cbn [well_formed] in Hwf. rewrite forallb_forall in Hwf. exact (Hwf y Hy).
      - cbn [utf8_json] in Hutf. rewrite forallb_forall in Hutf. exact (Hutf y Hy). }
    pose proof (parse_items_ascii (x :: l) [] f rest ltac:(congruence) Hall
                  ltac:(lia)) as Hitems.
    rewrite !append_assoc.
    destruct (dumps_ascii_first x) as (c & t & Hc & Hstart).
    destruct (value_start_facts c Hstart) as (Hws & Hclose & _).
    assert (Hhead : exists t', dumps_ascii_items (x :: l) = String c t').
    { destruct l as [|y r].
      - exists t. exact Hc.
      - exists (t ++ ", " ++ dumps_ascii_items (y :: r)).
        change (dumps_ascii_items (x :: y :: r))
          with (dumps_ascii x ++ ", " ++ dumps_ascii_items (y :: r)).
        rewrite Hc. reflexivity. }
    destruct Hhead as [t' Ht']. rewrite Ht' in Hitems |- *.
    cbn [append] in Hitems |- *.
    change (parse_value (S f) (String "[" (String c (t' ++ String "]" rest))))
      with (match skip_ws (String c (t' ++ String "]" rest)) with
            | String c1 r1 =>
                if Ascii.eqb c1 "]" then Some (JArr [], r1)
                else parse_elements f [] (String c1 r1)
            | EmptyString => None
            end).
    rewrite (skip_ws_keep c _ Hws), Hclose. exact Hitems.
  - rewrite dumps_ascii_obj.
    change (size (JObj d))
      with (S (list_sum (map (fun kv : string * json => S (size (snd kv))) d)))
      in Hsize, Hfuel.
    destruct fuel as [|f]; [lia|].
    destruct d as [|[k x] d]; [reflexivity|].
    cbn [well_formed] in Hwf. apply andb_prop in Hwf. destruct Hwf as [Hkeys Hwf].
    assert (Hall : Forall (fun kv => valid_utf8 (fst kv) = true
                                     /\ parses_ascii (snd kv)) ((k, x) :: d)).
    { apply Forall_forall. intros y Hy.
      cbn [utf8_json] in Hutf. rewrite forallb_forall in Hutf.
      specialize (Hutf y Hy). apply andb_prop in Hutf. destruct Hutf as [Hk Hv].
      split; [exact Hk|]. apply IH.
      - pose proof (size_in_members y _ Hy). lia.
      - rewrite forallb_forall in Hwf. exact (Hwf y Hy).
      - exact Hv. }
    pose proof (parse_members_ascii ((k, x) :: d) [] f rest ltac:(congruence)
                  Hall Hkeys ltac:(lia)) as Hmem.
    rewrite !append_assoc.
    assert (Hhead : exists t', dumps_ascii_members ((k, x) :: d) = String dquote t').
    { destruct d as [|[k' y] r]; eexists; reflexivity. }
    destruct Hhead as [t' Ht']. rewrite Ht' in Hmem |- *.
    cbn [append] in Hmem |- *.
    exact Hmem.
Qed.

(** [json.loads(json.dumps(v)) == v]. *)
Lemma loads_dumps_ascii v :
  well_formed v = true -> utf8_json v = true -> loads (dumps_ascii v) = Some v.
Proof.
  intros Hwf Hutf. unfold loads.
  pose proof (parse_dumps_ascii (size v) v (le_n _) Hwf Hutf (size v) EmptyString
                (le_n _) eq_refl) as Hp.
  rewrite append_nil_r in Hp.
  pose proof (skip_ws_value_ascii v EmptyString) as Hskip.
  rewrite append_nil_r in Hskip.
  rewrite <- Hskip in Hp.
  rewrite (loads_fuel_enough _ _ _ _ Hp). reflexivity.
Qed.

(** A record followed by more text is not a JSON text. *)
Lemma loads_extra_data v t rest :
  parses_ascii v -> number_stops (String t rest) = true ->
  is_ws t = false ->
  loads (dumps_ascii v ++ String t rest) = None.
Proof.
  intros Hp Hstop Hws. unfold loads.
  pose proof (Hp (size v) (String t rest) (le_n _) Hstop) as H.
  rewrite <- (skip_ws_value_ascii v (String t rest)) in H.
  rewrite (loads_fuel_enough _ _ _ _ H).
  rewrite (skip_ws_keep t rest Hws). reflexivity.
Qed.

End AsciiRoundTrip.

Section Stripping.

Lemma list_of_append a b :
  list_ascii_of_string (a ++ b)
  = (list_ascii_of_string a ++ list_ascii_of_string b)%list.
Proof.
  induction a as [|c a IH]; cbn; [reflexivity | rewrite IH; reflexivity].
Qed.

Lemma rev_string_snoc a c :
  rev_string (a ++ String c EmptyString) = String c (rev_string a).
Proof.
  unfold rev_string. rewrite list_of_append. cbn [list_ascii_of_string].
  rewrite rev_unit. reflexivity.
Qed.

Lemma rev_string_involutive s : rev_string (rev_string s) = s.
Proof.
  unfold rev_string.
  rewrite list_ascii_of_string_of_list_ascii, rev_involutive.
  apply string_of_list_ascii_of_string.
Qed.

Lemma space_at_front_brace t : space_at_front (String lbrace t) = 0%nat.
Proof. destruct t as [|c2 [|c3 r]]; reflexivity. Qed.

Lemma space_at_back_brace t : space_at_back (String rbrace t) = 0%nat.
Proof.
  destruct t as [|c2 [|c3 r]]; cbn; rewrite ?Bool.andb_false_r; reflexivity.
Qed.

Lemma lstrip_braced t : lstrip (String lbrace t) = String lbrace t.
Proof.
  unfold lstrip. cbn [String.length strip_with].
  rewrite space_at_front_brace. reflexivity.
Qed.

Lemma rstrip_braced a :
  rstrip (a ++ String rbrace EmptyString) = a ++ String rbrace EmptyString.
Proof.
  unfold rstrip. rewrite rev_string_snoc, length_append.
  replace (String.length a + String.length (String rbrace EmptyString))%nat
    with (S (String.length a)) by (cbn [String.length]; lia).
  cbn [strip_with]. rewrite space_at_back_brace.
  rewrite <- rev_string_snoc. apply rev_string_involutive.
Qed.

(** A text from an opening brace to a closing one has nothing to strip. *)
Lemma strip_braced body :
  strip (String lbrace (body ++ String rbrace EmptyString))
  = String lbrace (body ++ String rbrace EmptyString).
Proof.
  unfold strip. rewrite lstrip_braced.
  change (String lbrace (body ++ String rbrace EmptyString))
    with ((String lbrace body) ++ String rbrace EmptyString).
  apply rstrip_braced.
Qed.

End Stripping.
Section AsciiOutput.

Import EnsureAscii.

Lemma ascii_only_append s t :
  ascii_only (s ++ t) = ascii_only s && ascii_only t.
Proof.
  induction s as [|c s IH]; [reflexivity|].
  cbn [append ascii_only]. rewrite IH, Bool.andb_assoc. reflexivity.
Qed.

(** ASCII bytes are UTF-8. *)
Lemma ascii_only_valid s : ascii_only s = true -> valid_utf8 s = true.
Proof.
  induction s as [|c s IH]; [reflexivity|].
  cbn [ascii_only valid_utf8]. intros H. apply andb_prop in H.
  destruct H as [Hc Hs]. cbv zeta. rewrite Hc. apply IH, Hs.
Qed.

Lemma hex_digit_ascii k :
  (k < 16)%N -> (N_of_ascii (hex_digit k) <? 128)%N = true.
Proof.
  intros H.
  destruct k as [|p]; [reflexivity|].
  do 4 (destruct p as [p|p|]; try reflexivity; try lia).
Qed.

Lemma u_escape_ascii n : (n < 65536)%N -> ascii_only (u_escape n) = true.
Proof.
  intros Hn. unfold u_escape, hex4_text. cbn [ascii_only].
  rewrite !hex_digit_ascii; [reflexivity| | | |].
  - apply N.mod_lt. discriminate.
  - apply N.mod_lt. discriminate.
  - apply N.mod_lt. discriminate.
  - apply N.Div0.div_lt_upper_bound. exact Hn.
Qed.

Lemma escape_code_point_ascii cp :
  (cp < 10551296)%N -> ascii_only (escape_code_point cp) = true.
Proof.
  intros Hcp. unfold escape_code_point.
  destruct (N.ltb_spec cp 65536) as [H|H]; [apply u_escape_ascii, H|].
  rewrite ascii_only_append.
  pose proof (N.mod_lt (cp - 65536) 1024 ltac:(discriminate)) as Hm.
  assert (Hd : ((cp - 65536) / 1024 < 10240)%N)
    by (apply N.Div0.div_lt_upper_bound; lia).
  rewrite !u_escape_ascii by lia. reflexivity.
Qed.

Lemma escape_ascii_char_ascii c :
  (N_of_ascii c <? 128)%N = true -> ascii_only (escape_ascii_char c) = true.
Proof.
  destruct c as [[] [] [] [] [] [] [] []]; intros H;
    try (vm_compute in H; discriminate); vm_compute; reflexivity.
Qed.

(** The escaped text of any bytes is ASCII. *)
Lemma escape_ascii_ascii n : forall s,
  (String.length s <= n)%nat -> ascii_only (escape_ascii s) = true.
Proof.
  induction n as [|n IH]; intros s Hlen.
  { destruct s; [reflexivity | cbn in Hlen; lia]. }
  destruct s as [|c r]; [reflexivity|]. cbn [String.length] in Hlen.
  cbn [escape_ascii]. cbv zeta.
  pose proof (N_ascii_bounded c) as Hc.
  destruct (N.ltb_spec (N_of_ascii c) 128) as [H1|H1].
  { rewrite ascii_only_append, escape_ascii_char_ascii, IH by
      (try lia; apply N.ltb_lt; exact H1). reflexivity. }
  destruct r as [|c2 r2]; [reflexivity|]. cbn [String.length] in Hlen.
  pose proof (N_ascii_bounded c2) as Hc2.
  destruct (N.ltb_spec (N_of_ascii c) 224) as [H2|H2].
  { rewrite ascii_only_append, escape_code_point_ascii, IH by
      (try lia; unfold code_point2; lia). reflexivity. }
  destruct r2 as [|c3 r3]; [reflexivity|]. cbn [String.length] in Hlen.
  pose proof (N_ascii_bounded c3) as Hc3.
  destruct (N.ltb_spec (N_of_ascii c) 240) as [H3|H3].
  { rewrite ascii_only_append, escape_code_point_ascii, IH by
      (try lia; unfold code_point3; lia). reflexivity. }
  destruct r3 as [|c4 r4]; [reflexivity|]. cbn [String.length] in Hlen.
  pose proof (N_ascii_bounded c4) as Hc4.
  rewrite ascii_only_append, escape_code_point_ascii, IH by
      (try lia; unfold code_point4; lia). reflexivity.
Qed.

Lemma dumps_str_ascii_ascii s : ascii_only (dumps_str_ascii s) = true.
Proof.
  unfold dumps_str_ascii, quoted. cbn [ascii_only].
  rewrite ascii_only_append, (escape_ascii_ascii (String.length s) s) by lia.
  reflexivity.
Qed.

Lemma string_of_uint_ascii d :
  ascii_only (NilEmpty.string_of_uint d) = true.
Proof. induction d; cbn [NilEmpty.string_of_uint ascii_only]; auto. Qed.

Lemma str_of_int_ascii z : ascii_only (str_of_int z) = true.
Proof.
  unfold str_of_int, NilZero.string_of_int, NilZero.string_of_uint.
  destruct (Z.to_int z) as [d|d]; destruct d; cbn [ascii_only];
    try reflexivity;
    try (change (?f = true) with (f = true); apply string_of_uint_ascii).
Qed.

(** What the buyer writes is ASCII, and so UTF-8. *)
Lemma dumps_ascii_ascii n : forall v,
  (size v <= n)%nat -> ascii_only (dumps_ascii v) = true.
Proof.
  induction n as [|n IH]; intros v Hsize.
  { destruct v; cbn in Hsize; lia. }
  destruct v as [|b|z|s|l|d].
  - reflexivity.
  - destruct b; reflexivity.
  - apply str_of_int_ascii.
  - apply dumps_str_ascii_ascii.
  - rewrite dumps_ascii_arr, !ascii_only_append.
    change (size (JArr l)) with (S (list_sum (map (fun x => S (size x)) l)))
      in Hsize.
    assert (Hall : forall y, In y l -> ascii_only (dumps_ascii y) = true).
    { intros y Hy. apply IH. pose proof (size_in_items y _ Hy). lia. }
    assert (Hitems : ascii_only (dumps_ascii_items l) = true).
    { clear Hsize. induction l as [|x l IHl]; [reflexivity|].
      destruct l as [|y r].
      - apply Hall. left. reflexivity.
      - change (dumps_ascii_items (x :: y :: r))
          with (dumps_ascii x ++ ", " ++ dumps_ascii_items (y :: r)).
        rewrite !ascii_only_append, (Hall x (or_introl eq_refl)).
        rewrite IHl by (intros z Hz; apply Hall; right; exact Hz).
        reflexivity. }
    rewrite Hitems. reflexivity.
  - rewrite dumps_ascii_obj, !ascii_only_append.
    change (size (JObj d))
      with (S (list_sum (map (fun kv : string * json => S (size (snd kv))) d)))
      in Hsize.
    assert (Hall : forall k y, In (k, y) d -> ascii_only (dumps_ascii y) = true).
    { intros k y Hy. apply IH. pose proof (size_in_members (k, y) _ Hy) as H.
      cbn [snd] in H. lia. }
    assert (Hmembers : ascii_only (dumps_ascii_members d) = true).
    { clear Hsize. induction d as [|[k x] d IHd]; [reflexivity|].
      destruct d as [|[k2 y] r].
      - cbn [dumps_ascii_members].
        rewrite !ascii_only_append, dumps_str_ascii_ascii.
        rewrite (Hall k x (or_introl eq_refl)). reflexivity.
      - change (dumps_ascii_members ((k, x) :: (k2, y) :: r))
          with (dumps_str_ascii k ++ ": " ++ dumps_ascii x ++ ", "
                ++ dumps_ascii_members ((k2, y) :: r)).
        rewrite !ascii_only_append, dumps_str_ascii_ascii.
        rewrite (Hall k x (or_introl eq_refl)).
        rewrite IHd by (intros k' z Hz; apply (Hall k'); right; exact Hz).
        reflexivity. }
    rewrite Hmembers. reflexivity.
Qed.

Lemma encode_record_valid v : valid_utf8 (encode_record v) = true.
Proof.
  apply ascii_only_valid, (dumps_ascii_ascii (size v)). lia.
Qed.

Lemma encode_records_valid v w :
  valid_utf8 (encode_record v ++ encode_record w) = true.
Proof.
  apply ascii_only_valid. rewrite ascii_only_append.
  unfold encode_record.
  rewrite (dumps_ascii_ascii (size v)), (dumps_ascii_ascii (size w)) by lia.
  reflexivity.
Qed.

End AsciiOutput.

(* ================================================================== *)
(** * The seller's fallback policy *)
(* ================================================================== *)

(** C2 (amended).  The seller's fallback follows its ordered rules with the
    accept threshold truncated to an integer: it accepts at the offered
    price exactly when the offer is at least [int(floor * 1.1)]; otherwise a
    non-positive offer is countered at the unchanged asking price; otherwise
    the counter is [max(floor, int(offer * m))] with [m] = 1.05 from round 8,
    1.12 from round 6 and 1.18 before.  A counter of the third rule is at
    least the floor, and every counter is when the asking price is.  For a
    floor and an offer below [2^53] in absolute value the policy does
    return a reply.  With floor 144000 an offer of 150000 is countered and
    one of 170000 is accepted at 170000. *)
Theorem C2_seller_fallback_rules :
  (forall self offer msg threshold,
      int_mul (Seller.min_price self) f_1_1 = Ok threshold ->
      (forall r, snd (Seller._rule_based_response self offer msg) = Ok r ->
                 (Seller.r_type r = "accept" <-> threshold <= offer)) /\
      (threshold <= offer ->
       exists m, snd (Seller._rule_based_response self offer msg)
                 = Ok {| Seller.r_type := "accept"; Seller.r_price := offer;
                         Seller.r_message := m;
                         Seller.r_round := Seller.round self + 1 |}) /\
      (offer < threshold -> offer <= 0 ->
       exists m, snd (Seller._rule_based_response self offer msg)
                 = Ok {| Seller.r_type := "counter";
                         Seller.r_price := Seller.current_price self;
                         Seller.r_message := m;
                         Seller.r_round := Seller.round self + 1 |}) /\
      (offer < threshold -> 0 < offer ->
       forall p, int_mul offer (concession (Seller.round self + 1)) = Ok p ->
       Seller.min_price self <= Z.max (Seller.min_price self) p /\
       exists m, snd (Seller._rule_based_response self offer msg)
                 = Ok {| Seller.r_type := "counter";
                         Seller.r_price := Z.max (Seller.min_price self) p;
                         Seller.r_message := m;
                         Seller.r_round := Seller.round self + 1 |}) /\
      (forall r, snd (Seller._rule_based_response self offer msg) = Ok r ->
                 Seller.r_type r = "counter" ->
                 Seller.min_price self <= Seller.current_price self ->
                 Seller.min_price self <= Seller.r_price r)) /\
  (forall self offer msg,
      Z.abs (Seller.min_price self) < 2 ^ 53 -> Z.abs offer < 2 ^ 53 ->
      exists threshold r,
        int_mul (Seller.min_price self) f_1_1 = Ok threshold /\
        snd (Seller._rule_based_response self offer msg) = Ok r) /\
  (exists r, snd (Seller._rule_based_response default_seller 150000 "I can offer more.")
             = Ok r /\ Seller.r_type r = "counter" /\ Seller.r_price r = 177000) /\
  (exists r, snd (Seller._rule_based_response default_seller 170000 "I can offer more.")
             = Ok r /\ Seller.r_type r = "accept" /\ Seller.r_price r = 170000).
Proof.
  split; [|split; [exact rule_based_total|
                   split; vm_compute; eexists; repeat split; reflexivity]].
  intros self offer msg threshold Hthr.
  destruct (rule_based_cases self offer msg threshold Hthr) as (Hacc & Hkeep & Hconc).
  repeat split.
  - intros Ht. destruct (Z.le_gt_cases threshold offer) as [Hle|Hlt]; [exact Hle|].
    exfalso. revert H Ht.
    unfold Seller._rule_based_response. cbn [snd Seller.min_price Seller.set_round].
    rewrite Hthr. cbn [bind].
    assert (E : (offer >=? threshold) = false) by (rewrite Z.geb_leb; apply Z.leb_gt; lia).
    rewrite E.
    destruct (offer <=? 0); [intros H; inversion H; subst; discriminate|].
    destruct (_ >=? 8).
    { destruct (int_mul offer f_1_05); cbn [bind]; intros H; inversion H; subst; discriminate. }
    destruct (_ >=? 6).
    { destruct (int_mul offer f_1_12); cbn [bind]; intros H; inversion H; subst; discriminate. }
    destruct (int_mul offer f_1_18); cbn [bind]; intros H; inversion H; subst; discriminate.
  - intros Hle. destruct (Hacc Hle) as [m Hm]. rewrite Hm in H. inversion H; reflexivity.
  - exact Hacc.
  - exact Hkeep.
  - apply Z.le_max_l.
  - apply Hconc; assumption.
  - intros r Hr Hty Hask. revert Hr.
    unfold Seller._rule_based_response. cbn [snd Seller.min_price Seller.set_round
      Seller.current_price Seller.round].
    rewrite Hthr. cbn [bind].
    destruct (offer >=? threshold).
    { intros H; inversion H; subst; discriminate. }
    destruct (offer <=? 0).
    { intros H; inversion H; subst; cbn; exact Hask. }
    destruct (_ >=? 8).
    { destruct (int_mul offer f_1_05); cbn [bind]; intros H; inversion H; subst.
      cbn. apply Z.le_max_l. }
    destruct (_ >=? 6).
    { destruct (int_mul offer f_1_12); cbn [bind]; intros H; inversion H; subst.
      cbn. apply Z.le_max_l. }
    destruct (int_mul offer f_1_18); cbn [bind]; intros H; inversion H; subst.
    cbn. apply Z.le_max_l.
Qed.

Lemma C2_seller_fallback_rules_witness :
  int_mul (Seller.min_price default_seller) f_1_1 = Ok 158400 /\
  150000 < 158400 /\ 0 < 150000 /\
  int_mul 150000 (concession (Seller.round default_seller + 1)) = Ok 177000 /\
  exists m, snd (Seller._rule_based_response default_seller 150000 "hello")
            = Ok {| Seller.r_type := "counter"; Seller.r_price := 177000;
                    Seller.r_message := m; Seller.r_round := 1 |}.
Proof.
  assert (H1 : int_mul (Seller.min_price default_seller) f_1_1 = Ok 158400)
    by (vm_compute; reflexivity).
  assert (H2 : int_mul 150000 (concession (Seller.round default_seller + 1)) = Ok 177000)
    by (vm_compute; reflexivity).
  assert (H3 : 150000 < 158400) by lia.
  assert (H4 : 0 < 150000) by lia.
  split; [exact H1 | split; [exact H3 | split; [exact H4 | split; [exact H2 |]]]].
  destruct (proj1 C2_seller_fallback_rules default_seller 150000 "hello" 158400 H1)
    as (_ & _ & _ & Hc & _).
  destruct (Hc H3 H4 177000 H2) as [_ Hm]. exact Hm.
Defined.

(** The claim as worded fails twice: a floor of 5 makes the threshold
    [int(5.5) = 5], so an offer of 5, below 5 * 1.1, is accepted; and a
    non-positive offer is countered at the asking price, here 140, below the
    floor 1000. *)
Lemma C2_counterexample :
  (let self := {| Seller.product := mangoes; Seller.min_price := 5;
                  Seller.current_price := 251999; Seller.round := 0 |} in
   (exists r, snd (Seller._rule_based_response self 5 "hello") = Ok r
              /\ Seller.r_type r = "accept")
   /\ 10 * 5 < 11 * Seller.min_price self) /\
  (let self := {| Seller.product := mangoes; Seller.min_price := 1000;
                  Seller.current_price := 140; Seller.round := 0 |} in
   exists r, snd (Seller._rule_based_response self 0 "hello") = Ok r
             /\ Seller.r_type r = "counter"
             /\ Seller.r_price r < Seller.min_price self).
Proof.
  split; cbv zeta.
  - split; [|vm_compute; reflexivity].
    vm_compute. eexists; split; reflexivity.
  - vm_compute. eexists; repeat split; reflexivity.
Qed.

(** C5.  The rule-based reply leaves the asking price where it was: a
    counter advances the round counter only, so that after a counter at
    177000 a buyer without an offer is told that the asking price remains
    251,999.  The branch of [handle_buyer_message] that consults the model
    does advance the asking price on a counter. *)
Theorem C5_fallback_counter_keeps_asking_price :
  (forall self offer msg,
      let self' := fst (Seller._rule_based_response self offer msg) in
      Seller.current_price self' = Seller.current_price self /\
      Seller.min_price self' = Seller.min_price self /\
      Seller.product self' = Seller.product self /\
      Seller.round self' = Seller.round self + 1) /\
  (forall generate_content int_of_str repr_container,
      exists self' r,
        Seller.handle_buyer_message false generate_content int_of_str
          repr_container default_seller
          (JObj [("action", JStr "counter"); ("price", JInt 150000);
                 ("message", JStr "I can offer more.")])
        = (self', Ok r)
        /\ Seller.r_type r = "counter" /\ Seller.r_price r = 177000
        /\ Seller.current_price self' = 251999) /\
  (forall generate_content int_of_str repr_container,
      exists self1 r1 self2 r2,
        Seller.handle_buyer_message false generate_content int_of_str
          repr_container default_seller
          (JObj [("action", JStr "counter"); ("price", JInt 150000)])
        = (self1, Ok r1)
        /\ Seller.r_price r1 = 177000
        /\ Seller.handle_buyer_message false generate_content int_of_str
             repr_container self1
             (JObj [("action", JStr "counter"); ("price", JInt 0)])
           = (self2, Ok r2)
        /\ Seller.r_type r2 = "counter" /\ Seller.r_price r2 = 251999
        /\ Seller.r_message r2
           = "My asking price remains ₹251,999. These are premium A grade Alphonso Mangoes.") /\
  (forall int_of_str repr_container,
      exists self' r,
        Seller.handle_buyer_message true
          (fun _ _ _ =>
             Ok (jq "{'type': 'counter', 'price': 177000, 'message': 'My best.'}"))
          int_of_str repr_container default_seller
          (JObj [("action", JStr "counter"); ("price", JInt 150000);
                 ("message", JStr "I can offer more.")])
        = (self', Ok r)
        /\ Seller.r_type r = "counter" /\ Seller.r_price r = 177000
        /\ Seller.current_price self' = 177000).
Proof.
  split; [|split; [|split]].
  - intros self offer msg. cbn. repeat split.
  - intros g i p. eexists; eexists. vm_compute. repeat split.
  - intros g i p. do 4 eexists.
    split; [vm_compute; reflexivity|]. split; [reflexivity|].
    split; [vm_compute; reflexivity|]. repeat split.
  - intros i p. eexists; eexists. vm_compute. repeat split.
Qed.

(** C9 (amended).  The rule-based reply is an accept or a counter, never a
    reject, and for a floor and an offer below [2^53] in absolute value, at
    any round, there is a reply.  Without the model, [handle_buyer_message]
    answers with a reject only to a buyer's own reject; a reject of the
    seller's own comes from the model branch, from the model's answer as
    well as from its error path. *)
Theorem C9_fallback_never_rejects :
  forall use_gemini generate_content int_of_str repr_container self,
    (forall offer msg r,
        snd (Seller._rule_based_response self offer msg) = Ok r ->
        Seller.r_type r <> "reject" /\
        (Seller.r_type r = "accept" \/ Seller.r_type r = "counter")) /\
    (forall offer msg,
        Z.abs (Seller.min_price self) < 2 ^ 53 -> Z.abs offer < 2 ^ 53 ->
        exists r,
          snd (Seller._rule_based_response self offer msg) = Ok r /\
          (Seller.r_type r = "accept" \/ Seller.r_type r = "counter")) /\
    (forall buyer_data self' r,
        Seller.handle_buyer_message use_gemini generate_content int_of_str
          repr_container self buyer_data = (self', Ok r) ->
        Seller.r_type r = "reject" ->
        (exists price message,
            Seller.buyer_fields int_of_str repr_container buyer_data
            = Ok ("reject", price, message))
        \/ use_gemini = true).
Proof.
  intros use_gemini gen ios repr self. split; [|split].
  - intros offer msg r Hr. pose proof (rule_based_type self offer msg r Hr) as [H|H];
      rewrite H; split; auto; discriminate.
  - intros offer msg Hfloor Hoffer.
    destruct (rule_based_total self offer msg Hfloor Hoffer) as (threshold & r & _ & Hr).
    exists r. split; [exact Hr | exact (rule_based_type self offer msg r Hr)].
  - intros buyer_data self' r Hh Hty.
    unfold Seller.handle_buyer_message in Hh.
    destruct (Seller.buyer_fields ios repr buyer_data) as [[[action price] message]|e] eqn:Hf;
      [|discriminate].
    destruct (String.eqb action "accept") eqn:Ha.
    { inversion Hh; subst. discriminate. }
    destruct (String.eqb_spec action "reject") as [->|Hne].
    { left. eauto. }
    destruct use_gemini; [right; reflexivity|].
    exfalso.
    assert (Hs : snd (Seller._rule_based_response self price message) = Ok r)
      by (rewrite Hh; reflexivity).
    destruct (rule_based_type self price message r Hs) as [H|H];
      rewrite H in Hty; discriminate.
Qed.

Lemma C9_fallback_never_rejects_witness :
  snd (Seller._rule_based_response default_seller 150000 "hello")
  = Ok {| Seller.r_type := "counter"; Seller.r_price := 177000;
          Seller.r_message :=
            "I appreciate your interest; I can come down to ₹177,000. Quality costs money.";
          Seller.r_round := 1 |}
  /\ "counter" <> "reject".
Proof.
  assert (H : snd (Seller._rule_based_response default_seller 150000 "hello")
              = Ok {| Seller.r_type := "counter"; Seller.r_price := 177000;
                      Seller.r_message :=
                        "I appreciate your interest; I can come down to ₹177,000. Quality costs money.";
                      Seller.r_round := 1 |})
    by (vm_compute; reflexivity).
  split; [exact H|].
  exact (proj1 (proj1 (C9_fallback_never_rejects false
                         (fun _ _ _ => Raise ValueError)
                         (fun _ => Raise ValueError) (fun _ => EmptyString)
                         default_seller)
                      150000 "hello" _ H)).
Defined.

(** The model's own answer can be a reject: the body of the [try] returns
    it, no exception is raised. *)
Lemma C9_counterexample :
  exists r,
    Seller.gemini_try
      (fun _ _ _ =>
         Ok (jq "{'type': 'reject', 'price': 0, 'message': 'No deal.'}"))
      (fun _ => Raise ValueError) (fun _ => EmptyString)
      default_seller 150000 "I can offer more." = Ok r
    /\ Seller.r_type r = "reject".
Proof. vm_compute. eexists; split; reflexivity. Qed.

(** C10.  A buyer record whose action reads [accept] is confirmed at the
    price it states, 0 when it states none, whatever the seller's floor, and
    the seller's state is left as it was. *)
Theorem C10_accept_confirmed_unconditionally :
  forall use_gemini generate_content int_of_str repr_container self d a,
    dict_get d "action" = Some (JStr a) ->
    lower a = "accept" ->
    (forall p, dict_get d "price" = Some (JInt p) ->
       Seller.handle_buyer_message use_gemini generate_content int_of_str
         repr_container self (JObj d)
       = (self,
          Ok {| Seller.r_type := "deal_confirmed"; Seller.r_price := p;
                Seller.r_message := "Deal confirmed! Pleasure doing business with you.";
                Seller.r_round := Seller.round self |})) /\
    (dict_get d "price" = None ->
       Seller.handle_buyer_message use_gemini generate_content int_of_str
         repr_container self (JObj d)
       = (self,
          Ok {| Seller.r_type := "deal_confirmed"; Seller.r_price := 0;
                Seller.r_message := "Deal confirmed! Pleasure doing business with you.";
                Seller.r_round := Seller.round self |})).
Proof.
  intros use_gemini gen ios repr self d a Ha Hl.
  pose proof (buyer_fields_action ios repr d a Ha (lower_nonempty a Hl)) as Hf.
  split.
  - intros p Hp. unfold Seller.handle_buyer_message.
    rewrite Hf, (price_field_int ios d p Hp). cbn [bind]. rewrite Hl. reflexivity.
  - intros Hp. unfold Seller.handle_buyer_message.
    rewrite Hf, (price_field_absent ios d Hp). cbn [bind]. rewrite Hl. reflexivity.
Qed.

Lemma C10_accept_confirmed_unconditionally_witness :
  dict_get [("action", JStr "Accept"); ("price", JInt 1)] "action" = Some (JStr "Accept")
  /\ lower "Accept" = "accept"
  /\ 1 < Seller.min_price default_seller
  /\ Seller.handle_buyer_message false (fun _ _ _ => Raise ValueError)
       (fun _ => Raise ValueError) (fun _ => EmptyString) default_seller
       (JObj [("action", JStr "Accept"); ("price", JInt 1)])
     = (default_seller,
        Ok {| Seller.r_type := "deal_confirmed"; Seller.r_price := 1;
              Seller.r_message := "Deal confirmed! Pleasure doing business with you.";
              Seller.r_round := 0 |}).
Proof.
  split; [reflexivity | split; [reflexivity | split; [reflexivity |]]].
  exact (proj1 (C10_accept_confirmed_unconditionally false
                  (fun _ _ _ => Raise ValueError) (fun _ => Raise ValueError)
                  (fun _ => EmptyString) default_seller
                  [("action", JStr "Accept"); ("price", JInt 1)] "Accept"
                  eq_refl eq_refl) 1 eq_refl).
Defined.

(* ================================================================== *)
(** * The buyer's fallback policy *)
(* ================================================================== *)

(** C1.  An accept is at a price within the budget and a reject carries the
    price 0, but a counter is not capped by the budget: with the default
    budget 200000 and a seller who stays at 250000, the buyer's fifth counter
    is 209726. *)
Theorem C1_counter_not_capped_by_budget :
  (forall context seller_price msg,
      match Agent.respond_to_seller_offer context seller_price msg with
      | Ok (Agent.ACCEPTED, price, _) => price <= Agent.your_budget context
      | Ok (Agent.REJECTED, price, _) => price = 0
      | _ => True
      end) /\
  (let context :=
     {| Agent.product := Agent.product (Buyer.fresh_context 200000);
        Agent.your_budget := 200000; Agent.current_round := 5;
        Agent.seller_offers := map JInt [250000; 250000; 250000; 250000; 250000];
        Agent.your_offers := map JInt [160000; 171200; 183184; 196006];
        Agent.messages := [] |} in
   Agent.respond_to_seller_offer context 250000 "My best price."
   = Ok (Agent.COUNTER, 209726, "I can offer ₹209,726.")
   /\ Agent.your_budget context < 209726) /\
  (forall ollama_generate,
      exists self,
        Buyer.main_loop false ollama_generate (Buyer.init 200000)
          (repeat (seller_counter 250000) 5) = (self, true)
        /\ map (fun record =>
                  match record with
                  | JObj d => (dict_get d "action", dict_get d "price")
                  | _ => (None, None)
                  end) (Buyer.sent self)
           = map (fun p => (Some (JStr "counter"), Some (JInt p)))
               [160000; 171200; 183184; 196006; 209726]).
Proof.
  split; [|split].
  - intros context seller_price msg.
    unfold Agent.respond_to_seller_offer.
    destruct (Z.leb_spec seller_price (Agent.your_budget context)) as [Hle|Hgt].
    + exact Hle.
    + destruct (mul_int_float _ f_1_5); cbn [bind]; [|exact I].
      destruct (int_gt_float _ _); [reflexivity|].
      destruct (Agent.last_offer_of context); cbn [bind]; [|exact I].
      destruct (int_mul _ f_1_07); cbn [bind]; [|exact I].
      destruct (int_mul _ f_0_8); cbn [bind]; exact I.
  - cbv zeta. split; vm_compute; reflexivity.
  - intros g. eexists. split; vm_compute; reflexivity.
Qed.

(** C3.  The buyer's fallback: an offer within the budget is accepted at
    that offer; one above [budget * 1.5] is rejected with price 0; any other
    is countered at [max(int(last * 1.07), int(budget * 0.8))], at least
    [int(budget * 0.8)], where [last] is the buyer's latest own offer, or
    [int(base_price * 0.65)] when there is none.  For a budget and a latest
    offer below [2^53] in absolute value the policy does return an answer.
    With budget 200000 an offer of 320000 is rejected. *)
Theorem C3_buyer_fallback_rules :
  (forall context seller_price msg,
      (seller_price <= Agent.your_budget context ->
       Agent.respond_to_seller_offer context seller_price msg
       = Ok (Agent.ACCEPTED, seller_price, "That works for me. Deal accepted.")) /\
      (Agent.your_budget context < seller_price ->
       forall limit,
         mul_int_float (Agent.your_budget context) f_1_5 = Ok limit ->
         (int_gt_float seller_price limit = true ->
          Agent.respond_to_seller_offer context seller_price msg
          = Ok (Agent.REJECTED, 0, "Too expensive, I cannot proceed.")) /\
         (int_gt_float seller_price limit = false ->
          forall last raised anchor,
            Agent.last_offer_of context = Ok last ->
            int_mul last f_1_07 = Ok raised ->
            int_mul (Agent.your_budget context) f_0_8 = Ok anchor ->
            anchor <= Z.max raised anchor /\
            exists m,
              Agent.respond_to_seller_offer context seller_price msg
              = Ok (Agent.COUNTER, Z.max raised anchor, m))) /\
      (forall earlier last,
          Agent.your_offers context = (earlier ++ [JInt last])%list ->
          Agent.last_offer_of context = Ok last) /\
      (Agent.your_offers context = [] ->
       Agent.last_offer_of context
       = int_mul (Agent.base_market_price (Agent.product context)) f_0_65) /\
      (forall last,
          Z.abs (Agent.your_budget context) < 2 ^ 53 ->
          Agent.last_offer_of context = Ok last -> Z.abs last < 2 ^ 53 ->
          exists answer,
            Agent.respond_to_seller_offer context seller_price msg = Ok answer)) /\
  Agent.respond_to_seller_offer (Buyer.fresh_context 200000) 320000 "My best price."
  = Ok (Agent.REJECTED, 0, "Too expensive, I cannot proceed.").
Proof.
  split; [|vm_compute; reflexivity].
  intros context seller_price msg. repeat split.
  - intros Hle. unfold Agent.respond_to_seller_offer.
    apply Z.leb_le in Hle. rewrite Hle. reflexivity.
  - intros Hgt. unfold Agent.respond_to_seller_offer.
    apply Z.leb_gt in H. rewrite H, H0. cbn [bind]. rewrite Hgt. reflexivity.
  - apply Z.le_max_r.
  - unfold Agent.respond_to_seller_offer.
    apply Z.leb_gt in H. rewrite H, H0. cbn [bind]. rewrite H1, H2. cbn [bind].
    rewrite H3, H4. cbn [bind]. eexists; reflexivity.
  - intros earlier last Hl. unfold Agent.last_offer_of, Agent.last_opt.
    rewrite Hl, rev_app_distr. reflexivity.
  - intros Hl. unfold Agent.last_offer_of. rewrite Hl. reflexivity.
  - intros last. apply respond_total.
Qed.

Lemma C3_buyer_fallback_rules_witness :
  let context :=
    {| Agent.product := Agent.product (Buyer.fresh_context 200000);
       Agent.your_budget := 200000; Agent.current_round := 2;
       Agent.seller_offers := [JInt 250000; JInt 240000];
       Agent.your_offers := ([] ++ [JInt 160000])%list;
       Agent.messages := [] |} in
  200000 < 240000 /\
  mul_int_float 200000 f_1_5 = Ok (of_Z 300000) /\
  int_gt_float 240000 (of_Z 300000) = false /\
  Agent.last_offer_of context = Ok 160000 /\
  int_mul 160000 f_1_07 = Ok 171200 /\
  int_mul 200000 f_0_8 = Ok 160000 /\
  exists m, Agent.respond_to_seller_offer context 240000 "My best price."
            = Ok (Agent.COUNTER, Z.max 171200 160000, m).
Proof.
  intros context.
  assert (H1 : Agent.your_budget context < 240000) by (cbn; lia).
  assert (H2 : mul_int_float (Agent.your_budget context) f_1_5 = Ok (of_Z 300000))
    by (vm_compute; reflexivity).
  assert (H3 : int_gt_float 240000 (of_Z 300000) = false) by (vm_compute; reflexivity).
  assert (H5 : int_mul 160000 f_1_07 = Ok 171200) by (vm_compute; reflexivity).
  assert (H6 : int_mul (Agent.your_budget context) f_0_8 = Ok 160000)
    by (vm_compute; reflexivity).
  destruct (proj1 C3_buyer_fallback_rules context 240000 "My best price.")
    as (_ & Hrules & Hlast & _).
  assert (H4 : Agent.last_offer_of context = Ok 160000)
    by (exact (Hlast [] 160000 eq_refl)).
  split; [exact H1 | split; [exact H2 | split; [exact H3 | split; [exact H4 |
    split; [exact H5 | split; [exact H6 |]]]]]].
  destruct (Hrules H1 (of_Z 300000) H2) as [_ Hcounter].
  exact (proj2 (Hcounter H3 160000 171200 160000 H4 H5 H6)).
Defined.

(* ================================================================== *)
(** * The buyer's session and the round limit *)
(* ================================================================== *)

(** C4 (amended).  With [MAX_ROUNDS = 10], every offer or counter that
    carries a price and a message is handed to the decision of
    [handle_offer] (in fallback mode the policy [respond_to_seller_offer])
    and answered with the record decided, the round counter going up by
    one.  While the counter stays below 10 the session goes on; once it
    reaches 10 the buyer, having answered, also sends the reject
    [Max rounds reached.], closes the socket and stops, whatever the
    prices.  An offer without a price or a message, or on which the
    decision raises or gives a record without an action, ends the session
    unanswered, its round counted.  In a session the counter never passes
    10. *)
Theorem C4_round_limit_reached_at_max_rounds :
  forall USE_OLLAMA ollama_generate,
    (forall self data seller_data price message response own,
        data <> EmptyString ->
        loads data = Some (JObj seller_data) ->
        Buyer.type_in seller_data ["offer"; "counter"] = true ->
        dict_get seller_data "price" = Some price ->
        dict_get seller_data "message" = Some message ->
        Buyer.decide USE_OLLAMA ollama_generate
          (context_at_offer self price message) price message = Ok response ->
        Buyer.counter_price_of response = Ok own ->
        Buyer.closed self = false ->
        exists self',
          Buyer.handle_offer USE_OLLAMA ollama_generate self seller_data
          = (self', Ok tt) /\
          round_of self' = round_of self + 1 /\
          Buyer.sent self' = (Buyer.sent self ++ [response])%list /\
          (round_of self + 1 < Buyer.MAX_ROUNDS ->
           Buyer.negotiate USE_OLLAMA ollama_generate self data = (self', true)) /\
          (Buyer.MAX_ROUNDS <= round_of self + 1 ->
           exists self'',
             Buyer.negotiate USE_OLLAMA ollama_generate self data = (self'', false) /\
             Buyer.sent self''
             = (Buyer.sent self
                ++ [response;
                    Buyer.action_record "reject" (JInt 0) "Max rounds reached."])%list /\
             Buyer.closed self'' = true /\
             Buyer.negotiation_active self'' = false /\
             round_of self'' = round_of self + 1)) /\
    (forall c price z message,
        Buyer.formatted_price price = Ok z ->
        (forall status counter_price text,
            Agent.respond_to_seller_offer c z (Buyer.message_text message)
            = Ok (status, counter_price, text) ->
            let response :=
              Buyer.action_record (action_of status) (JInt counter_price) text in
            Buyer.decide false ollama_generate c price message = Ok response /\
            exists own, Buyer.counter_price_of response = Ok own) /\
        (exists response,
            Buyer.decide true ollama_generate c price message = Ok response)) /\
    (forall self data seller_data,
        data <> EmptyString ->
        loads data = Some (JObj seller_data) ->
        Buyer.type_in seller_data ["offer"; "counter"] = true ->
        dict_get seller_data "price" = None \/
        dict_get seller_data "message" = None \/
        (exists price message,
            dict_get seller_data "price" = Some price /\
            dict_get seller_data "message" = Some message /\
            ((exists e,
                 Buyer.decide USE_OLLAMA ollama_generate
                   (context_at_offer self price message) price message
                 = Raise e) \/
             (exists response e,
                 Buyer.decide USE_OLLAMA ollama_generate
                   (context_at_offer self price message) price message
                 = Ok response /\
                 Buyer.counter_price_of response = Raise e))) ->
        exists self',
          Buyer.negotiate USE_OLLAMA ollama_generate self data = (self', false) /\
          Buyer.sent self' = Buyer.sent self /\
          Buyer.closed self' = Buyer.closed self /\
          round_of self' = round_of self + 1) /\
    (forall budget incoming,
        round_of (fst (Buyer.main_loop USE_OLLAMA ollama_generate
                         (Buyer.init budget) incoming))
        <= Buyer.MAX_ROUNDS).
Proof.
  intros USE_OLLAMA ollama.
  split; [|split; [|split]];
    [| | |intros budget incoming; apply main_loop_round; reflexivity].
  - intros self data seller_data price message response own
           Hne Hloads Hty Hp Hm Hd Hown Hopen.
    assert (Hdata : String.eqb data EmptyString = false)
      by (apply String.eqb_neq; exact Hne).
    pose proof (handle_offer_decided USE_OLLAMA ollama self seller_data price
                  message Hp Hm) as Hh.
    cbv zeta in Hh. rewrite Hd, Hown in Hh.
    set (c' := match own with
               | Some p => Buyer.record_own_offer (context_at_offer self price message) p
               | None => context_at_offer self price message
               end) in *.
    assert (Hround : Agent.current_round c' = round_of self + 1).
    { unfold c'. destruct own; cbn [Buyer.record_own_offer Agent.current_round];
        apply context_at_offer_round. }
    exists (Buyer.sendall (Buyer.set_context self c') response).
    split; [exact Hh|]. split; [exact Hround|]. split; [reflexivity|].
    assert (Hneg : Buyer.negotiate USE_OLLAMA ollama self data
                   = if Agent.current_round c' >=? Buyer.MAX_ROUNDS
                     then (Buyer.stop (Buyer.sendall (Buyer.set_context self c') response)
                             "Max rounds reached.", false)
                     else (Buyer.sendall (Buyer.set_context self c') response, true)).
    { unfold Buyer.negotiate. rewrite Hdata, Hloads, Hty, Hh. reflexivity. }
    split; intros Hlim; rewrite Hneg.
    + assert (E : (Agent.current_round c' >=? Buyer.MAX_ROUNDS) = false)
        by (rewrite Z.geb_leb; apply Z.leb_gt; lia).
      rewrite E. reflexivity.
    + assert (E : (Agent.current_round c' >=? Buyer.MAX_ROUNDS) = true)
        by (rewrite Z.geb_leb; apply Z.leb_le; lia).
      rewrite E. eexists. split; [reflexivity|].
      unfold Buyer.stop.
      cbn [Buyer.sent Buyer.closed Buyer.negotiation_active Buyer.sendall
           Buyer.set_context].
      rewrite Hopen. rewrite <- List.app_assoc. cbn [app].
      split; [reflexivity|]. split; [reflexivity|]. split; [reflexivity|].
      exact Hround.
  - intros c price z message Hz. split.
    + intros status counter_price text Hr. cbv zeta. unfold Buyer.decide.
      rewrite Hz. cbn [bind]. rewrite Hr. cbn [bind].
      split; [destruct status; reflexivity|].
      destruct status; eexists; reflexivity.
    + unfold Buyer.decide. rewrite Hz. cbn [bind].
      destruct (loads (ollama c price message)); eexists; reflexivity.
  - intros self data seller_data Hne Hloads Hty Hmiss.
    assert (Hdata : String.eqb data EmptyString = false)
      by (apply String.eqb_neq; exact Hne).
    pose proof (handle_offer_round USE_OLLAMA ollama self seller_data) as Hr.
    assert (Hh : exists self' e,
               Buyer.handle_offer USE_OLLAMA ollama self seller_data
               = (self', Raise e) /\
               Buyer.sent self' = Buyer.sent self /\
               Buyer.closed self' = Buyer.closed self).
    { destruct Hmiss as [Hmiss|[Hmiss|(price & message & Hp & Hm & Hfail)]].
      - unfold Buyer.handle_offer. rewrite Hmiss.
        eexists; eexists. split; [reflexivity|]. split; reflexivity.
      - unfold Buyer.handle_offer.
        destruct (dict_get seller_data "price") as [price|]; [rewrite Hmiss|];
          eexists; eexists; (split; [reflexivity|]); split; reflexivity.
      - rewrite (handle_offer_decided USE_OLLAMA ollama self seller_data price
                   message Hp Hm). cbv zeta.
        destruct Hfail as [[e He]|(response & e & Hd & He)].
        + rewrite He. eexists; eexists. split; [reflexivity|]. split; reflexivity.
        + rewrite Hd, He. eexists; eexists. split; [reflexivity|].
          split; reflexivity. }
    destruct Hh as (self' & e & Hh & Hsent & Hclosed).
    rewrite Hh in Hr. cbn [fst] in Hr.
    exists self'. unfold Buyer.negotiate. rewrite Hdata, Hloads, Hty, Hh.
    split; [reflexivity|]. split; [exact Hsent|]. split; [exact Hclosed | exact Hr].
Qed.

Lemma C4_round_limit_reached_at_max_rounds_witness :
  let data := seller_counter 250000 in
  let seller_data :=
    [("type", JStr "counter"); ("price", JInt 250000);
     ("message", JStr "My best price."); ("round", JInt 1)] in
  let self := Buyer.init 200000 in
  let response :=
    Buyer.action_record "counter" (JInt 160000) "I can offer ₹160,000." in
  exists self',
    Buyer.negotiate false steady_model self data = (self', true) /\
    Buyer.sent self' = [response] /\ round_of self' = 1.
Proof.
  intros data seller_data self response.
  destruct (proj1 (C4_round_limit_reached_at_max_rounds false steady_model)
              self data seller_data (JInt 250000) (JStr "My best price.")
              response (Some (JInt 160000)))
    as (self' & _ & Hround & Hsent & Hgo & _);
    try (vm_compute; reflexivity); try (vm_compute; discriminate).
  exists self'. split; [apply Hgo; vm_compute; reflexivity|].
  split; [exact Hsent | exact Hround].
Defined.

(** The tenth offer does not exceed [MAX_ROUNDS], and yet the session is
    ended on it: after nine rounds the buyer answers the tenth counter and
    then sends the reject of the round limit. *)
Lemma C4_counterexample :
  exists self9 self10,
    Buyer.main_loop true steady_model (Buyer.init 200000)
      (repeat (seller_counter 250000) 9) = (self9, true)
    /\ round_of self9 = 9
    /\ Buyer.negotiate true steady_model self9 (seller_counter 250000)
       = (self10, false)
    /\ round_of self10 = 10
    /\ round_of self10 <= Buyer.MAX_ROUNDS
    /\ Buyer.sent self10
       = (Buyer.sent self9
          ++ [Buyer.action_record "counter" (JInt 150000) "My offer.";
              Buyer.action_record "reject" (JInt 0) "Max rounds reached."])%list
    /\ Buyer.closed self10 = true.
Proof.
  eexists. eexists.
  split; [vm_compute; reflexivity|].
  split; [vm_compute; reflexivity|].
  split; [vm_compute; reflexivity|].
  split; [vm_compute; reflexivity|].
  split; [vm_compute; discriminate|].
  split; vm_compute; reflexivity.
Qed.

(* ================================================================== *)
(** * The message codec *)
(* ================================================================== *)

(** C6 (amended).  The extractor starts at the first opening brace, follows
    the nesting depth and returns the block at which it is back to zero, and
    finds nothing when there is no opening brace or the first one is never
    closed.  A record whose braces balance at its last character and not
    before, put after a prefix without an opening brace and before any
    suffix, is extracted whole and decodes as the bare record does.  The
    seller's receive step decodes the bytes as UTF-8 first and raises on
    bytes that are not; it then tries the whole text, and decodes the record
    out of its noise when the whole is not itself JSON (on a text holding
    nothing that reads as a float).  The scenario's text decodes to the
    record with price 150000 and message [ok], which both decoders of the
    seller read as a counter. *)
Theorem C6_embedded_record_decodes :
  (forall p r s,
      find lbrace p = None ->
      closes_at_end r ->
      extract_first_json_block (p ++ r ++ s) = Some r /\
      safe_json_loads_from_model_output (p ++ r ++ s)
      = safe_json_loads_from_model_output r /\
      safe_json_loads_from_model_output r = loads r /\
      (forall raw,
          valid_utf8 raw = true -> float_free raw = true ->
          strip raw = p ++ r ++ s -> loads (strip raw) = None ->
          Seller.decode_received raw = Ok (loads r))) /\
  (forall raw,
      (valid_utf8 raw = false ->
       Seller.decode_received raw = Raise UnicodeDecodeError) /\
      (forall v, valid_utf8 raw = true -> loads (strip raw) = Some v ->
                 Seller.decode_received raw = Ok (Some v))) /\
  (forall p t,
      find lbrace p = None ->
      t = EmptyString \/ ((exists t', t = String lbrace t') /\ never_closes t) ->
      extract_first_json_block (p ++ t) = None /\
      safe_json_loads_from_model_output (p ++ t) = None) /\
  (Seller.decode_received scenario_text = Ok (Some scenario_data) /\
   safe_json_loads_from_model_output scenario_text = Some scenario_data /\
   forall int_of_str repr_container,
     Seller.sanitize int_of_str repr_container scenario_data
     = Ok ("counter", 150000, "ok") /\
     Seller.buyer_fields int_of_str repr_container scenario_data
     = Ok (EmptyString, 150000, "ok")).
Proof.
  split; [|split; [|split]].
  - intros p r s Hp Hr.
    pose proof (extract_embedded p r s Hp Hr) as Hemb.
    pose proof (extract_embedded EmptyString r EmptyString eq_refl Hr) as Hbare.
    cbn [append] in Hbare. rewrite append_nil_r in Hbare.
    split; [exact Hemb|].
    unfold safe_json_loads_from_model_output. rewrite Hemb, Hbare.
    split; [reflexivity|]. split; [reflexivity|].
    intros raw Hutf _ Hraw Hnone. rewrite (decode_received_text raw Hutf).
    rewrite Hnone, Hraw, Hemb. reflexivity.
  - intros raw. split.
    + intros H. unfold Seller.decode_received. rewrite H. reflexivity.
    + intros v Hutf Hv. rewrite (decode_received_text raw Hutf), Hv. reflexivity.
  - intros p t Hp Ht. pose proof (extract_none p t Hp Ht) as Hn.
    split; [exact Hn|]. unfold safe_json_loads_from_model_output.
    rewrite Hn. reflexivity.
  - split; [vm_compute; reflexivity|]. split; [vm_compute; reflexivity|].
    intros ios repr. split; vm_compute; reflexivity.
Qed.

Lemma C6_embedded_record_decodes_witness :
  find lbrace "blah blah " = None /\
  closes_at_end scenario_record /\
  extract_first_json_block ("blah blah " ++ scenario_record ++ " trailing junk")
  = Some scenario_record /\
  valid_utf8 scenario_text = true /\ float_free scenario_text = true /\
  loads (strip scenario_text) = None /\
  Seller.decode_received scenario_text = Ok (loads scenario_record).
Proof.
  assert (H1 : find lbrace "blah blah " = None) by (vm_compute; reflexivity).
  assert (H2 : closes_at_end scenario_record)
    by (apply closes_at_endb_correct; vm_compute; reflexivity).
  assert (H3 : valid_utf8 scenario_text = true) by (vm_compute; reflexivity).
  assert (H4 : float_free scenario_text = true) by (vm_compute; reflexivity).
  assert (H5 : loads (strip scenario_text) = None) by (vm_compute; reflexivity).
  destruct (proj1 C6_embedded_record_decodes "blah blah " scenario_record
              " trailing junk" H1 H2) as (Hext & _ & _ & Hrecv).
  split; [exact H1 | split; [exact H2 | split; [exact Hext |]]].
  split; [exact H3 | split; [exact H4 | split; [exact H5 |]]].
  apply Hrecv; [exact H3 | exact H4 | vm_compute; reflexivity | exact H5].
Defined.

(** Noise with a brace of its own in front of the record: the block found
    is the noise's, and the record is lost.  Noise that makes the whole text
    JSON: the seller's receive step reads the whole, a list, not the
    record. *)
Lemma C6_counterexample :
  let text := "note {draft} " ++ scenario_record in
  safe_json_loads_from_model_output scenario_record = Some scenario_data /\
  safe_json_loads_from_model_output text = None /\
  Seller.decode_received scenario_record = Ok (Some scenario_data) /\
  Seller.decode_received text = Ok None /\
  Seller.decode_received ("[" ++ scenario_record ++ "]")
  = Ok (Some (JArr [scenario_data])).
Proof. cbv zeta. repeat split; vm_compute; reflexivity. Qed.





(** C8.  What [json.dumps] writes, [json.loads] reads back: for every value
    whose dicts have distinct keys, and so for every reply of the seller,
    whose type, price, message and round the buyer finds again in the record
    it decodes. *)
Theorem C8_codec_round_trip :
  (forall v, well_formed v = true -> loads (dumps v) = Some v) /\
  (forall reply,
      exists seller_data,
        loads (Seller.encode_reply reply) = Some (JObj seller_data)
        /\ dict_get seller_data "type" = Some (JStr (Seller.r_type reply))
        /\ dict_get seller_data "price" = Some (JInt (Seller.r_price reply))
        /\ dict_get seller_data "message" = Some (JStr (Seller.r_message reply))
        /\ dict_get seller_data "round" = Some (JInt (Seller.r_round reply))).
Proof.
  split; [exact loads_dumps|].
  intros reply. eexists. split.
  - unfold Seller.encode_reply. apply loads_dumps. reflexivity.
  - repeat split.
Qed.

Lemma C8_codec_round_trip_witness :
  let v := Buyer.action_record "counter" (JInt 160000) "I can offer ₹160,000." in
  well_formed v = true /\ loads (dumps v) = Some v.
Proof.
  intros v.
  assert (H : well_formed v = true) by reflexivity.
  split; [exact H|].
  exact (proj1 C8_codec_round_trip v H).
Defined.
(* ================================================================== *)
(** * Further properties: the seller's helpers *)
(* ================================================================== *)

(** X1.  [extract_first_json_block] returns a block exactly when the text
    is a prefix without an opening brace, then the block, then anything,
    where the block opens with a brace and its braces balance at its last
    character and not before. *)
Theorem extract_block_characterised : forall text b,
  extract_first_json_block text = Some b <->
  exists p s, text = p ++ b ++ s /\ find lbrace p = None /\ closes_at_end b.
Proof.
  intros text b. split.
  - intros H. destruct (extract_sound text b H) as (p & s & H1 & H2 & H3 & _).
    exists p, s. auto.
  - intros (p & s & -> & Hp & Hb). apply extract_embedded; assumption.
Qed.

(** X2.  A block the extractor returns starts with an opening brace, ends
    with a closing one, is no longer than the text, and is what the
    extractor returns again when run on the block itself. *)
Theorem extract_block_idempotent : forall text b,
  extract_first_json_block text = Some b ->
  extract_first_json_block b = Some b /\
  (exists body, b = String lbrace body) /\
  (exists body, b = body ++ String rbrace EmptyString) /\
  (String.length b <= String.length text)%nat.
Proof.
  intros text b H.
  destruct (extract_sound text b H) as (p & s & -> & Hp & Hb & Hend).
  split.
  - pose proof (extract_embedded EmptyString b EmptyString eq_refl Hb) as E.
    cbn [append] in E. rewrite append_nil_r in E. exact E.
  - split; [exact (proj1 Hb)|]. split; [exact Hend|].
    rewrite !length_append. lia.
Qed.

Lemma extract_block_idempotent_witness :
  extract_first_json_block scenario_record = Some scenario_record /\
  (exists body, scenario_record = String lbrace body) /\
  (exists body, scenario_record = body ++ String rbrace EmptyString) /\
  (String.length scenario_record <= String.length scenario_text)%nat.
Proof.
  apply (extract_block_idempotent scenario_text scenario_record).
  vm_compute. reflexivity.
Defined.

(** X3.  [safe_json_loads_from_model_output] returns a dict or nothing: a
    block starts with an opening brace, and a text that starts with one
    decodes to a dict if it decodes at all.  A text without an opening brace
    gives nothing. *)
Theorem model_output_decodes_to_dict : forall raw,
  (forall v, safe_json_loads_from_model_output raw = Some v -> exists d, v = JObj d) /\
  (find lbrace raw = None -> safe_json_loads_from_model_output raw = None).
Proof.
  intros raw. unfold safe_json_loads_from_model_output. split.
  - intros v.
    destruct (extract_first_json_block raw) as [b|] eqn:E; [|discriminate].
    destruct (extract_sound raw b E) as (_ & _ & _ & _ & ([t ->] & _) & _).
    apply loads_brace_obj.
  - intros Hnone. unfold extract_first_json_block.
    destruct (String.eqb raw EmptyString); [reflexivity|].
    rewrite Hnone. reflexivity.
Qed.

Lemma model_output_decodes_to_dict_witness :
  (exists d, scenario_data = JObj d) /\
  safe_json_loads_from_model_output "no record here" = None.
Proof.
  split.
  - apply (proj1 (model_output_decodes_to_dict scenario_text) scenario_data).
    vm_compute. reflexivity.
  - apply (proj2 (model_output_decodes_to_dict "no record here")).
    vm_compute. reflexivity.
Defined.
(* ================================================================== *)
(** * Further properties: the seller's replies *)
(* ================================================================== *)

(** X4.  For an answer of the model that holds nothing that reads as a
    float, [_gemini_generate] returns a counter, an accept or a reject
    stamped with the seller's round, and a counter or an accept is never
    priced below the floor.  When the call fails or no JSON is found in the
    answer, the reply is the fixed reject at price 0. *)
Theorem gemini_reply_respects_floor :
  forall generate_content int_of_str repr_container self buyer_offer buyer_message,
    (forall raw, generate_content self buyer_offer buyer_message = Ok raw ->
                 float_free raw = true) ->
    let r := Seller._gemini_generate generate_content int_of_str repr_container
               self buyer_offer buyer_message in
    let unable :=
      {| Seller.r_type := "reject"; Seller.r_price := 0;
         Seller.r_message :=
           "I'm unable to negotiate at this moment. Please try again later.";
         Seller.r_round := Seller.round self |} in
    (Seller.r_type r = "counter" \/ Seller.r_type r = "accept"
     \/ Seller.r_type r = "reject") /\
    (Seller.r_type r <> "reject" -> Seller.min_price self <= Seller.r_price r) /\
    Seller.r_round r = Seller.round self /\
    (forall e, generate_content self buyer_offer buyer_message = Raise e ->
               r = unable) /\
    (forall raw, generate_content self buyer_offer buyer_message = Ok raw ->
                 safe_json_loads_from_model_output (strip raw) = None ->
                 r = unable).
Proof.
  intros gc ios rc self offer msg _ r unable.
  destruct (gemini_reply gc ios rc self offer msg) as (H1 & H2 & H3).
  split; [exact H1|]. split; [exact H2|]. split; [exact H3|].
  subst r unable. unfold Seller._gemini_generate, Seller.gemini_try. split.
  - intros e He. rewrite He. reflexivity.
  - intros raw Hraw Hnone. rewrite Hraw. cbn [bind]. rewrite Hnone. reflexivity.
Qed.

Lemma gemini_reply_respects_floor_witness :
  let answer := jq "{'type': 'counter', 'price': 100000, 'message': 'Take it.'}" in
  let r := Seller._gemini_generate (fun _ _ _ => Ok answer)
             (fun _ => Raise ValueError) (fun _ => EmptyString)
             default_seller 150000 "I can offer more." in
  float_free answer = true /\
  Seller.r_type r = "counter" /\
  Seller.min_price default_seller <= Seller.r_price r.
Proof.
  intros answer r.
  assert (Hfree : float_free answer = true) by (vm_compute; reflexivity).
  assert (Htype : Seller.r_type r = "counter") by (vm_compute; reflexivity).
  split; [exact Hfree | split; [exact Htype |]].
  destruct (gemini_reply_respects_floor (fun _ _ _ => Ok answer)
              (fun _ => Raise ValueError) (fun _ => EmptyString)
              default_seller 150000 "I can offer more.") as (_ & Hfloor & _).
  - intros raw H. inversion H; subst raw. exact Hfree.
  - apply Hfloor. fold r. rewrite Htype. discriminate.
Defined.

(** X5.  With the model in use, a buyer record that is neither an accept
    nor a reject advances the round by one and is answered by the model
    branch at that round; a counter at a price other than 0 becomes the
    asking price, and any other reply leaves the asking price as it was. *)
Theorem gemini_counter_moves_asking_price :
  forall generate_content int_of_str repr_container self buyer_data
         action price message,
    Seller.buyer_fields int_of_str repr_container buyer_data
    = Ok (action, price, message) ->
    action <> "accept" -> action <> "reject" ->
    let r := Seller._gemini_generate generate_content int_of_str repr_container
               (Seller.set_round self (Seller.round self + 1)) price message in
    exists self',
      Seller.handle_buyer_message true generate_content int_of_str repr_container
        self buyer_data = (self', Ok r) /\
      Seller.round self' = Seller.round self + 1 /\
      Seller.r_round r = Seller.round self + 1 /\
      (Seller.r_type r = "counter" -> Seller.r_price r <> 0 ->
       Seller.current_price self' = Seller.r_price r) /\
      (Seller.r_type r <> "counter" \/ Seller.r_price r = 0 ->
       Seller.current_price self' = Seller.current_price self).
Proof.
  intros gc ios rc self buyer_data action price message Hf Ha Hr r.
  unfold Seller.handle_buyer_message. rewrite Hf.
  apply String.eqb_neq in Ha, Hr. rewrite Ha, Hr. cbv zeta. fold r.
  destruct (gemini_reply gc ios rc (Seller.set_round self (Seller.round self + 1))
              price message) as (_ & Hfloor & Hround).
  fold r in Hfloor, Hround. cbn [Seller.round Seller.min_price Seller.set_round] in *.
  eexists. split; [reflexivity|].
  destruct (String.eqb_spec (Seller.r_type r) "counter") as [Ht|Ht];
    destruct (Z.eqb_spec (Seller.r_price r) 0) as [Hp|Hp]; cbn [andb negb];
    cbn [Seller.round Seller.current_price Seller.set_round Seller.set_current_price];
    (split; [reflexivity|]); (split; [exact Hround|]); split;
    try (intros; congruence); try (intros [?|?]; congruence); try reflexivity.
  intros _ _. assert (Seller.r_type r <> "reject") by (rewrite Ht; discriminate).
  specialize (Hfloor H). lia.
Qed.

Lemma gemini_counter_moves_asking_price_witness :
  exists self',
    Seller.handle_buyer_message true
      (fun _ _ _ => Ok (jq "{'type': 'counter', 'price': 177000, 'message': 'My best.'}"))
      (fun _ => Raise ValueError) (fun _ => EmptyString) default_seller
      (JObj [("action", JStr "counter"); ("price", JInt 150000)])
    = (self',
       Ok {| Seller.r_type := "counter"; Seller.r_price := 177000;
             Seller.r_message := "My best."; Seller.r_round := 1 |}) /\
    Seller.current_price self' = 177000.
Proof.
  destruct (gemini_counter_moves_asking_price
              (fun _ _ _ => Ok (jq "{'type': 'counter', 'price': 177000, 'message': 'My best.'}"))
              (fun _ => Raise ValueError) (fun _ => EmptyString) default_seller
              (JObj [("action", JStr "counter"); ("price", JInt 150000)])
              "counter" 150000 EmptyString eq_refl
              ltac:(discriminate) ltac:(discriminate))
    as (self' & Hh & _ & _ & Hprice & _).
  exists self'. split; [exact Hh|].
  apply Hprice; [reflexivity | discriminate].
Defined.

(** X6.  A buyer record whose action is given as something other than a
    string (and is not empty), or whose price is a list or a dict that is
    not empty, makes [handle_buyer_message] raise, and [run] then leaves its
    loop: nothing is sent for it and no later message is read. *)
Theorem malformed_record_ends_session :
  forall use_gemini generate_content int_of_str repr_container self d,
    let handle := Seller.handle_buyer_message use_gemini generate_content
                    int_of_str repr_container in
    let loop := Session.negotiation_loop use_gemini generate_content
                  int_of_str repr_container in
    (forall v, dict_get d "action" = Some v -> truthy v = true ->
               (forall s, v <> JStr s) ->
               handle self (JObj d) = (self, Raise AttributeError)) /\
    (forall a v, dict_get d "action" = Some (JStr a) -> a <> EmptyString ->
                 dict_get d "price" = Some v -> truthy v = true ->
                 (exists l, v = JArr l) \/ (exists o, v = JObj o) ->
                 handle self (JObj d) = (self, Raise TypeError)) /\
    (forall e raw rest,
        handle self (JObj d) = (self, Raise e) ->
        raw <> EmptyString -> Seller.decode_received raw = Ok (Some (JObj d)) ->
        loop self (raw :: rest) = (self, [])).
Proof.
  intros ug gc ios rc self d handle loop. subst handle loop. split; [|split].
  - intros v Hv Ht Hs. unfold Seller.handle_buyer_message, Seller.buyer_fields.
    unfold dict_get_default at 1. rewrite Hv. unfold py_or at 2. rewrite Ht.
    unfold py_or at 1. rewrite Ht.
    destruct v; try reflexivity. exfalso. exact (Hs _ eq_refl).
  - intros a v Ha Hne Hv Ht Hshape.
    unfold Seller.handle_buyer_message.
    rewrite (buyer_fields_action ios rc d a Ha).
    2:{ destruct a; [congruence | reflexivity]. }
    unfold dict_get_default at 1. rewrite Hv. unfold py_or at 1. rewrite Ht.
    destruct Hshape as [[l ->]|[o ->]]; reflexivity.
  - intros e raw rest Hh Hraw Hdec. cbn [Session.negotiation_loop].
    unfold Seller.serve. apply String.eqb_neq in Hraw. rewrite Hraw, Hdec, Hh.
    reflexivity.
Qed.

Lemma malformed_record_ends_session_witness :
  Session.negotiation_loop false (fun _ _ _ => Raise ValueError)
    (fun _ => Raise ValueError) (fun _ => EmptyString) default_seller
    [jq "{'action': 7, 'price': 150000}"; jq "{'action': 'counter', 'price': 150000}"]
  = (default_seller, []).
Proof.
  pose (d := [("action", JInt 7); ("price", JInt 150000)]).
  pose proof (malformed_record_ends_session false (fun _ _ _ => Raise ValueError)
                (fun _ => Raise ValueError) (fun _ => EmptyString) default_seller d)
    as (Haction & _ & Hloop).
  apply (Hloop AttributeError).
  - apply (Haction (JInt 7)); [reflexivity | reflexivity | discriminate].
  - discriminate.
  - vm_compute. reflexivity.
Defined.
(* ================================================================== *)
(** * Further properties: the seller's session and prices *)
(* ================================================================== *)

(** X7.  [run] first sends the opening offer, then at most one reply for
    each text it receives.  Every text it sends decodes to a record with a
    type, and a reply of a final type ([deal_confirmed], [accept],
    [reject]) is the last thing sent. *)
Theorem run_final_reply_is_last :
  forall use_gemini generate_content int_of_str repr_container self incoming,
    let wires := snd (Session.run use_gemini generate_content int_of_str
                        repr_container self incoming) in
    (exists replies,
        wires = Seller.encode_reply (Seller.opening_msg self) :: replies /\
        (List.length replies <= List.length incoming)%nat) /\
    wire_type (Seller.encode_reply (Seller.opening_msg self)) = Some "offer" /\
    forall i wire,
      nth_error wires i = Some wire ->
      exists t, wire_type wire = Some t /\
                ((S i < List.length wires)%nat -> is_final t = false).
Proof.
  intros ug gc ios rc self incoming. unfold Session.run.
  pose proof (loop_wires ug gc ios rc incoming self) as H. cbv zeta in H.
  destruct (Session.negotiation_loop ug gc ios rc self incoming) as [self' replies].
  cbn [snd] in H |- *. destruct H as [Hlen Hall].
  split; [exists replies; split; [reflexivity | exact Hlen]|].
  split; [apply wire_type_reply|].
  intros [|i] wire H.
  - inversion H; subst wire. exists "offer".
    split; [apply wire_type_reply | reflexivity].
  - destruct (Hall i wire H) as (t & Ht & Hlast).
    exists t. split; [exact Ht|]. cbn [List.length]. intros Hi. apply Hlast. lia.
Qed.

Lemma run_final_reply_is_last_witness :
  exists t,
    wire_type (Seller.encode_reply (Seller.opening_msg default_seller)) = Some t /\
    ((1 < 2)%nat -> is_final t = false).
Proof.
  pose proof (run_final_reply_is_last false (fun _ _ _ => Raise ValueError)
                (fun _ => Raise ValueError) (fun _ => EmptyString) default_seller
                [jq "{'action': 'reject', 'price': 0, 'message': 'No.'}"])
    as (_ & _ & H).
  apply (H 0%nat). reflexivity.
Defined.

(** X8.  Over a whole run the seller's product and floor never change, the
    round counter never goes back and grows by one at most for each text
    received, an asking price at or above the floor stays at or above it,
    and without the model the asking price is at the end what it was at the
    start. *)
Theorem run_keeps_product_and_floor :
  forall use_gemini generate_content int_of_str repr_container self incoming,
    let self' := fst (Session.run use_gemini generate_content int_of_str
                        repr_container self incoming) in
    Seller.product self' = Seller.product self /\
    Seller.min_price self' = Seller.min_price self /\
    Seller.round self <= Seller.round self'
      <= Seller.round self + Z.of_nat (List.length incoming) /\
    (Seller.min_price self <= Seller.current_price self ->
     Seller.min_price self' <= Seller.current_price self') /\
    (use_gemini = false ->
     Seller.current_price self' = Seller.current_price self).
Proof.
  intros ug gc ios rc self incoming. unfold Session.run.
  pose proof (loop_frame ug gc ios rc incoming self) as H. cbv zeta in H.
  destruct (Session.negotiation_loop ug gc ios rc self incoming) as [self' replies].
  exact H.
Qed.

Lemma run_keeps_product_and_floor_witness :
  Seller.min_price
    (fst (Session.run false (fun _ _ _ => Raise ValueError)
            (fun _ => Raise ValueError) (fun _ => EmptyString) default_seller
            [jq "{'action': 'counter', 'price': 150000}"]))
  <= Seller.current_price
       (fst (Session.run false (fun _ _ _ => Raise ValueError)
               (fun _ => Raise ValueError) (fun _ => EmptyString) default_seller
               [jq "{'action': 'counter', 'price': 150000}"])).
Proof.
  apply (run_keeps_product_and_floor false (fun _ _ _ => Raise ValueError)
           (fun _ => Raise ValueError) (fun _ => EmptyString) default_seller
           [jq "{'action': 'counter', 'price': 150000}"]).
  cbn. lia.
Defined.

(** X9.  [SellerServer.__init__] starts the asking price at
    [int(base_market_price * 1.4)]: for a market price from 0 to below
    [2^53] the seller is built, its round is 0, and its asking price is at
    least the market price, and above it from a market price of 3 on. *)
Theorem asking_price_starts_above_market :
  forall p min_price,
    0 <= Seller.base_market_price p < 2 ^ 53 ->
    exists self,
      Seller.init p min_price = Ok self /\
      Seller.product self = p /\ Seller.min_price self = min_price /\
      Seller.round self = 0 /\
      Seller.base_market_price p <= Seller.current_price self /\
      (3 <= Seller.base_market_price p ->
       Seller.base_market_price p < Seller.current_price self).
Proof.
  intros p floor Hm. unfold Seller.init.
  destruct literals_above_one as (_ & _ & _ & _ & _ & _ & H14).
  destruct (int_mul_above _ _ H14 Hm) as (cp & Hcp & Hge).
  rewrite Hcp. cbn [bind]. eexists. split; [reflexivity|].
  cbn [Seller.product Seller.min_price Seller.round Seller.current_price].
  repeat split; try assumption.
  intros H3. destruct literals_bits as (_ & _ & _ & _ & _ & _ & _ & _ & E14).
  rewrite E14 in Hcp.
  destruct (int_mul_bounds (Seller.base_market_price p) 0x16666666666666 (-52)
              ltac:(lia) ltac:(lia) ltac:(lia)) as (cp' & Hcp' & Hlo & _).
  rewrite Hcp in Hcp'. inversion Hcp'; subst cp'.
  change (2 ^ (- -52) * 2 ^ 52) with (2 ^ 104) in Hlo.
  assert (K : 139 * 2 ^ 104 <= 100 * (Z.pos 0x16666666666666 * (2 ^ 52 - 1)))
    by (apply Z.leb_le; vm_compute; reflexivity).
  assert (HT : 0 < 2 ^ 104) by (apply Z.pow_pos_nonneg; lia).
  set (T := 2 ^ 104) in *. set (A := Z.pos 0x16666666666666 * (2 ^ 52 - 1)) in *.
  rewrite <- Z.mul_assoc in Hlo. fold A in Hlo. clearbody T A. nia.
Qed.

Lemma asking_price_starts_above_market_witness :
  exists self,
    Seller.init mangoes 144000 = Ok self /\
    Seller.base_market_price mangoes < Seller.current_price self.
Proof.
  destruct (asking_price_starts_above_market mangoes 144000)
    as (self & Hinit & _ & _ & _ & _ & Hgt);
    [unfold mangoes, Seller.MARKET_PRICE; cbn [Seller.base_market_price]; lia|].
  exists self. split; [exact Hinit|]. apply Hgt.
  unfold mangoes, Seller.MARKET_PRICE; cbn [Seller.base_market_price]; lia.
Defined.

(** X10.  The rule-based seller never replies below its floor or below the
    buyer's offer: for a floor from 0 to below [2^53], an offer below
    [2^53] in absolute value and an asking price at or above the floor,
    there is a reply, and its price, accepted or countered, is at least the
    floor and at least the offer. *)
Theorem rule_based_never_below_floor_or_offer :
  forall self offer msg,
    0 <= Seller.min_price self < 2 ^ 53 ->
    Z.abs offer < 2 ^ 53 ->
    Seller.min_price self <= Seller.current_price self ->
    exists r,
      snd (Seller._rule_based_response self offer msg) = Ok r /\
      Seller.min_price self <= Seller.r_price r /\
      offer <= Seller.r_price r.
Proof.
  intros self offer msg Hfloor Hoffer Hask.
  destruct literals_above_one as (H11 & _ & _ & H105 & H112 & H118 & _).
  destruct (int_mul_above _ _ H11 Hfloor) as (thr & Hthr & Hge).
  destruct (rule_based_cases self offer msg thr Hthr) as (Hacc & Hzero & Hconc).
  destruct (Z.le_gt_cases thr offer) as [H1|H1].
  { destruct (Hacc H1) as [m ->]. eexists. split; [reflexivity|].
    cbn [Seller.r_price]. lia. }
  destruct (Z.le_gt_cases offer 0) as [H2|H2].
  { destruct (Hzero H1 H2) as [m ->]. eexists. split; [reflexivity|].
    cbn [Seller.r_price]. lia. }
  assert (Hc : above_one (concession (Seller.round self + 1))).
  { unfold concession. destruct (_ >=? 8); [exact H105|].
    destruct (_ >=? 6); [exact H112 | exact H118]. }
  destruct (int_mul_above offer _ Hc ltac:(lia)) as (p & Hp & Hpge).
  destruct (Hconc H1 H2 p Hp) as [m ->]. eexists. split; [reflexivity|].
  cbn [Seller.r_price]. lia.
Qed.

Lemma rule_based_never_below_floor_or_offer_witness :
  exists r,
    snd (Seller._rule_based_response default_seller 150000 "I can offer more.") = Ok r /\
    Seller.min_price default_seller <= Seller.r_price r /\
    150000 <= Seller.r_price r.
Proof.
  apply (rule_based_never_below_floor_or_offer default_seller 150000
           "I can offer more."); cbn; lia.
Defined.
(** X11.  With a positive floor below [2^52], a counter the rule-based
    seller makes to a positive offer lies between the floor and thirteen
    tenths of the floor, at every round. *)
Theorem rule_based_counter_near_floor :
  forall self offer msg r,
    0 < Seller.min_price self < 2 ^ 52 ->
    0 < offer ->
    snd (Seller._rule_based_response self offer msg) = Ok r ->
    Seller.r_type r = "counter" ->
    Seller.min_price self <= Seller.r_price r /\
    10 * Seller.r_price r <= 13 * Seller.min_price self.
Proof.
  intros self offer msg r Hfloor Hoffer Hr Htype.
  destruct literals_plain as (H11 & _).
  destruct (int_mul_defined (Seller.min_price self) f_1_1 ltac:(lia) H11)
    as [thr Hthr].
  destruct (rule_based_cases self offer msg thr Hthr) as (Hacc & _ & Hconc).
  destruct (Z.le_gt_cases thr offer) as [H1|H1].
  { destruct (Hacc H1) as [m Hm]. rewrite Hm in Hr. inversion Hr; subst r.
    discriminate Htype. }
  assert (Hoff53 : Z.abs offer < 2 ^ 53).
  { destruct literals_bits as (E11 & _). rewrite E11 in Hthr.
    destruct (int_mul_bounds (Seller.min_price self) 0x1199999999999A (-52)
                ltac:(lia) ltac:(lia) ltac:(lia)) as (thr' & Hthr' & _ & Hhi).
    rewrite Hthr in Hthr'. inversion Hthr'; subst thr'.
    change (2 ^ (- -52) * 2 ^ 52) with (2 ^ 104) in Hhi.
    rewrite <- Z.mul_assoc in Hhi.
    assert (K11 : Z.pos 0x1199999999999A * (2 ^ 52 + 1) <= 2 * 2 ^ 104)
      by (apply Z.leb_le; vm_compute; reflexivity).
    assert (HT : 0 < 2 ^ 104) by (apply Z.pow_pos_nonneg; lia).
    assert (thr * 2 ^ 104 <= Seller.min_price self * (2 * 2 ^ 104)).
    { eapply Z.le_trans; [exact Hhi|]. apply Z.mul_le_mono_nonneg_l; lia. }
    change (2 ^ 53) with (2 * 2 ^ 52). nia. }
  assert (Hplain : plain_literal (concession (Seller.round self + 1))).
  { destruct literals_plain as (_ & _ & _ & _ & _ & H105 & H112 & H118 & _).
    unfold concession. destruct (_ >=? 8); [exact H105|].
    destruct (_ >=? 6); [exact H112 | exact H118]. }
  destruct (int_mul_defined offer _ Hoff53 Hplain) as [p Hp].
  destruct (Hconc H1 Hoffer p Hp) as [m Hm]. rewrite Hm in Hr.
  inversion Hr; subst r. cbn [Seller.r_price].
  pose proof (concession_near_floor _ _ _ _ _ Hfloor (conj Hoffer H1) Hthr Hp).
  lia.
Qed.

Lemma rule_based_counter_near_floor_witness :
  Seller.min_price default_seller <= 177000 /\
  10 * 177000 <= 13 * Seller.min_price default_seller.
Proof.
  apply (rule_based_counter_near_floor default_seller 150000 "I can offer more."
           {| Seller.r_type := "counter"; Seller.r_price := 177000;
              Seller.r_message :=
                "I appreciate your interest; I can come down to ₹177,000. Quality costs money.";
              Seller.r_round := 1 |}).
  - cbn. lia.
  - lia.
  - vm_compute. reflexivity.
  - reflexivity.
Defined.
(* ================================================================== *)
(** * Further properties: the buyer's fallback policy *)
(* ================================================================== *)

(** X12.  A counter of the buyer's fallback never goes back on the buyer's
    own last offer: for a budget and a last offer from 0 to below [2^53],
    the counter is at least the last offer (the opening anchor
    [int(base_price * 0.65)] when there is none yet) and at least
    [int(budget * 0.8)], which is itself within the budget. *)
Theorem buyer_counter_never_decreases :
  forall context seller_price msg last price text,
    0 <= Agent.your_budget context < 2 ^ 53 ->
    Agent.last_offer_of context = Ok last ->
    0 <= last < 2 ^ 53 ->
    Agent.respond_to_seller_offer context seller_price msg
    = Ok (Agent.COUNTER, price, text) ->
    last <= price /\
    exists anchor,
      int_mul (Agent.your_budget context) f_0_8 = Ok anchor /\
      0 <= anchor <= Agent.your_budget context /\ anchor <= price.
Proof.
  intros context seller_price msg last price text Hb Hlast Hl.
  destruct literals_above_one as (_ & _ & H107 & _).
  destruct literals_below_one as (H08 & _).
  destruct (int_mul_above last _ H107 Hl) as (raised & Hraised & Hge).
  destruct (int_mul_below _ _ H08 Hb) as (anchor & Hanchor & Hle).
  unfold Agent.respond_to_seller_offer.
  destruct (seller_price <=? Agent.your_budget context); [discriminate|].
  destruct (mul_int_float _ f_1_5) as [limit|e]; cbn [bind]; [|discriminate].
  destruct (int_gt_float seller_price limit); [discriminate|].
  rewrite Hlast. cbn [bind]. rewrite Hraised. cbn [bind]. rewrite Hanchor.
  cbn [bind]. intros H; inversion H; subst.
  split; [lia|]. exists anchor. split; [reflexivity|]. lia.
Qed.

Lemma buyer_counter_never_decreases_witness :
  117000 <= 160000 /\
  exists anchor,
    int_mul (Agent.your_budget (Buyer.fresh_context 200000)) f_0_8 = Ok anchor /\
    0 <= anchor <= Agent.your_budget (Buyer.fresh_context 200000) /\
    anchor <= 160000.
Proof.
  apply (buyer_counter_never_decreases (Buyer.fresh_context 200000) 250000
           "My best price." 117000 160000 "I can offer ₹160,000.").
  - cbn. lia.
  - vm_compute. reflexivity.
  - lia.
  - vm_compute. reflexivity.
Defined.

(** X13.  The buyer's reject test [seller_price > budget * 1.5] is exact
    while three times the budget fits in 53 bits: an offer above the budget
    is rejected exactly when twice the offer is more than three times the
    budget, and is countered otherwise. *)
Theorem buyer_rejects_above_one_and_a_half :
  forall context seller_price msg,
    0 <= Agent.your_budget context ->
    3 * Agent.your_budget context < 2 ^ 53 ->
    Agent.your_budget context < seller_price ->
    (3 * Agent.your_budget context < 2 * seller_price ->
     Agent.respond_to_seller_offer context seller_price msg
     = Ok (Agent.REJECTED, 0, "Too expensive, I cannot proceed.")) /\
    (2 * seller_price <= 3 * Agent.your_budget context ->
     forall status price text,
       Agent.respond_to_seller_offer context seller_price msg
       = Ok (status, price, text) ->
       status = Agent.COUNTER).
Proof.
  intros context seller_price msg Hb0 Hb Hover.
  destruct (int_gt_one_and_a_half (Agent.your_budget context) seller_price Hb0 Hb)
    as (limit & Hlimit & Hgt).
  unfold Agent.respond_to_seller_offer.
  assert (E : (seller_price <=? Agent.your_budget context) = false)
    by (apply Z.leb_gt; lia).
  rewrite E, Hlimit. cbn [bind]. rewrite Hgt. split.
  - intros H. apply Z.ltb_lt in H. rewrite H. reflexivity.
  - intros H. assert (E2 : (3 * Agent.your_budget context <? 2 * seller_price) = false)
      by (apply Z.ltb_ge; lia).
    rewrite E2. intros status price text.
    destruct (Agent.last_offer_of context) as [last|e]; cbn [bind]; [|discriminate].
    destruct (int_mul last f_1_07) as [raised|e]; cbn [bind]; [|discriminate].
    destruct (int_mul _ f_0_8) as [anchor|e]; cbn [bind]; [|discriminate].
    intros H'; inversion H'; reflexivity.
Qed.

Lemma buyer_rejects_above_one_and_a_half_witness :
  Agent.respond_to_seller_offer (Buyer.fresh_context 200000) 300001 "Take it."
  = Ok (Agent.REJECTED, 0, "Too expensive, I cannot proceed.").
Proof.
  apply (buyer_rejects_above_one_and_a_half (Buyer.fresh_context 200000) 300001
           "Take it."); cbn; lia.
Defined.
(* ================================================================== *)
(** * Further properties: the buyer's client *)
(* ================================================================== *)

(** X14.  With the local model in use, [handle_offer] sends the record the
    model's text decodes to as it is: the price is not compared with the
    budget.  A counter's price is appended to the buyer's offers; a text
    that is not JSON (and holds nothing that reads as a float) is replaced
    by the fixed reject; a record without an [action] raises, after the
    round, the price and the message have been recorded, and nothing is
    sent. *)
Theorem model_record_is_sent_unchecked :
  forall ollama_generate self seller_data price message z,
    dict_get seller_data "price" = Some price ->
    Buyer.formatted_price price = Ok z ->
    dict_get seller_data "message" = Some message ->
    let c := context_at_offer self price message in
    let text := ollama_generate c price message in
    let handled := Buyer.handle_offer true ollama_generate self seller_data in
    (forall d action,
        loads text = Some (JObj d) -> dict_get d "action" = Some action ->
        Buyer.json_is_str action "counter" = false ->
        handled = (Buyer.sendall (Buyer.set_context self c) (JObj d), Ok tt)) /\
    (forall d p,
        loads text = Some (JObj d) ->
        dict_get d "action" = Some (JStr "counter") ->
        dict_get d "price" = Some p ->
        handled
        = (Buyer.sendall (Buyer.set_context self (Buyer.record_own_offer c p))
             (JObj d), Ok tt)) /\
    (float_free text = true -> loads text = None ->
     handled
     = (Buyer.sendall (Buyer.set_context self c)
          (Buyer.action_record "reject" (JInt 0) "Invalid model response."),
        Ok tt)) /\
    (forall d,
        loads text = Some (JObj d) -> dict_get d "action" = None ->
        handled = (Buyer.set_context self c, Raise KeyError)).
Proof.
  intros og self seller_data price message z Hp Hz Hm c text handled.
  subst handled. rewrite (handle_offer_decided true og self seller_data price message Hp Hm).
  cbv zeta. fold c. unfold Buyer.decide. rewrite Hz. cbn [bind]. fold text.
  repeat split.
  - intros d action Hl Ha Hc. rewrite Hl. cbn [Buyer.counter_price_of].
    rewrite Ha, Hc. reflexivity.
  - intros d p Hl Ha Hpr. rewrite Hl. cbn [Buyer.counter_price_of].
    rewrite Ha, Hpr. reflexivity.
  - intros _ Hl. rewrite Hl. reflexivity.
  - intros d Hl Ha. rewrite Hl. cbn [Buyer.counter_price_of]. rewrite Ha.
    reflexivity.
Qed.

Lemma model_record_is_sent_unchecked_witness :
  Buyer.sent
    (fst (Buyer.handle_offer true
            (fun _ _ _ => jq "{'action': 'counter', 'price': 900000, 'message': 'Mine.'}")
            (Buyer.init 200000)
            [("type", JStr "offer"); ("price", JInt 251999);
             ("message", JStr "Welcome!")]))
  = [JObj [("action", JStr "counter"); ("price", JInt 900000);
           ("message", JStr "Mine.")]].
Proof.
  pose proof (model_record_is_sent_unchecked
                (fun _ _ _ => jq "{'action': 'counter', 'price': 900000, 'message': 'Mine.'}")
                (Buyer.init 200000)
                [("type", JStr "offer"); ("price", JInt 251999);
                 ("message", JStr "Welcome!")]
                (JInt 251999) (JStr "Welcome!") 251999 eq_refl eq_refl eq_refl)
    as (_ & Hcounter & _).
  cbv zeta in Hcounter.
  rewrite (Hcounter [("action", JStr "counter"); ("price", JInt 900000);
                     ("message", JStr "Mine.")] (JInt 900000)
             ltac:(vm_compute; reflexivity) eq_refl eq_refl).
  reflexivity.
Defined.
(** X15.  On a stream of UTF-8 lines, [_ollama_generate] returns the
    contents of the chunks, joined in order and stripped, up to and
    including the first chunk whose [done] is true; what follows that chunk
    is not read.  Empty lines, and UTF-8 lines that are not JSON and hold
    nothing that reads as a float, can stand anywhere in the stream without
    changing the text returned. *)
Theorem ollama_stream_is_concatenated :
  forall lines contents,
    Forall2 (fun line content =>
               valid_utf8 line = true /\ content_chunk line content false)
            lines contents ->
    Ollama._ollama_generate (Ok (map Ok lines))
    = strip (String.concat EmptyString contents) /\
    (forall last content rest,
        valid_utf8 last = true -> content_chunk last content true ->
        Ollama._ollama_generate (Ok (map Ok lines ++ Ok last :: rest)%list)
        = strip (String.concat EmptyString contents ++ content)) /\
    (forall noise k,
        passed_over noise ->
        Ollama._ollama_generate
          (Ok (firstn k (map Ok lines) ++ Ok noise :: skipn k (map Ok lines))%list)
        = Ollama._ollama_generate (Ok (map Ok lines))).
Proof.
  intros lines contents Hall. unfold Ollama._ollama_generate. cbn [bind].
  split; [|split].
  - pose proof (iter_lines_contents lines contents Hall [] EmptyString) as H.
    rewrite List.app_nil_r in H. rewrite H. reflexivity.
  - intros last content rest Hv Hlast.
    rewrite (iter_lines_contents lines contents Hall). cbn [append Ollama.iter_lines].
    destruct (read_content_chunk last content true
                (String.concat EmptyString contents) Hlast)
      as (-> & chunk & -> & ->).
    rewrite Hv. reflexivity.
  - intros noise k Hn. rewrite iter_lines_skip by exact Hn.
    rewrite firstn_skipn. reflexivity.
Qed.

Lemma ollama_stream_is_concatenated_witness :
  Ollama._ollama_generate
    (Ok (map Ok [jq "{'message': {'content': ' {'}, 'done': false}"]
         ++ [Ok (jq "{'message': {'content': '} '}, 'done': true}");
             Ok (jq "{'message': {'content': 'unread'}}")])%list)
  = strip (String.concat EmptyString [" {"] ++ "} ").
Proof.
  apply (ollama_stream_is_concatenated
           [jq "{'message': {'content': ' {'}, 'done': false}"] [" {"]).
  - constructor; [|constructor]. split; [vm_compute; reflexivity|].
    split; [discriminate|].
    eexists; eexists. split; [vm_compute; reflexivity|].
    split; [reflexivity|]. split; reflexivity.
  - vm_compute; reflexivity.
  - split; [discriminate|].
    eexists; eexists. split; [vm_compute; reflexivity|].
    split; [reflexivity|]. split; reflexivity.
Defined.

(** X16.  When the request fails, when the stream breaks off, or when a
    line decodes to something that is not a dict, [_ollama_generate] drops
    the text gathered so far and returns the fixed reject text, which
    decodes to a reject at price 0: the buyer then answers the seller's
    offer with that reject. *)
Theorem ollama_failure_rejects :
  let reject :=
    Buyer.action_record "reject" (JInt 0) "Ollama unavailable, rejecting." in
  (forall e, Ollama._ollama_generate (Raise e) = Ollama.unavailable) /\
  (forall lines contents e rest,
      Forall2 (fun line content => content_chunk line content false) lines contents ->
      Ollama._ollama_generate (Ok (map Ok lines ++ Raise e :: rest)%list)
      = Ollama.unavailable) /\
  (forall lines contents line v rest,
      Forall2 (fun line content => content_chunk line content false) lines contents ->
      line <> EmptyString -> loads line = Some v -> (forall d, v <> JObj d) ->
      Ollama._ollama_generate (Ok (map Ok lines ++ Ok line :: rest)%list)
      = Ollama.unavailable) /\
  loads Ollama.unavailable = Some reject /\
  (forall server self seller_data price message z,
      dict_get seller_data "price" = Some price ->
      Buyer.formatted_price price = Ok z ->
      dict_get seller_data "message" = Some message ->
      Ollama._ollama_generate
        (server (context_at_offer self price message) price message)
      = Ollama.unavailable ->
      Buyer.handle_offer true
        (fun c p m => Ollama._ollama_generate (server c p m)) self seller_data
      = (Buyer.sendall
           (Buyer.set_context self (context_at_offer self price message)) reject,
         Ok tt)).
Proof.
  intros reject. split; [reflexivity|]. split; [|split; [|split]].
  - intros lines contents e rest Hall. unfold Ollama._ollama_generate. cbn [bind].
    destruct (iter_lines_prefix lines contents Hall (Raise e :: rest) EmptyString)
      as [[e' ->] | ->]; reflexivity.
  - intros lines contents line v rest Hall Hne Hl Hv.
    unfold Ollama._ollama_generate. cbn [bind].
    destruct (iter_lines_prefix lines contents Hall (Ok line :: rest) EmptyString)
      as [[e' ->] | ->]; [reflexivity|].
    cbn [Ollama.iter_lines].
    apply String.eqb_neq in Hne. rewrite Hne, Hl.
    destruct (valid_utf8 line); cbn [negb]; [|reflexivity].
    destruct (read_chunk_not_dict (EmptyString ++ String.concat EmptyString contents)
                v Hv) as [e ->].
    reflexivity.
  - vm_compute. reflexivity.
  - intros server self seller_data price message z Hp Hz Hm Hfail.
    rewrite (handle_offer_decided true _ self seller_data price message Hp Hm).
    cbv zeta. unfold Buyer.decide. rewrite Hz. cbn [bind]. rewrite Hfail.
    reflexivity.
Qed.

Lemma ollama_failure_rejects_witness :
  Buyer.sent
    (fst (Buyer.handle_offer true
            (fun c p m => Ollama._ollama_generate (Raise ValueError))
            (Buyer.init 200000)
            [("type", JStr "offer"); ("price", JInt 251999);
             ("message", JStr "Welcome!")]))
  = [Buyer.action_record "reject" (JInt 0) "Ollama unavailable, rejecting."].
Proof.
  pose proof ollama_failure_rejects as (_ & _ & _ & _ & H).
  rewrite (H (fun _ _ _ => Raise ValueError) (Buyer.init 200000)
             [("type", JStr "offer"); ("price", JInt 251999);
              ("message", JStr "Welcome!")]
             (JInt 251999) (JStr "Welcome!") 251999 eq_refl eq_refl eq_refl eq_refl).
  reflexivity.
Defined.
(** X17.  Whatever the seller sends and whatever the model answers, a
    buyer's session keeps the client consistent: the budget is the one it
    was built with, the round never passes [MAX_ROUNDS], the socket is
    closed only once the round limit is reached (and the client is then
    inactive), the buyer's own offers are no more than the messages
    recorded, these no more than the seller's offers recorded, these no more
    than the rounds, and the records sent are at most one for each message
    recorded, plus the final reject of a closed socket. *)
Theorem buyer_session_invariants :
  forall USE_OLLAMA ollama_generate budget incoming,
    session_invariant budget
      (fst (Buyer.main_loop USE_OLLAMA ollama_generate (Buyer.init budget) incoming)).
Proof.
  intros uo og b incoming. apply main_loop_invariant.
  - apply init_invariant.
  - reflexivity.
  - reflexivity.
Qed.

(** X18.  The handshake that closes a deal in fallback mode: when the
    seller's offer or counter is within the buyer's budget, the buyer
    answers with an accept at the seller's price; the seller's handler
    confirms the deal at that same price and stays as it was; and on the
    confirmation the buyer stops without sending anything more. *)
Theorem buyer_accept_is_confirmed :
  forall ollama_generate use_gemini generate_content int_of_str repr_container
         self seller reply,
    Seller.r_type reply = "offer" \/ Seller.r_type reply = "counter" ->
    Seller.r_price reply <= budget_in_force self ->
    round_of self + 1 < Buyer.MAX_ROUNDS ->
    let accept :=
      Buyer.action_record "accept" (JInt (Seller.r_price reply))
        "That works for me. Deal accepted." in
    let confirmed :=
      {| Seller.r_type := "deal_confirmed"; Seller.r_price := Seller.r_price reply;
         Seller.r_message := "Deal confirmed! Pleasure doing business with you.";
         Seller.r_round := Seller.round seller |} in
    exists self',
      Buyer.negotiate false ollama_generate self (Seller.encode_reply reply)
      = (self', true) /\
      Buyer.sent self' = (Buyer.sent self ++ [accept])%list /\
      Seller.handle_buyer_message use_gemini generate_content int_of_str
        repr_container seller accept = (seller, Ok confirmed) /\
      Buyer.negotiate false ollama_generate self' (Seller.encode_reply confirmed)
      = (self', false).
Proof.
  intros og ug gc ios rc self seller reply Htype Hprice Hround accept confirmed.
  rewrite negotiate_reply. cbv zeta.
  assert (Ht : existsb (String.eqb (Seller.r_type reply)) ["offer"; "counter"] = true).
  { destruct Htype as [-> | ->]; reflexivity. }
  rewrite Ht.
  rewrite (handle_offer_decided false og self
             [("type", JStr (Seller.r_type reply));
              ("price", JInt (Seller.r_price reply));
              ("message", JStr (Seller.r_message reply));
              ("round", JInt (Seller.r_round reply))]
             (JInt (Seller.r_price reply))
             (JStr (Seller.r_message reply)) eq_refl eq_refl).
  cbv zeta. unfold Buyer.decide. cbn [Buyer.formatted_price bind Buyer.message_text].
  unfold Agent.respond_to_seller_offer.
  assert (Hb : Agent.your_budget
                 (context_at_offer self (JInt (Seller.r_price reply))
                    (JStr (Seller.r_message reply)))
               = budget_in_force self).
  { unfold context_at_offer, budget_in_force.
    destruct (Buyer.context self); reflexivity. }
  rewrite Hb. apply Z.leb_le in Hprice. rewrite Hprice. cbn [bind].
  cbn [Buyer.counter_price_of Buyer.action_record dict_get String.eqb Ascii.eqb
       Bool.eqb Buyer.json_is_str].
  cbn [Buyer.context Buyer.sendall Buyer.set_context].
  assert (Hr : Agent.current_round
                 (context_at_offer self (JInt (Seller.r_price reply))
                    (JStr (Seller.r_message reply)))
               = round_of self + 1).
  { unfold context_at_offer, round_of. destruct (Buyer.context self); reflexivity. }
  rewrite Hr.
  assert (Hlt : (round_of self + 1 >=? Buyer.MAX_ROUNDS) = false).
  { rewrite Z.geb_leb. apply Z.leb_gt. exact Hround. }
  rewrite Hlt. eexists. split; [reflexivity|].
  split; [reflexivity|]. split.
  - unfold Seller.handle_buyer_message, accept, Buyer.action_record.
    rewrite (buyer_fields_action ios rc
               [("action", JStr "accept"); ("price", JInt (Seller.r_price reply));
                ("message", JStr "That works for me. Deal accepted.")]
               "accept" eq_refl eq_refl).
    rewrite (price_field_int ios
               [("action", JStr "accept"); ("price", JInt (Seller.r_price reply));
                ("message", JStr "That works for me. Deal accepted.")]
               (Seller.r_price reply) eq_refl).
    reflexivity.
  - rewrite negotiate_reply. reflexivity.
Qed.

Lemma buyer_accept_is_confirmed_witness :
  exists self',
    Buyer.negotiate false steady_model (Buyer.init 200000) (seller_counter 190000)
    = (self', true) /\
    Buyer.sent self'
    = [Buyer.action_record "accept" (JInt 190000) "That works for me. Deal accepted."].
Proof.
  destruct (buyer_accept_is_confirmed steady_model false
              (fun _ _ _ => Raise ValueError) (fun _ => Raise ValueError)
              (fun _ => EmptyString) (Buyer.init 200000) default_seller
              {| Seller.r_type := "counter"; Seller.r_price := 190000;
                 Seller.r_message := "My best price."; Seller.r_round := 1 |})
    as (self' & Hn & Hs & _).
  - right. reflexivity.
  - apply Z.leb_le. reflexivity.
  - apply Z.ltb_lt. reflexivity.
  - exists self'. split; [exact Hn | exact Hs].
Defined.

(* ================================================================== *)
(** * Further properties: the orchestrator *)
(* ================================================================== *)

(** X19.  The loop of [wrapped_buyer] in main.py calls [negotiate] at most
    [MAX_EXCHANGES] (10) times, whatever arrives on the socket.  Either it
    leaves through a [break], after at least [MIN_EXCHANGES] (3) and at
    most 10 calls, or it waits in a [recv] that never returns (the socket
    has no timeout) with fewer than 10 calls completed.  When each of the
    first ten [recv]s returns, it leaves through a [break].  The buyer's
    round never passes the count of exchanges, and the client is left
    consistent. *)
Theorem wrapped_buyer_exchange_bounds :
  forall USE_OLLAMA ollama_generate recv fuel,
    (10 <= fuel)%nat ->
    exists e,
      Main.wrapped_buyer USE_OLLAMA ollama_generate recv fuel = Some e /\
      match e with
      | Main.Broke buyer count =>
          Main.MIN_EXCHANGES <= count <= Main.MAX_EXCHANGES /\
          round_of buyer <= count /\
          session_invariant 200000 buyer
      | Main.Blocked buyer count =>
          0 <= count < Main.MAX_EXCHANGES /\
          recv (Z.to_nat count) = None /\
          round_of buyer <= count /\
          session_invariant 200000 buyer
      end /\
      ((forall k, (k < 10)%nat -> recv k <> None) ->
       exists buyer count, e = Main.Broke buyer count).
Proof.
  intros uo og recv fuel Hfuel. unfold Main.wrapped_buyer.
  destruct (wrapped_loop_bounds uo og recv 200000 fuel (Buyer.init 200000) 0 0%nat)
    as (e & H1 & H2).
  - unfold Main.MAX_EXCHANGES. lia.
  - unfold Main.MAX_EXCHANGES. lia.
  - reflexivity.
  - apply init_invariant.
  - reflexivity.
  - cbn. lia.
  - exists e. split; [exact H1|].
    destruct e as [buyer count|buyer count].
    + destruct H2 as (H2 & _ & H3 & H4).
      split; [split; [exact H2 | split; [exact H3 | exact H4]]|].
      intros _. exists buyer, count. reflexivity.
    + destruct H2 as (H2 & H3 & H4 & H5).
      split; [split; [exact H2 | split; [exact H3 | split; [exact H4 | exact H5]]]|].
      intros Hall. exfalso. apply (Hall (Z.to_nat count)); [|exact H3].
      unfold Main.MAX_EXCHANGES in H2. lia.
Qed.

Lemma wrapped_buyer_exchange_bounds_witness :
  exists e,
    Main.wrapped_buyer false steady_model
      (fun k => match k with
                | O => Some (seller_counter 250000)
                | _ => None
                end) 10
    = Some e.
Proof.
  destruct (wrapped_buyer_exchange_bounds false steady_model
              (fun k => match k with
                        | O => Some (seller_counter 250000)
                        | _ => None
                        end) 10) as (e & H & _); [lia|].
  exists e. exact H.
Defined.
(* ================================================================== *)
(** * Further properties: the buyer's records on the wire *)
(* ================================================================== *)

(** X20.  What the buyer writes with [json.dumps(record)], escaped to
    ASCII, the seller reads back with [json.loads]: every value whose dicts
    have distinct keys and whose strings are UTF-8 texts, and so every
    record of an action, a price and a message, which the seller's loop
    decodes to the record the buyer sent. *)
Theorem buyer_wire_round_trip :
  (forall v, well_formed v = true -> utf8_json v = true ->
             loads (EnsureAscii.encode_record v) = Some v) /\
  (forall d, well_formed (JObj d) = true -> utf8_json (JObj d) = true ->
             Seller.decode_received (EnsureAscii.encode_record (JObj d))
             = Ok (Some (JObj d))) /\
  (forall action price message,
      valid_utf8 action = true -> valid_utf8 message = true ->
      Seller.decode_received
        (EnsureAscii.encode_record
           (Buyer.action_record action (JInt price) message))
      = Ok (Some (Buyer.action_record action (JInt price) message))).
Proof.
  assert (Hdecode : forall d, well_formed (JObj d) = true ->
                              utf8_json (JObj d) = true ->
                              Seller.decode_received
                                (EnsureAscii.encode_record (JObj d))
                              = Ok (Some (JObj d))).
  { intros d Hwf Hutf.
    rewrite (decode_received_text _ (encode_record_valid (JObj d))).
    unfold EnsureAscii.encode_record.
    assert (Hs : strip (EnsureAscii.dumps_ascii (JObj d))
                 = EnsureAscii.dumps_ascii (JObj d)).
    { rewrite dumps_ascii_obj. cbn [append]. apply strip_braced. }
    rewrite Hs, (loads_dumps_ascii (JObj d) Hwf Hutf). reflexivity. }
  split; [exact loads_dumps_ascii|]. split; [exact Hdecode|].
  intros action price message Ha Hm. apply Hdecode; [reflexivity|].
  cbn [utf8_json Buyer.action_record forallb fst snd]. rewrite Ha, Hm.
  reflexivity.
Qed.

Lemma buyer_wire_round_trip_witness :
  Seller.decode_received
    (EnsureAscii.encode_record
       (Buyer.action_record "counter" (JInt 160000) "I can offer ₹160,000."))
  = Ok (Some (Buyer.action_record "counter" (JInt 160000) "I can offer ₹160,000.")).
Proof.
  apply (proj2 (proj2 buyer_wire_round_trip)); reflexivity.
Defined.

(** X21.  When two records of the buyer arrive in one read, as the answer
    and the closing reject the buyer sends back to back at the round limit
    may, the seller's loop decodes the first and never sees the second:
    the whole text is not JSON, and the first balanced block is the first
    record, provided its braces balance at its end and not before. *)
Theorem coalesced_records_first_only :
  forall d1 d2,
    well_formed (JObj d1) = true -> utf8_json (JObj d1) = true ->
    closes_at_end (EnsureAscii.encode_record (JObj d1)) ->
    loads (EnsureAscii.encode_record (JObj d1)
           ++ EnsureAscii.encode_record (JObj d2)) = None /\
    Seller.decode_received
      (EnsureAscii.encode_record (JObj d1) ++ EnsureAscii.encode_record (JObj d2))
    = Ok (Some (JObj d1)).
Proof.
  intros d1 d2 Hwf Hutf Hclose.
  rewrite (decode_received_text _ (encode_records_valid (JObj d1) (JObj d2))).
  unfold EnsureAscii.encode_record in *.
  assert (Hnone : loads (EnsureAscii.dumps_ascii (JObj d1)
                         ++ EnsureAscii.dumps_ascii (JObj d2)) = None).
  { rewrite (dumps_ascii_obj d2). cbn [append].
    apply loads_extra_data; [|reflexivity | reflexivity].
    apply (parse_dumps_ascii (size (JObj d1))); [lia | exact Hwf | exact Hutf]. }
  split; [exact Hnone|].
  assert (Hstrip : strip (EnsureAscii.dumps_ascii (JObj d1)
                          ++ EnsureAscii.dumps_ascii (JObj d2))
                   = EnsureAscii.dumps_ascii (JObj d1)
                     ++ EnsureAscii.dumps_ascii (JObj d2)).
  { assert (E : EnsureAscii.dumps_ascii (JObj d1) ++ EnsureAscii.dumps_ascii (JObj d2)
                = String lbrace
                    (((dumps_ascii_members d1 ++ "}")
                      ++ String lbrace (dumps_ascii_members d2))
                     ++ String rbrace EmptyString)).
    { rewrite !dumps_ascii_obj. cbn [append]. f_equal.
      rewrite !append_assoc. reflexivity. }
    rewrite E. apply strip_braced. }
  rewrite Hstrip, Hnone.
  pose proof (extract_embedded EmptyString (EnsureAscii.dumps_ascii (JObj d1))
                (EnsureAscii.dumps_ascii (JObj d2)) eq_refl Hclose) as Hext.
  cbn [append] in Hext. rewrite Hext.
  rewrite (loads_dumps_ascii (JObj d1) Hwf Hutf). reflexivity.
Qed.

Lemma coalesced_records_first_only_witness :
  Seller.decode_received
    (EnsureAscii.encode_record
       (Buyer.action_record "counter" (JInt 160000) "I can offer ₹160,000.")
     ++ EnsureAscii.encode_record
          (Buyer.action_record "reject" (JInt 0) "Max rounds reached."))
  = Ok (Some (Buyer.action_record "counter" (JInt 160000) "I can offer ₹160,000.")).
Proof.
  apply (coalesced_records_first_only
           [("action", JStr "counter"); ("price", JInt 160000);
            ("message", JStr "I can offer ₹160,000.")]
           [("action", JStr "reject"); ("price", JInt 0);
            ("message", JStr "Max rounds reached.")]).
  - reflexivity.
  - reflexivity.
  - apply closes_at_endb_correct. vm_compute. reflexivity.
Defined.
(* ================================================================== *)
(** * Further properties: the two fallback policies together *)
(* ================================================================== *)

(** X22.  Buyer and seller both on their fallback policies, each record
    arriving whole: when the seller's floor is positive and thirteen tenths
    of it are within the buyer's budget, the negotiation is over after two
    exchanges at most.  The buyer answers the opening offer; on that answer
    the seller either ends (it accepts the buyer's counter, confirms the
    buyer's accept, or acknowledges the buyer's reject) or counters, and the
    buyer then accepts that counter, which the seller confirms.  A deal is
    never below the floor, and the deal on the seller's counter is within
    the budget. *)
Theorem fallback_session_closes_early :
  forall ollama_generate generate_content int_of_str repr_container seller budget,
    0 < Seller.min_price seller < 2 ^ 52 ->
    Seller.min_price seller <= Seller.current_price seller ->
    0 <= budget -> 3 * budget < 2 ^ 53 ->
    13 * Seller.min_price seller <= 10 * budget ->
    let handle := Seller.handle_buyer_message false generate_content int_of_str
                    repr_container in
    let hear := fun buyer reply =>
                  Buyer.negotiate false ollama_generate buyer
                    (Seller.encode_reply reply) in
    exists buyer1 record1 seller1 reply1,
      hear (Buyer.init budget) (Seller.opening_msg seller) = (buyer1, true) /\
      Buyer.sent buyer1 = [record1] /\
      handle seller record1 = (seller1, Ok reply1) /\
      ((is_final (Seller.r_type reply1) = true /\
        hear buyer1 reply1 = (buyer1, false) /\
        (Seller.r_type reply1 <> "reject" ->
         Seller.min_price seller <= Seller.r_price reply1))
       \/
       (Seller.r_type reply1 = "counter" /\
        exists buyer2 record2 reply2,
          hear buyer1 reply1 = (buyer2, true) /\
          Buyer.sent buyer2 = [record1; record2] /\
          handle seller1 record2 = (seller1, Ok reply2) /\
          Seller.r_type reply2 = "deal_confirmed" /\
          Seller.r_price reply2 = Seller.r_price reply1 /\
          Seller.min_price seller <= Seller.r_price reply2 <= budget /\
          hear buyer2 reply2 = (buyer2, false))).
Proof.
  intros og gc ios rc seller b Hfloor Hask Hb0 Hb Hratio handle hear.
  subst handle hear. cbv beta.
  set (opening := Seller.opening_msg seller).
  assert (Hotype : Seller.r_type opening = "offer" \/ Seller.r_type opening = "counter")
    by (left; reflexivity).
  assert (Hround0 : round_of (Buyer.init b) + 1 < Buyer.MAX_ROUNDS) by reflexivity.
  set (A := Seller.current_price seller).
  assert (HA : Seller.r_price opening = A) by reflexivity.
  set (c := context_at_offer (Buyer.init b) (JInt (Seller.r_price opening))
              (JStr (Seller.r_message opening))).
  assert (Hcb : Agent.your_budget c = b) by reflexivity.
  destruct (Z.le_gt_cases A b) as [Hin|Hover].
  { (* the opening offer is within the budget *)
    assert (Hresp : Agent.respond_to_seller_offer c (Seller.r_price opening)
                      (Seller.r_message opening)
                    = Ok (Agent.ACCEPTED, A, "That works for me. Deal accepted.")).
    { unfold Agent.respond_to_seller_offer. rewrite Hcb, HA.
      apply Z.leb_le in Hin. rewrite Hin. reflexivity. }
    destruct (fallback_step og (Buyer.init b) opening _ _ _ Hotype Hround0 Hresp)
      as (buyer1 & Hhear & Hsent & _ & _).
    eexists buyer1, _, seller, _. split; [exact Hhear|].
    split; [exact Hsent|]. split; [apply handle_accept_record|].
    left. split; [reflexivity|]. split; [apply hear_final; reflexivity|].
    intros _. cbn [Seller.r_price]. lia. }
  destruct (int_gt_one_and_a_half b A Hb0 Hb) as (limit & Hlimit & Hgt).
  destruct (Z.ltb_spec (3 * b) (2 * A)) as [Hfar|Hnear].
  { (* the opening offer is rejected *)
    assert (Hresp : Agent.respond_to_seller_offer c (Seller.r_price opening)
                      (Seller.r_message opening)
                    = Ok (Agent.REJECTED, 0, "Too expensive, I cannot proceed.")).
    { unfold Agent.respond_to_seller_offer. rewrite Hcb, HA.
      assert (E : (A <=? b) = false) by (apply Z.leb_gt; lia).
      rewrite E, Hlimit. cbn [bind]. rewrite Hgt. reflexivity. }
    destruct (fallback_step og (Buyer.init b) opening _ _ _ Hotype Hround0 Hresp)
      as (buyer1 & Hhear & Hsent & _ & _).
    eexists buyer1, _, seller, _. split; [exact Hhear|].
    split; [exact Hsent|]. split; [apply handle_reject_record|].
    left. split; [reflexivity|]. split; [apply hear_final; reflexivity|].
    intros H. exfalso. apply H. reflexivity. }
  (* the opening offer is countered *)
  destruct literals_below_one as (H08 & _).
  destruct (int_mul_below b _ H08 ltac:(lia)) as (anchor & Hanchor & Hale).
  set (p1 := Z.max 125190 anchor).
  assert (Hresp : Agent.respond_to_seller_offer c (Seller.r_price opening)
                    (Seller.r_message opening)
                  = Ok (Agent.COUNTER, p1,
                        "I can offer ₹" ++ format_commas p1 ++ ".")).
  { unfold Agent.respond_to_seller_offer. rewrite Hcb, HA.
    assert (E : (A <=? b) = false) by (apply Z.leb_gt; lia).
    rewrite E, Hlimit. cbn [bind]. rewrite Hgt.
    change (Agent.last_offer_of c) with (int_mul 180000 f_0_65).
    assert (E65 : int_mul 180000 f_0_65 = Ok 117000) by (vm_compute; reflexivity).
    assert (E107 : int_mul 117000 f_1_07 = Ok 125190) by (vm_compute; reflexivity).
    rewrite E65. cbn [bind]. rewrite E107. cbn [bind]. rewrite Hanchor.
    reflexivity. }
  destruct (fallback_step og (Buyer.init b) opening _ _ _ Hotype Hround0 Hresp)
    as (buyer1 & Hhear & Hsent & Hbudget1 & Hround1).
  cbn [action_of] in Hsent.
  assert (Hp1 : 0 < p1 < 2 ^ 53) by (subst p1; lia).
  destruct literals_above_one as (H11 & _).
  assert (Hfloor53 : 0 <= Seller.min_price seller < 2 ^ 53)
    by (change (2 ^ 53) with (2 * 2 ^ 52); lia).
  destruct (int_mul_above _ _ H11 Hfloor53) as (thr & Hthr & Hthr_ge).
  destruct (rule_based_cases seller p1 ("I can offer ₹" ++ format_commas p1 ++ ".")
              thr Hthr) as (Hacc & _ & Hconc).
  destruct (Z.le_gt_cases thr p1) as [Hgood|Hlow].
  { (* the seller accepts the counter *)
    destruct (Hacc Hgood) as [m Hm].
    eexists buyer1, _, _, _. split; [exact Hhear|]. split; [exact Hsent|].
    split.
    { rewrite handle_counter_record.
      rewrite (surjective_pairing (Seller._rule_based_response _ _ _)), Hm.
      reflexivity. }
    left. split; [reflexivity|]. split; [apply hear_final; reflexivity|].
    intros _. cbn [Seller.r_price]. lia. }
  (* the seller counters, and the buyer accepts *)
  assert (Hplain : plain_literal (concession (Seller.round seller + 1))).
  { destruct literals_plain as (_ & _ & _ & _ & _ & H105 & H112 & H118 & _).
    unfold concession. destruct (_ >=? 8); [exact H105|].
    destruct (_ >=? 6); [exact H112 | exact H118]. }
  assert (Hp1abs : Z.abs p1 < 2 ^ 53) by lia.
  destruct (int_mul_defined p1 _ Hp1abs Hplain) as [s Hs].
  destruct (Hconc Hlow ltac:(lia) s Hs) as [m Hm].
  pose proof (concession_near_floor _ _ _ _ _ Hfloor (conj (proj1 Hp1) Hlow) Hthr Hs)
    as Hnear_floor.
  set (s1 := Z.max (Seller.min_price seller) s) in *.
  assert (Hs1 : Seller.min_price seller <= s1 <= b) by (subst s1; lia).
  set (reply1 := {| Seller.r_type := "counter"; Seller.r_price := s1;
                    Seller.r_message := m;
                    Seller.r_round := Seller.round seller + 1 |}) in *.
  set (c2 := context_at_offer buyer1 (JInt (Seller.r_price reply1))
               (JStr (Seller.r_message reply1))).
  assert (Hresp2 : Agent.respond_to_seller_offer c2 (Seller.r_price reply1)
                     (Seller.r_message reply1)
                   = Ok (Agent.ACCEPTED, s1, "That works for me. Deal accepted.")).
  { unfold Agent.respond_to_seller_offer. subst c2.
    rewrite context_at_offer_budget, Hbudget1.
    change (budget_in_force (Buyer.init b)) with b. cbn [Seller.r_price reply1].
    assert (E : (s1 <=? b) = true) by (apply Z.leb_le; lia).
    rewrite E. reflexivity. }
  assert (Hround1' : round_of buyer1 + 1 < Buyer.MAX_ROUNDS).
  { rewrite Hround1. reflexivity. }
  destruct (fallback_step og buyer1 reply1 _ _ _ (or_intror eq_refl) Hround1' Hresp2)
    as (buyer2 & Hhear2 & Hsent2 & _ & _).
  rewrite Hsent in Hsent2. cbn [action_of app] in Hsent2.
  eexists buyer1, _, _, reply1. split; [exact Hhear|]. split; [exact Hsent|].
  split.
  { rewrite handle_counter_record.
    rewrite (surjective_pairing (Seller._rule_based_response _ _ _)), Hm.
    reflexivity. }
  right. split; [reflexivity|].
  eexists buyer2, _, _. split; [exact Hhear2|]. split; [exact Hsent2|].
  split; [apply handle_accept_record|].
  split; [reflexivity|]. split; [reflexivity|]. split; [exact Hs1|].
  apply hear_final. reflexivity.
Qed.

Lemma fallback_session_closes_early_witness :
  exists buyer1 record1 seller1 reply1,
    Buyer.negotiate false steady_model (Buyer.init 200000)
      (Seller.encode_reply (Seller.opening_msg default_seller)) = (buyer1, true) /\
    Buyer.sent buyer1 = [record1] /\
    Seller.handle_buyer_message false (fun _ _ _ => Raise ValueError)
      (fun _ => Raise ValueError) (fun _ => EmptyString) default_seller record1
    = (seller1, Ok reply1).
Proof.
  destruct (fallback_session_closes_early steady_model
              (fun _ _ _ => Raise ValueError) (fun _ => Raise ValueError)
              (fun _ => EmptyString) default_seller 200000)
    as (buyer1 & record1 & seller1 & reply1 & H1 & H2 & H3 & _);
    try (cbn; lia).
  exists buyer1, record1, seller1, reply1. auto.
Defined.
